(** * create-odoo-lxc.py: a shallow embedding and its verified properties

    The script provisions a Proxmox LXC container and installs Odoo in it.
    It is a sequence of prompts, validations, generated files and external
    commands.  The embedding keeps the functions of the script under their
    own names.  Console output, external commands and sleeping are recorded
    as a trace of events; whatever the outside world answers (what the
    operator types, how a command ends, what the file system holds) is an
    argument of the function that consumes it. *)

From Stdlib Require Import List String Ascii NArith ZArith Bool Arith Lia.
From Stdlib Require Import Floats.SpecFloat.
From Stdlib Require Import DecimalPos DecimalN.
Import ListNotations.

Set Implicit Arguments.
Set Warnings "-register-all".

(** ** Text

    A Python [str] is a sequence of Unicode code points. *)

Definition char : Type := N.
Definition str : Type := list char.

(** Literals of the script are written as Rocq strings, which are byte
    strings: [utf8] decodes them to code points.  Ill-formed input cannot
    occur in a literal; the decoder stops there. *)
Fixpoint utf8 (s : string) : str :=
  match s with
  | EmptyString => []
  | String a r =>
    let b := N_of_ascii a in
    if (b <? 128)%N then b :: utf8 r
    else
      match r with
      | EmptyString => []
      | String a1 r1 =>
        let b1 := (N_of_ascii a1 - 128)%N in
        if (b <? 224)%N then ((b - 192) * 64 + b1)%N :: utf8 r1
        else
          match r1 with
          | EmptyString => []
          | String a2 r2 =>
            let b2 := (N_of_ascii a2 - 128)%N in
            if (b <? 240)%N then ((b - 224) * 4096 + b1 * 64 + b2)%N :: utf8 r2
            else
              match r2 with
              | EmptyString => []
              | String a3 r3 =>
                let b3 := (N_of_ascii a3 - 128)%N in
                ((b - 240) * 262144 + b1 * 4096 + b2 * 64 + b3)%N :: utf8 r3
              end
          end
      end
  end.

(** A literal of the script.  The backquote, which occurs nowhere in the
    script, is written for the double quote character (code point 34). *)
Definition py (s : string) : str :=
  map (fun c : char => if (c =? 96)%N then 34%N else c) (utf8 s).

Definition nl : char := 10%N.

Definition char_eqb (a b : char) : bool := (a =? b)%N.

Fixpoint str_eqb (a b : str) : bool :=
  match a, b with
  | [], [] => true
  | x :: a', y :: b' => char_eqb x y && str_eqb a' b'
  | _, _ => false
  end.

(** [str.isspace] on one character, as CPython's [_PyUnicode_IsWhitespace]
    lists them. *)
Definition isspace (c : char) : bool :=
  ((9 <=? c) && (c <=? 13) || (28 <=? c) && (c <=? 32)
   || (c =? 133) || (c =? 160) || (c =? 5760)
   || (8192 <=? c) && (c <=? 8202)
   || (c =? 8232) || (c =? 8233) || (c =? 8239) || (c =? 8287)
   || (c =? 12288))%N.

Fixpoint lstrip (s : str) : str :=
  match s with
  | [] => []
  | c :: r => if isspace c then lstrip r else s
  end.

Definition rstrip (s : str) : str := rev (lstrip (rev s)).

(** [s.strip()] *)
Definition strip (s : str) : str := rstrip (lstrip s).

(** [sep.join(parts)] *)
Fixpoint join (sep : str) (parts : list str) : str :=
  match parts with
  | [] => []
  | [p] => p
  | p :: rest => p ++ sep ++ join sep rest
  end.

(** [needle in s], as a proposition: [s] holds [needle] as a contiguous
    piece. *)
Definition Infix (needle s : str) : Prop :=
  exists pre post, s = pre ++ needle ++ post.

(** [s.startswith(a)] and [a in s], computed. *)
Fixpoint prefixb (a s : str) : bool :=
  match a, s with
  | [], _ => true
  | x :: a', y :: s' => char_eqb x y && prefixb a' s'
  | _ :: _, [] => false
  end.

Fixpoint infixb (a s : str) : bool :=
  prefixb a s
  || match s with
     | [] => false
     | _ :: s' => infixb a s'
     end.

(** ** Numbers and values

    Python's [float] is IEEE 754 binary64, here the Standard Library's
    specification of it; [int] is unbounded. *)

Definition float : Type := spec_float.
Definition prec : Z := 53%Z.
Definition emax : Z := 1024%Z.

Inductive num : Type :=
| NInt (z : Z)
| NFloat (f : float).

(** The values [json.loads] builds.  A dictionary is the list of its items,
    whose keys differ. *)
Inductive value : Type :=
| VNone
| VBool (b : bool)
| VInt (z : Z)
| VFloat (f : float)
| VStr (s : str)
| VList (items : list value)
| VDict (items : list (str * value)).

Definition dict : Type := list (str * value).

(** ** Console, processes and the outcome of a call *)

Inductive stream : Type := Stdout | Stderr.

(** What a run does that can be observed: it prints, it reads a line at a
    prompt, it hands a command to the shell, it sleeps.  [Divide] records
    that the interpreter evaluates a true division [dividend / divisor],
    [File_write] that a file is opened for writing, written and closed. *)
Inductive event : Type :=
| Print (file : stream) (text end_ : str)
| Prompt (text : str)
| Shell (command : str)
| Sleep (seconds : N)
| Divide (dividend divisor : num)
| File_write (path content : str).

(** How a call ends: it returns, it leaves through [sys.exit], or an
    exception that nothing catches goes up. *)
Inductive outcome (A : Type) : Type :=
| Returned (a : A)
| Exited (code : Z)
| Raised (exception : str).

Arguments Returned {A} a.
Arguments Exited {A} code.
Arguments Raised {A} exception.

(** A computation: the trace of what it did and how it ended. *)
Definition comp (A : Type) : Type := (list event * outcome A)%type.

Definition ret {A : Type} (a : A) : comp A := ([], Returned a).

Definition bind {A B : Type} (m : comp A) (k : A -> comp B) : comp B :=
  match m with
  | (t, Returned a) => let (t', r) := k a in (t ++ t', r)
  | (t, Exited code) => (t, Exited code)
  | (t, Raised e) => (t, Raised e)
  end.

Notation "x <- m ;; k" := (bind m (fun x => k))
  (at level 61, m at next level, right associativity).
Notation "m ;;; k" := (bind m (fun _ => k))
  (at level 61, right associativity).

Definition emit (es : list event) : comp unit := (es, Returned tt).

Definition raise {A : Type} (e : string) : comp A := ([], Raised (py e)).

Definition trace {A : Type} (m : comp A) : list event := fst m.
Definition result {A : Type} (m : comp A) : outcome A := snd m.

(** The colour table [C]. *)
Inductive colour : Type := cR | cG | cB | cY | cC | cP | cO | cN | cBOLD.

Definition esc (s : string) : str := 27%N :: py s.

Definition C (k : colour) : str :=
  match k with
  | cR => esc "[0;31m" | cG => esc "[0;32m" | cB => esc "[0;34m"
  | cY => esc "[1;33m" | cC => esc "[0;36m" | cP => esc "[0;35m"
  | cO => esc "[0;33m" | cN => esc "[0m" | cBOLD => esc "[1m"
  end.

(** [print(text)] and [print(text, file=sys.stderr)] *)
Definition print (text : str) : event := Print Stdout text [nl].

Definition msg (text type_ : str) (color : colour) : list event :=
  [print (C color ++ py "[" ++ type_ ++ py "]" ++ C cN ++ py " " ++ text)].

Definition success (text : str) : list event := msg text (py "SUCCESS") cG.
Definition warning (text : str) : list event := msg text (py "WARNING") cY.

Definition error (text : str) : list event :=
  [Print Stderr (C cR ++ py "[ERROR]" ++ C cN ++ py " " ++ text) [nl]].

(** [error_exit(text)]: [error(text); sys.exit(1)] *)
Definition error_exit {A : Type} (text : str) : list event * outcome A :=
  (error text, Exited 1%Z).

(** What [subprocess.run(command, shell=True, check=True, ...)] finds: the
    shell ran the command to its end, with an exit status and the two
    captured streams, or the call itself failed (the shell could not be
    started, the output could not be decoded). *)
Record completed : Type := Completed
  { returncode : Z; stdout : str; stderr : str }.

Inductive process : Type :=
| Ran (c : completed)
| Not_run (exception : str).

(** [run_command(command, exit_on_error=True, show_output=False)], given how
    the process ends.  [check=True] raises [CalledProcessError] on a
    non-zero exit status, the only exception the function catches. *)
Definition run_command (command : str) (exit_on_error show_output : bool)
    (p : process) : list event * outcome (option str) :=
  match p with
  | Not_run e => ([Shell command], Raised e)
  | Ran c =>
    if (returncode c =? 0)%Z then
      (Shell command :: (if show_output then [print (stdout c)] else []),
       Returned (Some (strip (stdout c))))
    else if exit_on_error then
      let (out, r) :=
        @error_exit (option str)
          (py "Error: " ++ command ++ nl :: py "Salida: " ++ stderr c) in
      (Shell command :: out, r)
    else ([Shell command], Returned None)
  end.

(** The error line of a failed command, as [error] prints it. *)
Definition command_error_line (command : str) (c : completed) : event :=
  Print Stderr
    (C cR ++ py "[ERROR]" ++ C cN ++ py " "
       ++ py "Error: " ++ command ++ nl :: py "Salida: " ++ stderr c)
    [nl].

(** ** Validation patterns

    The patterns the script hands to [re.match] are sequences of anchors and
    of repeated single-character atoms.  [re.match] tries the pattern at the
    start of the string only, and no flag is given: the dot matches every
    character but a line feed, [^] matches at the start of the string, and
    [$] matches at its end and also just before a line feed that ends it. *)

Inductive atom : Type :=
| Dot
| Chr (c : char)
| Class (ranges : list (char * char)).

Inductive item : Type :=
| Bol
| Eol
| Rep (a : atom) (lo : nat) (hi : option nat).

Definition pattern : Type := list item.

Definition in_range (c : char) (r : char * char) : bool :=
  ((fst r <=? c) && (c <=? snd r))%N.

Definition atom_match (a : atom) (c : char) : bool :=
  match a with
  | Dot => negb (char_eqb c nl)
  | Chr d => char_eqb c d
  | Class ranges => existsb (in_range c) ranges
  end.

Definition at_end (s : str) : bool :=
  match s with
  | [] => true
  | [c] => char_eqb c nl
  | _ => false
  end.

(** One more repetition is allowed under the upper bound [hi]. *)
Definition more (hi : option nat) : option (option nat) :=
  match hi with
  | None => Some None
  | Some 0 => None
  | Some (S n) => Some (Some n)
  end.

(** [rep a lo hi k first s]: some number of characters of [s], between [lo]
    and [hi], match [a], and the continuation [k] accepts what follows.
    [first] says whether [s] still starts at the start of the string. *)
Fixpoint rep (a : atom) (lo : nat) (hi : option nat)
    (k : bool -> str -> bool) (first : bool) (s : str) {struct s} : bool :=
  (match lo with 0 => k first s | S _ => false end)
  || match s, more hi with
     | c :: s', Some hi' => atom_match a c && rep a (pred lo) hi' k false s'
     | _, _ => false
     end.

Fixpoint matches (p : pattern) (first : bool) (s : str) {struct p} : bool :=
  match p with
  | [] => true
  | Bol :: p' => first && matches p' first s
  | Eol :: p' => at_end s && matches p' first s
  | Rep a lo hi :: p' => rep a lo hi (matches p') first s
  end.

(** [re.match(p, s)] as a truth value. *)
Definition re_match (p : pattern) (s : str) : bool := matches p true s.

Definition one (a : atom) : item := Rep a 1 (Some 1).
Definition plus (a : atom) : item := Rep a 1 None.
Definition star (a : atom) : item := Rep a 0 None.
Definition times (n : nat) (a : atom) : item := Rep a n (Some n).

Definition range (a b : string) : char * char :=
  (hd 0%N (py a), hd 0%N (py b)).

Definition digit : atom := Class [range "0" "9"].

(** [r"^[1-9][0-9]{2}$"], the pattern of the [vm_id] prompt. *)
Definition vm_id_pattern : pattern :=
  [Bol; one (Class [range "1" "9"]); times 2 digit; Eol].

(** [r"^[0-9]+$"] (storage number, memory, disk, cores, netmask). *)
Definition number_pattern : pattern := [Bol; plus digit; Eol].

(** [r"^[a-zA-Z0-9][-a-zA-Z0-9]*$"] (hostname). *)
Definition hostname_pattern : pattern :=
  [Bol; one (Class [range "a" "z"; range "A" "Z"; range "0" "9"]);
   star (Class [range "-" "-"; range "a" "z"; range "A" "Z"; range "0" "9"]);
   Eol].

(** [r"."] (passwords). *)
Definition any_pattern : pattern := [one Dot].

(** [r"^[0-9]+\.[0-9]+\.[0-9]+\.[0-9]+$"] (addresses). *)
Definition ip_pattern : pattern :=
  [Bol; plus digit; one (Chr 46%N); plus digit; one (Chr 46%N);
   plus digit; one (Chr 46%N); plus digit; Eol].

(** [r"^[a-z][a-z0-9_-]*$"] (database user). *)
Definition odoo_user_pattern : pattern :=
  [Bol; one (Class [range "a" "z"]);
   star (Class [range "a" "z"; range "0" "9"; range "_" "_"; range "-" "-"]);
   Eol].

(** ** Prompts *)

(** [a or b] on strings: the empty string is false. *)
Definition or_ (a b : str) : str :=
  match a with
  | [] => b
  | _ :: _ => a
  end.

(** [validation is None or re.match(validation, user_input)] *)
Definition valid (validation : option pattern) (user_input : str) : bool :=
  match validation with
  | None => true
  | Some p => re_match p user_input
  end.

Definition ask_prompt (prompt default : str) : event :=
  Prompt (C cC ++ prompt ++ py " [" ++ default ++ py "]: " ++ C cN).

(** [ask(prompt, default, validation, error_msg)].  [typed] holds the lines
    the operator enters from here on, each as [input] delivers it (without
    its line end); the lines not read are handed back.  When the input ends,
    [input] raises [EOFError]. *)
Fixpoint ask (prompt default : str) (validation : option pattern)
    (error_msg : str) (typed : list str)
  : list event * outcome str * list str :=
  match typed with
  | [] => ([ask_prompt prompt default], Raised (py "EOFError"), [])
  | line :: rest =>
    let user_input := or_ (strip line) default in
    if valid validation user_input
    then ([ask_prompt prompt default], Returned user_input, rest)
    else
      let '(trace, r, rest') := ask prompt default validation error_msg rest in
      (ask_prompt prompt default :: warning error_msg ++ trace, r, rest')
  end.

(** The default of [error_msg]. *)
Definition error_msg_default : str := py "Valor inválido".

(** [str(n)] for a natural number. *)
Fixpoint digits (d : Decimal.uint) : str :=
  match d with
  | Decimal.Nil => []
  | Decimal.D0 r => 48%N :: digits r
  | Decimal.D1 r => 49%N :: digits r
  | Decimal.D2 r => 50%N :: digits r
  | Decimal.D3 r => 51%N :: digits r
  | Decimal.D4 r => 52%N :: digits r
  | Decimal.D5 r => 53%N :: digits r
  | Decimal.D6 r => 54%N :: digits r
  | Decimal.D7 r => 55%N :: digits r
  | Decimal.D8 r => 56%N :: digits r
  | Decimal.D9 r => 57%N :: digits r
  end.

Definition str_of_N (n : N) : str := digits (N.to_uint n).

(** The container ids the prompt announces: the numerals of 100 to 999. *)
Definition container_id (s : str) : Prop :=
  exists n : N, (100 <= n <= 999)%N /\ s = str_of_N n.

(** The digits from 1 and from 0, and the three digits of a number below
    1000. *)
Definition digit1 (c : char) : Prop := (49 <= c <= 57)%N.
Definition digit0 (c : char) : Prop := (48 <= c <= 57)%N.

Definition ids : list N := map N.of_nat (seq 100 900).

Definition numeral3 (n : N) : str :=
  [(48 + n / 100)%N; (48 + (n / 10) mod 10)%N; (48 + n mod 10)%N].

(** The [vm_id] prompt of [main]:
    [ask("ID del contenedor (100-999)", "100", r"^[1-9][0-9]{2}$")]. *)
Definition ask_vm_id (typed : list str) : list event * outcome str * list str :=
  ask (py "ID del contenedor (100-999)") (py "100") (Some vm_id_pattern)
      error_msg_default typed.

(** An entry of blanks only. *)
Definition blank (line : str) : bool := forallb isspace line.

(** [ask] before an operator who never stops typing: [entries i] is the
    line entered at the prompt number [i], and [ask_within] is what [ask]
    has returned once [fuel] prompts were answered, if it has. *)
Definition ask_within (prompt default : str) (validation : option pattern)
    (error_msg : str) (entries : nat -> str) (fuel : nat) : option str :=
  match ask prompt default validation error_msg (map entries (seq 0 fuel)) with
  | (_, Returned v, _) => Some v
  | _ => None
  end.

(** The trace of [n] refused entries: each is a prompt followed by the
    warning. *)
Fixpoint refused (prompt default error_msg : str) (n : nat) : list event :=
  match n with
  | 0 => []
  | S n' =>
    ask_prompt prompt default :: warning error_msg
      ++ refused prompt default error_msg n'
  end.

(** ** Storage display *)

(** [isinstance(v, (int, float))], with the number [v] is: a [bool] is an
    [int]. *)
Definition as_num (v : value) : option num :=
  match v with
  | VBool b => Some (NInt (if b then 1 else 0)%Z)
  | VInt z => Some (NInt z)
  | VFloat f => Some (NFloat f)
  | _ => None
  end.

Definition float_of_Z (z : Z) : float := binary_normalize prec emax z 0 false.

(** [float(z)]: an [int] too large for a [float] raises. *)
Definition to_float (z : Z) : comp float :=
  match float_of_Z z with
  | S754_infinity _ => raise "OverflowError"
  | f => ret f
  end.

(** An [int] as an unrounded binary number, for the exact quotient. *)
Definition exact (z : Z) : float :=
  match z with
  | Z0 => S754_zero false
  | Zpos m => S754_finite false m 0
  | Zneg m => S754_finite true m 0
  end.

Definition float_is_zero (f : float) : bool :=
  match f with
  | S754_zero _ => true
  | _ => false
  end.

Definition float_div (f g : float) : comp float :=
  if float_is_zero g then raise "ZeroDivisionError"
  else ret (SFdiv prec emax f g).

(** [a / b].  Two [int]s give the correctly rounded quotient; with a
    [float] on one side the [int] on the other is converted first. *)
Definition truediv (a b : num) : comp float :=
  emit [Divide a b] ;;;
  match a, b with
  | NInt x, NInt y =>
    if (y =? 0)%Z then raise "ZeroDivisionError"
    else
      match SFdiv prec emax (exact x) (exact y) with
      | S754_infinity _ => raise "OverflowError"
      | q => ret q
      end
  | NInt x, NFloat g => f <- to_float x ;; float_div f g
  | NFloat f, NInt y => g <- to_float y ;; float_div f g
  | NFloat f, NFloat g => float_div f g
  end.

(** [a * 100] *)
Definition times100 (a : num) : num :=
  match a with
  | NInt x => NInt (x * 100)
  | NFloat f => NFloat (SFmul prec emax f (float_of_Z 100))
  end.

(** [b > 0] *)
Definition positive_num (b : num) : bool :=
  match b with
  | NInt y => (0 <? y)%Z
  | NFloat g => SFltb (S754_zero false) g
  end.

Definition is_zero (b : num) : bool :=
  match b with
  | NInt y => (y =? 0)%Z
  | NFloat g => float_is_zero g
  end.

(** The nearest integer to [n / d], ties to the even one ([0 < d]). *)
Definition round_half_even (n d : Z) : Z :=
  let q := (n / d)%Z in
  match (2 * (n mod d) ?= d)%Z with
  | Lt => q
  | Eq => if Z.even q then q else (q + 1)%Z
  | Gt => (q + 1)%Z
  end.

(** [m * 2^e] in hundredths, rounded. *)
Definition hundredths (m : positive) (e : Z) : Z :=
  match e with
  | Zneg k => round_half_even (Zpos m * 100) (2 ^ Zpos k)
  | _ => (Zpos m * 100 * 2 ^ e)%Z
  end.

Definition sign (s : bool) : str := if s then py "-" else [].

(** [f"{x:.2f}"] for a [float] *)
Definition format_2f (x : float) : str :=
  match x with
  | S754_nan => py "nan"
  | S754_infinity s => sign s ++ py "inf"
  | S754_zero s => sign s ++ py "0.00"
  | S754_finite s m e =>
    let h := hundredths m e in
    sign s ++ str_of_N (Z.to_N (h / 100)) ++ py "."
      ++ [(48 + Z.to_N ((h / 10) mod 10))%N; (48 + Z.to_N (h mod 10))%N]
  end.

(** The [format_size] of [show_storages]:
    [f"{size/1024/1024/1024:.2f} GB" if isinstance(size, (int, float)) else "N/A"] *)
Definition format_size (size : value) : comp str :=
  match as_num size with
  | Some n =>
    a <- truediv n (NInt 1024) ;;
    b <- truediv (NFloat a) (NInt 1024) ;;
    c <- truediv (NFloat b) (NInt 1024) ;;
    ret (format_2f c ++ py " GB")
  | None => ret (py "N/A")
  end.

(** The [used_percent] of [show_storages]:
    [f"{used*100/total:.2f}%" if isinstance(used, (int, float)) and
     isinstance(total, (int, float)) and total > 0 else "N/A"] *)
Definition used_percent (used total : value) : comp str :=
  match as_num used, as_num total with
  | Some u, Some t =>
    if positive_num t then
      q <- truediv (times100 u) t ;;
      ret (format_2f q ++ py "%")
    else ret (py "N/A")
  | _, _ => ret (py "N/A")
  end.

(** [d.get(key, default)] and [d[key]] *)
Fixpoint get (d : dict) (key : str) (default : value) : value :=
  match d with
  | [] => default
  | (k, v) :: rest => if str_eqb k key then v else get rest key default
  end.

Fixpoint lookup (d : dict) (key : str) : option value :=
  match d with
  | [] => None
  | (k, v) :: rest => if str_eqb k key then Some v else lookup rest key
  end.

Definition is_str (v : value) (s : str) : bool :=
  match v with
  | VStr t => str_eqb t s
  | _ => false
  end.

(** [needle in v] for a string [needle] *)
Definition contains (needle : str) (v : value) : comp bool :=
  match v with
  | VStr s => ret (infixb needle s)
  | VList items => ret (existsb (fun x => is_str x needle) items)
  | VDict items => ret (existsb (fun kv => str_eqb (fst kv) needle) items)
  | _ => raise "TypeError"
  end.

(** [next((item for item in storage_data if item['storage'] == name), {})] *)
Fixpoint find_storage (storage_data : list dict) (name : str) : comp dict :=
  match storage_data with
  | [] => ret []
  | item :: rest =>
    match lookup item (py "storage") with
    | None => raise "KeyError"
    | Some v => if is_str v name then ret item else find_storage rest name
    end
  end.

Definition section (title : str) : list event :=
  [print (nl :: C cP ++ C cBOLD
            ++ py "╔═════════════════════════════════════════════════════════════════╗"
            ++ C cN ++ nl :: C cP ++ C cBOLD ++ py "  " ++ title ++ C cN
            ++ nl :: C cP ++ C cBOLD
            ++ py "╚═════════════════════════════════════════════════════════════════╝"
            ++ C cN)].

Definition show_item (label value : str) : list event :=
  [print (py "  " ++ C cBOLD ++ py "•" ++ C cN ++ py " " ++ label ++ py " "
            ++ C cC ++ value ++ C cN)].

Definition yes_no (b : bool) : str := if b then py "SÍ" else py "NO".

(** One turn of the loop of [show_storages]. *)
Definition show_storage (storage_data : list dict) (index : N) (name : str)
  : comp unit :=
  info <- find_storage storage_data name ;;
  let content := get info (py "content") (VStr []) in
  let avail := get info (py "avail") (VStr (py "N/A")) in
  let total := get info (py "total") (VStr (py "N/A")) in
  let used := get info (py "used") (VStr (py "N/A")) in
  rootdir <- contains (py "rootdir") content ;;
  vztmpl <- contains (py "vztmpl") content ;;
  avail_display <- format_size avail ;;
  total_display <- format_size total ;;
  used_display <- format_size used ;;
  used_percent <- used_percent used total ;;
  emit ([print (py "  " ++ C cBOLD ++ str_of_N index ++ py ") " ++ name ++ C cN)]
          ++ show_item (py "Espacio total") total_display
          ++ show_item (py "Espacio usado")
               (used_display ++ py " (" ++ used_percent ++ py ")")
          ++ show_item (py "Espacio disponible") avail_display
          ++ show_item (py "Compatible con contenedores") (yes_no rootdir)
          ++ show_item (py "Compatible con plantillas") (yes_no vztmpl)
          ++ [print []]).

Fixpoint show_storages_from (storage_data : list dict) (index : N)
    (storages : list str) : comp unit :=
  match storages with
  | [] => ret tt
  | name :: rest =>
    show_storage storage_data index name ;;;
    show_storages_from storage_data (index + 1) rest
  end.

(** [show_storages(storage_data, storages)] *)
Definition show_storages (storage_data : list dict) (storages : list str)
  : comp unit :=
  emit (section (py "ALMACENAMIENTO DISPONIBLE")) ;;;
  show_storages_from storage_data 1 storages.

(** The guard of [used_percent]: both values are numbers and [total > 0]. *)
Definition percent_guard (used total : value) : bool :=
  match as_num used, as_num total with
  | Some _, Some t => positive_num t
  | _, _ => false
  end.

(** A run divides by zero when it evaluates a division whose divisor is
    zero; Python then raises [ZeroDivisionError]. *)
Definition divides_by_zero (e : event) : bool :=
  match e with
  | Divide _ b => is_zero b
  | _ => false
  end.

Definition zero_division {A : Type} (r : outcome A) : bool :=
  match r with
  | Raised e => str_eqb e (py "ZeroDivisionError")
  | _ => false
  end.

(** No division of the run has a zero divisor. *)
Definition safe {A : Type} (m : comp A) : Prop :=
  existsb divides_by_zero (trace m) = false /\ zero_division (result m) = false.

(** The divisions a trace holds. *)
Fixpoint divisions (t : list event) : list (num * num) :=
  match t with
  | [] => []
  | Divide a b :: t' => (a, b) :: divisions t'
  | _ :: t' => divisions t'
  end.

(** ** Waiting for the container

    The loop of [main] that waits for the container to run and to reach the
    network.  [json_loads] stands for [json.loads], which returns a value
    or raises; [probe attempt] is how the two commands of that attempt end:
    the status query and, when it is run, the ping. *)

Definition info (text : str) : list event := msg text (py "INFO") cB.

(** The truth value of what [run_command] returned. *)
Definition truthy (r : option str) : bool :=
  match r with
  | Some (_ :: _) => true
  | _ => false
  end.

Definition status_command (hostname_cmd vm_id : str) : str :=
  py "pvesh get /nodes/" ++ hostname_cmd ++ py "/lxc/" ++ vm_id
    ++ py "/status/current --output-format=json".

Definition ping_command (vm_id : str) : str :=
  py "pct exec " ++ vm_id ++ py " -- ping -c 1 8.8.8.8".

(** [status_data.get('status')]: only a dictionary has the method. *)
Definition get_status (status_data : value) : comp value :=
  match status_data with
  | VDict items => ret (get items (py "status") VNone)
  | _ => raise "AttributeError"
  end.

Definition dot : comp unit := emit [Print Stdout (py ".") []].

Definition lift {A : Type} (r : outcome A) : comp A := ([], r).

(** The text [run_command] returned, when it returned one. *)
Definition text_of (r : option str) : str :=
  match r with
  | Some s => s
  | None => []
  end.

Section Waiting.

Variable json_loads : str -> outcome value.
Variables hostname_cmd vm_id : str.
Variable probe : nat -> process * process.

(** The body of the loop at one [attempt].  It returns whether it left the
    loop through [break], and the flag [network_check_shown]. *)
Definition wait_attempt (attempt : nat) (network_check_shown : bool)
  : comp (bool * bool) :=
  emit [Sleep 5] ;;;
  status_json <- run_command (status_command hostname_cmd vm_id) false false
                   (fst (probe attempt)) ;;
  if truthy status_json then
    status_data <- lift (json_loads (text_of status_json)) ;;
    status <- get_status status_data ;;
    if is_str status (py "running") then
      (if network_check_shown then ret tt
       else emit (info (py "El contenedor está en ejecución, verificando conectividad de red..."))) ;;;
      ping_result <- run_command (ping_command vm_id) false false
                       (snd (probe attempt)) ;;
      match ping_result with
      | Some _ => ret (true, true)
      | None => dot ;;; ret (false, true)
      end
    else dot ;;; ret (false, network_check_shown)
  else dot ;;; ret (false, network_check_shown).

(** [for attempt in range(...)]: the attempts still to make are [range];
    the value left in [attempt] is returned, with whether the loop was left
    through [break]. *)
Fixpoint wait_loop (range : list nat) (attempt : option nat)
    (network_check_shown : bool) : comp (option nat * bool) :=
  match range with
  | [] => ret (attempt, false)
  | a :: rest =>
    r <- wait_attempt a network_check_shown ;;
    if fst r then ret (Some a, true) else wait_loop rest (Some a) (snd r)
  end.

Definition limited_warning : list event :=
  warning (py "La conectividad de red podría ser limitada. Continuando de todos modos...").

(** The section of [main] from "Esperando a que el contenedor se inicie..."
    to "Red OK, contenedor iniciado".  It returns whether the loop was left
    through [break]. *)
Definition wait_for_container : comp bool :=
  emit (info (py "Esperando a que el contenedor se inicie...")) ;;;
  r <- wait_loop (seq 0 30) None false ;;
  emit [print []] ;;;
  (match fst r with
   | Some attempt => if 29 <=? attempt then emit limited_warning else ret tt
   | None => raise "NameError"
   end) ;;;
  emit (success (py "Red OK, contenedor iniciado")) ;;;
  ret (snd r).

(** The status query reports "running": the command succeeds, and its
    stripped output is a text that [json.loads] reads as a dictionary whose
    status is "running". *)
Definition reports_running (p : process) : bool :=
  match p with
  | Ran c =>
    (returncode c =? 0)%Z
    && match strip (stdout c) with
       | [] => false
       | s =>
         match json_loads s with
         | Returned (VDict items) =>
           is_str (get items (py "status") VNone) (py "running")
         | _ => false
         end
       end
  | Not_run _ => false
  end.

(** The ping succeeds: [run_command] has a result that is not [None]. *)
Definition ping_succeeds (p : process) : bool :=
  match p with
  | Ran c => (returncode c =? 0)%Z
  | Not_run _ => false
  end.

(** The success condition of an attempt. *)
Definition ready (attempt : nat) : bool :=
  reports_running (fst (probe attempt)) && ping_succeeds (snd (probe attempt)).

(** The attempt ends in an exception that leaves the loop and [main]. *)
Definition raises (attempt : nat) : bool :=
  match result (wait_attempt attempt false) with
  | Returned _ => false
  | _ => true
  end.

End Waiting.

(** How often a trace sleeps, queries the status and pings, and whether it
    holds the warning. *)
Definition is_sleep (e : event) : bool :=
  match e with
  | Sleep _ => true
  | _ => false
  end.

Definition is_shell (command : str) (e : event) : bool :=
  match e with
  | Shell c => str_eqb c command
  | _ => false
  end.

Definition event_eqb (a b : event) : bool :=
  match a, b with
  | Print Stdout t e, Print Stdout t' e' => str_eqb t t' && str_eqb e e'
  | Print Stderr t e, Print Stderr t' e' => str_eqb t t' && str_eqb e e'
  | Prompt t, Prompt t' => str_eqb t t'
  | Shell c, Shell c' => str_eqb c c'
  | Sleep n, Sleep n' => (n =? n')%N
  | _, _ => false
  end.

Definition warned (t : list event) : bool :=
  existsb (fun e => existsb (event_eqb e) limited_warning) t.

(** Every status query of the trace comes right after a sleep of five
    seconds. *)
Fixpoint sleeps_before_queries (query : str) (t : list event) : bool :=
  match t with
  | [] => true
  | Sleep n :: t1 =>
    (n =? 5)%N
    && match t1 with
       | Shell c :: t2 => str_eqb c query && sleeps_before_queries query t2
       | _ => false
       end
  | e :: t1 => negb (is_shell query e) && sleeps_before_queries query t1
  end.

Definition count (f : event -> bool) (t : list event) : nat :=
  List.length (filter f t).

(** Events that are neither a sleep nor the status query. *)
Definition quiet_of (query : str) (t : list event) : bool :=
  forallb (fun e => negb (is_shell query e) && negb (is_sleep e)) t.

(** What follows the loop in [wait_for_container]. *)
Definition after_loop (r : option nat * bool) : comp bool :=
  emit [print []] ;;;
  (match fst r with
   | Some attempt => if 29 <=? attempt then emit limited_warning else ret tt
   | None => raise "NameError"
   end) ;;;
  emit (success (py "Red OK, contenedor iniciado")) ;;;
  ret (snd r).

(** A world for examples: [json.loads] on the two status texts, and a
    container that runs from the first attempt on while the ping succeeds
    from attempt [up] on. *)
Definition json_loads_status (s : str) : outcome value :=
  if str_eqb s (py "{`status`:`running`}")
  then Returned (VDict [(py "status", VStr (py "running"))])
  else if str_eqb s (py "{`status`:`stopped`}")
  then Returned (VDict [(py "status", VStr (py "stopped"))])
  else Raised (py "JSONDecodeError").

Definition network_up_at (up attempt : nat) : process * process :=
  (Ran (Completed 0 (py "{`status`:`running`}
") []),
   Ran (Completed (if up <=? attempt then 0 else 1) [] [])).

(** ** Formatted strings

    An f-string is a sequence of literal text and of replacement fields.
    Here a field names the variable it holds, and an environment gives each
    variable its text.  In the text, a doubled brace of the script is the
    single brace it stands for. *)

Inductive piece (X : Type) : Type :=
| Text (s : string)
| Hole (x : X).

Arguments Text {X} s.
Arguments Hole {X} x.

Definition fstring (X : Type) : Type := list (piece X).

Definition render {X : Type} (env : X -> str) (f : fstring X) : str :=
  flat_map (fun p => match p with
                     | Text s => py s
                     | Hole x => env x
                     end) f.

(** ** The install script *)

Inductive install_var : Type :=
| Odoo_version | Db_pass | Odoo_user | Custom_modules_str | Addons_path.

(** The first part of [script_content], up to the installation of wkhtmltopdf. *)
Definition install_head : fstring install_var :=
  [Text "#!/bin/bash
# Script de instalación de Odoo ";
   Hole Odoo_version;
   Text " - C3i Servicios Informáticos
info() { echo `[INFO] $1`; }
success() { echo `[SUCCESS] $1`; }
warning() { echo `[WARNING] $1`; }
error() { echo `[ERROR] $1`; }
progress() { echo `[PROGRESS] $1`; }

# Actualizar sistema
info `Actualizando sistema...`
apt-get update && DEBIAN_FRONTEND=noninteractive apt-get upgrade -y
success `Sistema actualizado`

# Instalar requisitos
info `Instalando dependencias...`
progress `Instalando paquetes del sistema (1/5)`
apt-get install -y openssh-server fail2ban python3-pip python3-dev libxml2-dev libxslt1-dev zlib1g-dev libsasl2-dev
progress `Instalando bibliotecas de desarrollo (2/5)`
apt-get install -y libldap2-dev build-essential libssl-dev libffi-dev default-libmysqlclient-dev libjpeg-dev libpq-dev
progress `Instalando bibliotecas de procesamiento de imágenes (3/5)`
apt-get install -y libjpeg8-dev liblcms2-dev libblas-dev libatlas-base-dev
progress `Instalando Node.js y npm (4/5)`
apt-get install -y npm git postgresql python3-venv
progress `Configurando fail2ban y Node.js (5/5)`
systemctl enable fail2ban
ln -sf /usr/bin/nodejs /usr/bin/node
npm install -g less less-plugin-clean-css
apt-get install -y node-less
success `Dependencias instaladas`

# Configurar PostgreSQL
info `Configurando PostgreSQL...`
su - postgres -c `createuser --createdb --username postgres --no-createrole --superuser --pwprompt ";
   Hole Odoo_user;
   Text " << EOF
";
   Hole Db_pass;
   Text "
";
   Hole Db_pass;
   Text "
EOF`
success `PostgreSQL configurado`

# Crear usuario de Odoo
info `Creando usuario del sistema para Odoo...`
adduser --system --home=/opt/odoo18 --group ";
   Hole Odoo_user;
   Text "
success `Usuario del sistema creado`

# Clonar Odoo
info `Clonando repositorio de Odoo...`
progress `Descargando código fuente de Odoo (esto puede tardar varios minutos)...`
su - ";
   Hole Odoo_user;
   Text " -s /bin/bash -c `git clone https://www.github.com/odoo/odoo --depth 1 --branch ";
   Hole Odoo_version;
   Text " --single-branch .`
success `Repositorio de Odoo clonado`

# Instalar dependencias de Python
info `Instalando dependencias de Python...`
python3 -m venv /opt/odoo18/venv
cd /opt/odoo18/
progress `Instalando requisitos de Python en entorno virtual (esto puede tardar varios minutos)...`
/opt/odoo18/venv/bin/pip install wheel
/opt/odoo18/venv/bin/pip install -r requirements.txt
success `Dependencias de Python instaladas`

# Instalar wkhtmltopdf
info `Instalando wkhtmltopdf...`
apt-get install -y xfonts-75dpi xfonts-base
cd /tmp
progress `Descargando wkhtmltopdf...`
wget -q https://github.com/wkhtmltopdf/packaging/releases/download/0.12.6.1-2/wkhtmltox_0.12.6.1-2.jammy_amd64.deb
progress `Instalando paquete wkhtmltopdf...`
dpkg -i wkhtmltox_0.12.6.1-2.jammy_amd64.deb || apt-get install -f -y
success `wkhtmltopdf instalado`

"].

(** The part of [script_content] that stands under [if has_custom_modules]. *)
Definition install_custom_modules : fstring install_var :=
  [Text "
# Instalar módulos personalizados
info `Instalando módulos personalizados...`
mkdir -p /opt/odoo18/custom_addons
chown ";
   Hole Odoo_user;
   Text ": /opt/odoo18/custom_addons

# Copiar módulos personalizados a Odoo
for module in ";
   Hole Custom_modules_str;
   Text "; do
    progress `Instalando módulo: $module`
    cp -r /tmp/custom_modules/$module /opt/odoo18/custom_addons/
done

chown -R ";
   Hole Odoo_user;
   Text ": /opt/odoo18/custom_addons/
success `Módulos personalizados instalados`
"].

(** The last part of [script_content]: configuration file, service unit and start. *)
Definition install_tail : fstring install_var :=
  [Text "

# Configurar Odoo
info `Configurando Odoo...`
mkdir -p /var/log/odoo
progress `Creando archivo de configuración...`
cat > /etc/odoo18.conf << EOL
[options]
; Esta es la contraseña que permite operaciones en la base de datos:
; admin_passwd = admin
db_host = localhost
db_port = 5432
db_user = ";
   Hole Odoo_user;
   Text "
db_password = ";
   Hole Db_pass;
   Text "
addons_path = ";
   Hole Addons_path;
   Text "
default_productivity_apps = True
logfile = /var/log/odoo/odoo18.log
EOL

chown ";
   Hole Odoo_user;
   Text ": /etc/odoo18.conf
chmod 640 /etc/odoo18.conf
chown ";
   Hole Odoo_user;
   Text ":root /var/log/odoo
progress `Creando servicio systemd...`

# Configurar systemd
cat > /etc/systemd/system/odoo18.service << EOL
[Unit]
Description=Odoo ";
   Hole Odoo_version;
   Text "
After=network.target postgresql.service

[Service]
Type=simple
User=";
   Hole Odoo_user;
   Text "
ExecStart=/opt/odoo18/venv/bin/python3 /opt/odoo18/odoo-bin -c /etc/odoo18.conf

[Install]
WantedBy=default.target
EOL

chmod 755 /etc/systemd/system/odoo18.service
progress `Recargando systemd e iniciando servicio de Odoo...`
systemctl daemon-reload
systemctl start odoo18.service
systemctl enable odoo18.service

success `Instalación de Odoo ";
   Hole Odoo_version;
   Text " completada`
"].


(** [create_odoo_install_script(odoo_version, db_pass, odoo_user,
    custom_modules)]: the text it builds, and the function, which writes
    that text to a file. *)
Definition has_custom_modules (custom_modules : list str) : bool :=
  0 <? List.length custom_modules.

Definition custom_modules_str (custom_modules : list str) : str :=
  join (py ", ") (map (fun m => py "`" ++ m ++ py "`") custom_modules).

Definition addons_path (custom_modules : list str) : str :=
  if has_custom_modules custom_modules
  then py "/opt/odoo18/addons,/opt/odoo18/custom_addons"
  else py "/opt/odoo18/addons".

Definition install_env (odoo_version db_pass odoo_user : str)
    (custom_modules : list str) (x : install_var) : str :=
  match x with
  | Odoo_version => odoo_version
  | Db_pass => db_pass
  | Odoo_user => odoo_user
  | Custom_modules_str => custom_modules_str custom_modules
  | Addons_path => addons_path custom_modules
  end.

Definition script_content (odoo_version db_pass odoo_user : str)
    (custom_modules : list str) : str :=
  let env := install_env odoo_version db_pass odoo_user custom_modules in
  render env install_head
    ++ (if has_custom_modules custom_modules
        then render env install_custom_modules else [])
    ++ render env install_tail.

Definition create_odoo_install_script (odoo_version db_pass odoo_user : str)
    (custom_modules : list str) : comp unit :=
  emit [File_write (py "/tmp/odoo_install.sh")
          (script_content odoo_version db_pass odoo_user custom_modules)].

(** ** The network configuration for a public address *)

Inductive netplan_var : Type := Ip_address | Gateway | Dns_servers.

(** The [netplan_config] of [main]. *)
Definition netplan_template : fstring netplan_var :=
  [Text "# Configuración de red para IP pública
network:
  ethernets:
    eth0:
      addresses: ['";
   Hole Ip_address;
   Text "/32']
      gateway4: ";
   Hole Gateway;
   Text "
      nameservers:
        addresses: [";
   Hole Dns_servers;
   Text "]
      routes:
      - scope: link
        to: ";
   Hole Gateway;
   Text "/32
        via: 0.0.0.0
  version: 2
"].

Definition netplan_env (ip_address gateway dns_servers : str)
    (x : netplan_var) : str :=
  match x with
  | Ip_address => ip_address
  | Gateway => gateway
  | Dns_servers => dns_servers
  end.

Definition netplan_config (ip_address gateway dns_servers : str) : str :=
  render (netplan_env ip_address gateway dns_servers) netplan_template.

(** ** Texts with fields left open

    To reason about a rendered f-string for every value of its fields, the
    f-string is read as a sequence of symbols: a character of its text, or
    a field.  Whatever can be computed on the symbols holds for every
    environment. *)

Inductive symbol (X : Type) : Type :=
| Sc (c : char)
| Sh (x : X).

Arguments Sc {X} c.
Arguments Sh {X} x.

Definition symbols {X : Type} (f : fstring X) : list (symbol X) :=
  flat_map (fun p => match p with
                     | Text s => map Sc (py s)
                     | Hole x => [Sh x]
                     end) f.

Definition expand {X : Type} (env : X -> str) (l : list (symbol X)) : str :=
  flat_map (fun a => match a with
                     | Sc c => [c]
                     | Sh x => env x
                     end) l.

(** The pieces [ms] occur in [s] one after the other, in this order. *)
Fixpoint Ordered (ms : list str) (s : str) : Prop :=
  match ms with
  | [] => True
  | m :: ms' => exists pre post, s = pre ++ m ++ post /\ Ordered ms' post
  end.

(** No line feed in the text. *)
Definition single_line (s : str) : Prop := ~ In nl s.

(** [s.split("\n")]: the lines of a text. *)
Fixpoint lines (s : str) : list str :=
  match s with
  | [] => [[]]
  | c :: r =>
    if char_eqb c nl then [] :: lines r
    else
      match lines r with
      | l :: ls => (c :: l) :: ls
      | [] => [[c]]
      end
  end.

Section Symbolic.

Variable X : Type.
Variable eqb : X -> X -> bool.

Definition symbol_eqb (a b : symbol X) : bool :=
  match a, b with
  | Sc c, Sc d => char_eqb c d
  | Sh x, Sh y => eqb x y
  | _, _ => false
  end.

(** [l] starts with [m]: what follows it. *)
Fixpoint starts (m l : list (symbol X)) : option (list (symbol X)) :=
  match m, l with
  | [], _ => Some l
  | a :: m', b :: l' => if symbol_eqb a b then starts m' l' else None
  | _ :: _, [] => None
  end.

(** The first occurrence of [m] in [l]: what follows it. *)
Fixpoint find_after (m l : list (symbol X)) : option (list (symbol X)) :=
  match starts m l with
  | Some rest => Some rest
  | None =>
    match l with
    | [] => None
    | _ :: l' => find_after m l'
    end
  end.

Fixpoint in_order (ms : list (list (symbol X))) (l : list (symbol X)) : bool :=
  match ms with
  | [] => true
  | m :: ms' =>
    match find_after m l with
    | Some rest => in_order ms' rest
    | None => false
    end
  end.

(** The lines of a sequence of symbols, fields taken to hold no line
    feed. *)
Fixpoint symbol_lines (l : list (symbol X)) : list (list (symbol X)) :=
  match l with
  | [] => [[]]
  | Sc c :: r =>
    if char_eqb c nl then [] :: symbol_lines r
    else
      match symbol_lines r with
      | k :: ks => (Sc c :: k) :: ks
      | [] => [[Sc c]]
      end
  | Sh x :: r =>
    match symbol_lines r with
    | k :: ks => (Sh x :: k) :: ks
    | [] => [[Sh x]]
    end
  end.

(** A line of symbols can be the text [t] under some environment, as far
    as its characters before the first field tell. *)
Fixpoint may_be (k : list (symbol X)) (t : str) : bool :=
  match k, t with
  | [], [] => true
  | [], _ :: _ => false
  | Sc c :: k', d :: t' => char_eqb c d && may_be k' t'
  | Sc _ :: _, [] => false
  | Sh _ :: _, _ => true
  end.

(** Two lines that follow each other can be the texts [t1] and [t2]: each
    can be its text, and when both are one and the same field alone, the
    texts are the same. *)
Definition may_be_pair (t1 t2 : str) (k1 k2 : list (symbol X)) : bool :=
  may_be k1 t1 && may_be k2 t2
  && match k1, k2 with
     | [Sh x], [Sh y] => if eqb x y then str_eqb t1 t2 else true
     | _, _ => true
     end.

Fixpoint adjacent (A : Type) (l : list A) : list (A * A) :=
  match l with
  | a :: (b :: _) as r => (a, b) :: adjacent r
  | _ => []
  end.

(** No two lines that follow each other can be [t1] and [t2]. *)
Definition never_adjacent (t1 t2 : str) (l : list (symbol X)) : bool :=
  forallb (fun kk => negb (may_be_pair t1 t2 (fst kk) (snd kk)))
          (adjacent (symbol_lines l)).

End Symbolic.

(** The fields of [l] hold texts of one line. *)
Definition fields_single_line {X : Type} (env : X -> str)
    (l : list (symbol X)) : Prop :=
  forall x, In (Sh x) l -> single_line (env x).

(** The fields of a sequence of symbols. *)
Definition holes {X : Type} (l : list (symbol X)) : list X :=
  flat_map (fun a => match a with Sh x => [x] | Sc _ => [] end) l.

Definition install_var_eqb (a b : install_var) : bool :=
  match a, b with
  | Odoo_version, Odoo_version | Db_pass, Db_pass | Odoo_user, Odoo_user
  | Custom_modules_str, Custom_modules_str | Addons_path, Addons_path => true
  | _, _ => false
  end.

Definition netplan_var_eqb (a b : netplan_var) : bool :=
  match a, b with
  | Ip_address, Ip_address | Gateway, Gateway | Dns_servers, Dns_servers => true
  | _, _ => false
  end.

(** ** Parts of the two generated files *)

(** The whole f-string of [script_content], by [has_custom_modules]. *)
Definition install_fstring (has : bool) : fstring install_var :=
  install_head ++ (if has then install_custom_modules else []) ++ install_tail.

(** The custom-module block, as it is rendered. *)
Definition custom_modules_block (odoo_version db_pass odoo_user : str)
    (custom_modules : list str) : str :=
  render (install_env odoo_version db_pass odoo_user custom_modules)
         install_custom_modules.

(** Two lines of the block that follow each other. *)
Definition block_line_1 : str := py "info `Instalando módulos personalizados...`".
Definition block_line_2 : str := py "mkdir -p /opt/odoo18/custom_addons".

(** The configuration file the script emits: the text between
    [cat > /etc/odoo18.conf << EOL] and [EOL] in [install_tail]. *)
Definition odoo_conf_template : fstring install_var :=
  [Text "[options]
; Esta es la contraseña que permite operaciones en la base de datos:
; admin_passwd = admin
db_host = localhost
db_port = 5432
db_user = ";
   Hole Odoo_user;
   Text "
db_password = ";
   Hole Db_pass;
   Text "
addons_path = ";
   Hole Addons_path;
   Text "
default_productivity_apps = True
logfile = /var/log/odoo/odoo18.log
"].

Definition odoo_conf (odoo_version db_pass odoo_user : str)
    (custom_modules : list str) : str :=
  render (install_env odoo_version db_pass odoo_user custom_modules)
         odoo_conf_template.

Definition odoo_conf_heredoc : fstring install_var :=
  [Text "cat > /etc/odoo18.conf << EOL
"] ++ odoo_conf_template ++ [Text "EOL
"].

(** The lines of the configuration file. *)
Definition odoo_conf_lines : list (fstring install_var) :=
  [[Text "[options]"];
   [Text "; Esta es la contraseña que permite operaciones en la base de datos:"];
   [Text "; admin_passwd = admin"];
   [Text "db_host = localhost"];
   [Text "db_port = 5432"];
   [Text "db_user = "; Hole Odoo_user];
   [Text "db_password = "; Hole Db_pass];
   [Text "addons_path = "; Hole Addons_path];
   [Text "default_productivity_apps = True"];
   [Text "logfile = /var/log/odoo/odoo18.log"];
   []].

(** The sections of the install script, each by its heading and by the
    command that does its work; the custom-module section is there when
    [has] holds. *)
Definition section_markers (has : bool) : list (fstring install_var) :=
  [[Text "# Actualizar sistema"];
   [Text "apt-get update && DEBIAN_FRONTEND=noninteractive apt-get upgrade -y"];
   [Text "# Instalar requisitos"];
   [Text "apt-get install -y openssh-server"];
   [Text "apt-get install -y npm git postgresql python3-venv"];
   [Text "# Configurar PostgreSQL"];
   [Text "createuser --createdb --username postgres --no-createrole --superuser --pwprompt ";
    Hole Odoo_user];
   [Text "# Clonar Odoo"];
   [Text "git clone https://www.github.com/odoo/odoo --depth 1 --branch ";
    Hole Odoo_version];
   [Text "# Instalar dependencias de Python"];
   [Text "python3 -m venv /opt/odoo18/venv"];
   [Text "/opt/odoo18/venv/bin/pip install -r requirements.txt"];
   [Text "# Instalar wkhtmltopdf"];
   [Text "dpkg -i wkhtmltox_0.12.6.1-2.jammy_amd64.deb"]]
  ++ (if has
      then [[Text "# Instalar módulos personalizados"];
            [Text "mkdir -p /opt/odoo18/custom_addons"];
            [Text "for module in "; Hole Custom_modules_str; Text "; do"];
            [Text "cp -r /tmp/custom_modules/$module /opt/odoo18/custom_addons/"]]
      else [])
  ++ [[Text "# Configurar Odoo"];
      [Text "cat > /etc/odoo18.conf << EOL"];
      [Text "# Configurar systemd"];
      [Text "cat > /etc/systemd/system/odoo18.service << EOL"];
      [Text "systemctl start odoo18.service"]].

(** The entries of the network configuration that hold the values. *)
Definition netplan_entries : list (fstring netplan_var) :=
  [[Text "      addresses: ['"; Hole Ip_address; Text "/32']
"];
   [Text "      gateway4: "; Hole Gateway; Text "
"];
   [Text "      nameservers:
        addresses: ["; Hole Dns_servers; Text "]
"];
   [Text "      routes:
      - scope: link
        to: "; Hole Gateway; Text "/32
"]].

Definition single_lineb (s : str) : bool :=
  forallb (fun c => negb (char_eqb c nl)) s.

(** ** Custom modules on disk

    The directory of the script, as the script sees it: what a name leads
    to is a file, a directory with its entries, or nothing (a link whose
    target is missing).  A name occurs once in a directory. *)

Inductive node : Type :=
| File
| Dir (entries : list (str * node))
| Broken.

Definition directory : Type := list (str * node).

Fixpoint entry (d : directory) (name : str) : option node :=
  match d with
  | [] => None
  | (n, x) :: rest => if str_eqb n name then Some x else entry rest name
  end.

(** [os.path.exists] and [os.path.isdir] on what a name leads to. *)
Definition exists_node (x : option node) : bool :=
  match x with
  | Some File | Some (Dir _) => true
  | Some Broken | None => false
  end.

Definition isdir_node (x : option node) : bool :=
  match x with
  | Some (Dir _) => true
  | _ => false
  end.

(** [os.path.join(a, b)] for a relative [b]. *)
Definition path_join (a b : str) : str :=
  match rev a with
  | [] => b
  | c :: _ => if char_eqb c 47%N then a ++ b else a ++ 47%N :: b
  end.

Definition manifest : str := py "__manifest__.py".

(** [os.path.isdir(module_path) and
     os.path.exists(os.path.join(module_path, "__manifest__.py"))] *)
Definition is_module (x : option node) : bool :=
  isdir_node x
  && match x with
     | Some (Dir sub) => exists_node (entry sub manifest)
     | _ => false
     end.

(** [check_custom_modules()], with the path of the directory of the script
    and what that directory holds. *)
Definition check_custom_modules (script_dir : str) (here : directory)
  : comp (list str * str) :=
  let modules_dir := path_join script_dir (py "modules") in
  if negb (exists_node (entry here (py "modules"))) then
    emit (info (py "No se encontró el directorio 'modules'")) ;;;
    ret ([], modules_dir)
  else
    match entry here (py "modules") with
    | Some (Dir items) =>
      ret (filter (fun item => is_module (entry items item)) (map fst items),
           modules_dir)
    | _ => raise "NotADirectoryError"
    end.

(** Every name occurs once in the directory. *)
Fixpoint distinct (d : directory) : bool :=
  match d with
  | [] => true
  | (n, _) :: rest =>
    negb (existsb (fun e : str * node => str_eqb (fst e) n) rest)
    && distinct rest
  end.

(** ** The other prompts of [main] *)

(** The prompts of the container configuration and of the Odoo
    configuration, each with the prompt text, the default and the pattern
    [main] gives it. *)
Definition ask_hostname (typed : list str) : list event * outcome str * list str :=
  ask (py "Nombre de host del contenedor") (py "odoo-server")
      (Some hostname_pattern) error_msg_default typed.

Definition ask_password (typed : list str) : list event * outcome str * list str :=
  ask (py "Contraseña de root del contenedor") (py "Cambiame123")
      (Some any_pattern) error_msg_default typed.

Definition ask_memory (typed : list str) : list event * outcome str * list str :=
  ask (py "RAM (MB, mín 2048)") (py "4096") (Some number_pattern)
      error_msg_default typed.

Definition ask_disk (typed : list str) : list event * outcome str * list str :=
  ask (py "Disco (GB, mín 10)") (py "20") (Some number_pattern)
      error_msg_default typed.

Definition ask_cores (typed : list str) : list event * outcome str * list str :=
  ask (py "Núcleos de CPU") (py "2") (Some number_pattern)
      error_msg_default typed.

Definition ask_odoo_user (typed : list str) : list event * outcome str * list str :=
  ask (py "Usuario de base de datos de Odoo") (py "odoo18")
      (Some odoo_user_pattern) error_msg_default typed.

Definition ask_db_password (typed : list str) : list event * outcome str * list str :=
  ask (py "Contraseña de BD de Odoo") (py "admin2025") (Some any_pattern)
      error_msg_default typed.

(** A repetition bound that holds for [n] characters. *)
Definition within (hi : option nat) (n : nat) : Prop :=
  match hi with
  | None => True
  | Some h => n <= h
  end.

Definition is_nil (s : str) : bool :=
  match s with
  | [] => true
  | _ :: _ => false
  end.

(** Four groups of decimal digits with dots between them. *)
Definition dotted_quad (a b c d : str) : str :=
  a ++ py "." ++ b ++ py "." ++ c ++ py "." ++ d.

(** A numeral: decimal digits, one at least. *)
Definition numeral (s : str) : Prop := s <> [] /\ Forall digit0 s.




(** The address of the network card, [main]'s
    [r'^([0-9A-Fa-f]{2}[:-]){5}([0-9A-Fa-f]{2})$'].  The group that is
    repeated has a fixed length and nothing refers to what it captured, so
    the pattern is the group written five times. *)
Definition hex : atom := Class [range "0" "9"; range "A" "F"; range "a" "f"].
Definition mac_separator : atom := Class [range ":" ":"; range "-" "-"].

Definition mac_pattern : pattern :=
  Bol :: List.concat (repeat [times 2 hex; one mac_separator] 5)
      ++ [times 2 hex; Eol].

Definition mac_prompt : str := py "Dirección MAC para IP pública".

(** The loop of [main] that asks for the address of the network card.
    [ask] without a validation returns after one line, which is why it is
    given one line here. *)
Fixpoint ask_mac (typed : list str) : list event * outcome str * list str :=
  match typed with
  | [] => ask mac_prompt [] None error_msg_default []
  | line :: rest =>
    match ask mac_prompt [] None error_msg_default [line] with
    | (trace, Returned mac, _) =>
      if negb (is_nil mac) && re_match mac_pattern mac
      then (trace, Returned mac, rest)
      else
        let '(trace', r, rest') := ask_mac rest in
        (trace
           ++ error (py "Se requiere una dirección MAC válida para IP pública")
           ++ trace', r, rest')
    | (trace, r, _) => (trace, r, rest)
    end
  end.

Definition is_hex (c : char) : bool := atom_match hex c.
Definition is_mac_separator (c : char) : bool := atom_match mac_separator c.

(** Six pairs of hexadecimal digits with a colon or a hyphen after each of
    the first five. *)
Definition is_mac_address (s : str) : bool :=
  match s with
  | [a1; a2; s1; b1; b2; s2; c1; c2; s3; d1; d2; s4; e1; e2; s5; f1; f2] =>
    forallb is_hex [a1; a2; b1; b2; c1; c2; d1; d2; e1; e2; f1; f2]
    && forallb is_mac_separator [s1; s2; s3; s4; s5]
  | _ => false
  end.

(** ** Yes or no *)

Definition ascii (c : char) : bool := (c <? 128)%N.

Definition ascii_lower (c : char) : char :=
  if ((65 <=? c) && (c <=? 90))%N then (c + 32)%N else c.

Section Confirm.

(** [s.lower()] turns the capital letters of an ASCII text into small ones.
    What it makes of a text with other characters is [unicode_lower]. *)
Variable unicode_lower : str -> str.

Definition lower (s : str) : str :=
  if forallb ascii s then map ascii_lower s else unicode_lower s.

Definition options (default : str) : str :=
  if prefixb (py "y") (lower default) then py "Y/n" else py "y/N".

Definition confirm_prompt (prompt default : str) : event :=
  Prompt (C cG ++ prompt ++ py " (" ++ options default ++ py "): " ++ C cN).

(** [confirm_action(prompt, default)]; [answer] is the line the operator
    enters, if the input has not ended. *)
Definition confirm_action (prompt default : str) (answer : option str)
  : comp bool :=
  match answer with
  | None => ([confirm_prompt prompt default], Raised (py "EOFError"))
  | Some line =>
    ([confirm_prompt prompt default],
     Returned (prefixb (py "y") (or_ (lower (strip line)) (lower default))))
  end.

End Confirm.

(** ** Storage data *)

(** The exceptions that are no [Exception]: [except Exception] does not
    catch them. *)
Definition passes_except_Exception (e : str) : bool :=
  existsb (str_eqb e)
          [py "KeyboardInterrupt"; py "SystemExit"; py "GeneratorExit"].

(** [try: m except Exception as e: handler(e)].  [sys.exit] raises
    [SystemExit], which is no [Exception]. *)
Definition try_except_Exception {A : Type} (m : comp A)
    (handler : str -> comp A) : comp A :=
  match m with
  | (t, Raised e) =>
    if passes_except_Exception e then m
    else let (t', r) := handler e in (t ++ t', r)
  | _ => m
  end.

(** [try: m except: handler], which catches whatever is raised, [SystemExit]
    included. *)
Definition try_except {A : Type} (m : comp A) (handler : comp A) : comp A :=
  match m with
  | (t, Returned a) => m
  | (t, _) => let (t', r) := handler in (t ++ t', r)
  end.

(** What [run_command] returned, inside a formatted string. *)
Definition formatted (r : option str) : str :=
  match r with
  | Some s => s
  | None => py "None"
  end.

Definition storage_command (hostname : str) : str :=
  py "pvesh get /nodes/" ++ hostname ++ py "/storage --output-format=json".

(** The commands a trace hands to the shell, in order. *)
Fixpoint shells (t : list event) : list str :=
  match t with
  | [] => []
  | Shell c :: t' => c :: shells t'
  | _ :: t' => shells t'
  end.

(** The command ran and its exit status is 0. *)
Definition succeeds (p : process) : bool :=
  match p with
  | Ran c => (returncode c =? 0)%Z
  | Not_run _ => false
  end.

(** [s.split(sep)] for a separator of one character. *)
Fixpoint split (sep : char) (s : str) : list str :=
  match s with
  | [] => [[]]
  | c :: r =>
    if char_eqb c sep then [] :: split sep r
    else
      match split sep r with
      | l :: ls => (c :: l) :: ls
      | [] => [[c]]
      end
  end.

(** The truth value of a value. *)
Definition truth (v : value) : bool :=
  match v with
  | VNone => false
  | VBool b => b
  | VInt z => negb (z =? 0)%Z
  | VFloat f => negb (float_is_zero f)
  | VStr s => negb (is_nil s)
  | VList items => negb (match items with [] => true | _ => false end)
  | VDict items => negb (match items with [] => true | _ => false end)
  end.

(** [next((item for item in storage_data if item['storage'] == storage),
    None)] *)
Fixpoint find_storage_info (storage_data : list dict) (storage : str)
  : comp (option dict) :=
  match storage_data with
  | [] => ret None
  | item :: rest =>
    match lookup item (py "storage") with
    | None => raise "KeyError"
    | Some v =>
      if is_str v storage then ret (Some item)
      else find_storage_info rest storage
    end
  end.

(** [content.split(',') if content else []]: only a text has [split]. *)
Definition content_list (content : value) : comp (list str) :=
  if truth content then
    match content with
    | VStr s => ret (split 44%N s)
    | _ => raise "AttributeError"
    end
  else ret [].

(** [f"{content},{content_type}" if content else content_type], for the
    text [content] is once [content_list] has returned. *)
Definition new_content (content : value) (content_type : str) : str :=
  match content with
  | VStr (c :: s) => (c :: s) ++ py "," ++ content_type
  | _ => content_type
  end.

Definition set_content_command (storage new_content : str) : str :=
  py "pvesh set /storage/" ++ storage ++ py " --content '" ++ new_content
    ++ py "'".

Section Storage.

Variable unicode_lower : str -> str.

(** [json_loads] stands for [json.loads], which makes a value of a text or
    raises an exception; [describe e] stands for [str(e)]. *)
Variable json_loads : str -> value + str.
Variable describe : str -> str.

(** [json.loads(storage_json)]: of [None] it raises [TypeError]. *)
Definition loads (storage_json : option str) : comp value :=
  match storage_json with
  | Some s =>
    match json_loads s with
    | inl v => ret v
    | inr e => ([], Raised e)
    end
  | None => raise "TypeError"
  end.

(** [get_storage_data()], given how its two commands end. *)
Definition get_storage_data (p_hostname p_storage : process) : comp value :=
  try_except_Exception
    (hostname <- run_command (py "hostname") true false p_hostname ;;
     storage_json <- run_command (storage_command (formatted hostname))
                       true false p_storage ;;
     loads storage_json)
    (fun e =>
       error_exit (py "Error al obtener datos de almacenamiento: "
                     ++ describe e)).

(** [enable_storage_content(storage, content_type, readable_name,
    storage_data)], given the answer of the operator and how the three
    commands end. *)
Definition enable_storage_content (storage content_type readable_name : str)
    (storage_data : list dict) (answer : option str)
    (p_set p_hostname p_storage : process) : comp value :=
  storage_info <- find_storage_info storage_data storage ;;
  match storage_info with
  | None | Some [] =>
    error_exit (py "Almacenamiento '" ++ storage ++ py "' no encontrado")
  | Some items =>
    let content := get items (py "content") (VStr []) in
    contents <- content_list content ;;
    if negb (existsb (str_eqb content_type) contents) then
      emit (warning (py "El almacenamiento '" ++ storage ++ py "' no soporta "
                       ++ readable_name ++ py " (" ++ content_type ++ py ")")) ;;;
      yes <- confirm_action unicode_lower
               (py "¿Habilitar soporte para " ++ readable_name ++ py "?")
               (py "Y") answer ;;
      if yes then
        run_command (set_content_command storage
                       (new_content content content_type))
                    true false p_set ;;;
        emit (success (py "Soporte para " ++ readable_name
                         ++ py " habilitado en '" ++ storage ++ py "'")) ;;;
        get_storage_data p_hostname p_storage
      else error_exit (py "Se requiere soporte para " ++ readable_name)
    else
      emit (info (py "El almacenamiento '" ++ storage ++ py "' ya soporta "
                    ++ readable_name)) ;;;
      ret (VList (map VDict storage_data))
  end.

End Storage.

(** ** Choosing the storage *)

Definition is_digit (c : char) : bool := ((48 <=? c) && (c <=? 57))%N.

(** The number a text of decimal digits writes. *)
Definition decimal (s : str) : Z :=
  fold_left (fun acc c => (acc * 10 + (Z.of_N c - 48))%Z) s 0%Z.

Section Selection.

(** [int(s)] of a text of ASCII digits is the number it writes, unless the
    interpreter refuses the text for its length ([int_refuses], the limit
    that [sys.set_int_max_str_digits] sets), which raises [ValueError].
    What [int] makes of other texts is [int_other]. *)
Variable int_refuses : str -> bool.
Variable int_other : str -> outcome Z.

Definition int_ (s : str) : outcome Z :=
  if negb (is_nil s) && forallb is_digit s then
    if int_refuses s then Raised (py "ValueError") else Returned (decimal s)
  else int_other s.

(** [storages[i]]: a negative index counts from the end. *)
Definition subscript (storages : list str) (i : Z) : comp str :=
  let n := Z.of_nat (List.length storages) in
  let j := (if i <? 0 then i + n else i)%Z in
  if ((0 <=? j) && (j <? n))%Z
  then ret (nth (Z.to_nat j) storages [])
  else raise "IndexError".

(** The lines of [main] from the prompt for the storage number to the
    message that names the storage chosen. *)
Definition select_storage (storages : list str) (typed : list str)
  : comp str * list str :=
  let '(t, r, rest) :=
    ask (py "Seleccione almacenamiento (número)") (py "1")
        (Some number_pattern) error_msg_default typed in
  (text <- (t, r) ;;
   storage_num <- lift (int_ text) ;;
   (if ((storage_num <? 1)
        || (Z.of_nat (List.length storages) <? storage_num))%Z
    then error_exit (py "Selección inválida") else ret tt) ;;;
   storage <- subscript storages (storage_num - 1) ;;
   emit (success (py "Almacenamiento seleccionado: " ++ storage)) ;;;
   ret storage,
   rest).

End Selection.

(** ** The defaults of the network configuration *)

(** The three variables the block assigns.  [None] in the first two says
    that the variable is not bound; the gateway is always bound, and [None]
    there is the value [None] that [run_command] returned. *)
Record defaults : Type := Defaults
  { default_suggested_ip : option str;
    default_mask : option str;
    default_gateway : option str }.

Definition fallback : defaults :=
  Defaults (Some (py "192.168.1.100")) (Some (py "24"))
           (Some (py "192.168.1.1")).

Definition interface_command : str :=
  py "ip route | grep default | awk '{print $5}'".

Definition cidr_command (default_interface : str) : str :=
  py "ip -f inet addr show " ++ default_interface
    ++ py " | grep -Po 'inet \K[\d.]+/[\d]+'".

Definition gateway_command : str :=
  py "ip route | grep default | awk '{print $3}'".

(** [parts[i]] *)
Definition item_at (parts : list str) (i : nat) : comp str :=
  match nth_error parts i with
  | Some part => ret part
  | None => raise "IndexError"
  end.

(** The block of [main] under "Obtener configuración de red
    predeterminada", given how its three commands end. *)
Definition network_defaults (p_interface p_cidr p_gateway : process)
  : comp defaults :=
  try_except
    (default_interface <- run_command interface_command false false
                            p_interface ;;
     if truthy default_interface then
       default_cidr <- run_command (cidr_command (text_of default_interface))
                         false false p_cidr ;;
       if truthy default_cidr then
         address <- item_at (split 47%N (text_of default_cidr)) 0 ;;
         let ip_parts := split 46%N address in
         p0 <- item_at ip_parts 0 ;;
         p1 <- item_at ip_parts 1 ;;
         p2 <- item_at ip_parts 2 ;;
         let suggested := p0 ++ py "." ++ p1 ++ py "." ++ p2 ++ py ".100" in
         mask <- item_at (split 47%N (text_of default_cidr)) 1 ;;
         gateway <- run_command gateway_command false false p_gateway ;;
         ret (Defaults (Some suggested) (Some mask) gateway)
       else ret (Defaults None None (Some []))
     else ret fallback)
    (ret fallback).

(** Reading a local variable: one that is not bound raises
    [UnboundLocalError]. *)
Definition bound (x : option str) : comp str :=
  match x with
  | Some v => ret v
  | None => raise "UnboundLocalError"
  end.

(** [ask(prompt, None, validation)]: the default is shown as [None], and of
    a blank entry [re.match] is given [None], which raises [TypeError]. *)
Fixpoint ask_None (prompt : str) (validation : pattern) (error_msg : str)
    (typed : list str) : list event * outcome str * list str :=
  match typed with
  | [] => ([ask_prompt prompt (py "None")], Raised (py "EOFError"), [])
  | line :: rest =>
    match strip line with
    | [] => ([ask_prompt prompt (py "None")], Raised (py "TypeError"), rest)
    | user_input =>
      if re_match validation user_input
      then ([ask_prompt prompt (py "None")], Returned user_input, rest)
      else
        let '(trace, r, rest') := ask_None prompt validation error_msg rest in
        (ask_prompt prompt (py "None") :: warning error_msg ++ trace, r, rest')
    end
  end.

(** Prompts one after the other: the lines the first leaves are read by the
    next. *)
Definition console (A : Type) : Type :=
  list str -> list event * outcome A * list str.

Definition then_ {A B : Type} (m : console A) (k : A -> console B)
  : console B :=
  fun typed =>
    match m typed with
    | (t, Returned a, rest) =>
      let '(t', r, rest') := k a rest in (t ++ t', r, rest')
    | (t, Exited code, rest) => (t, Exited code, rest)
    | (t, Raised e, rest) => (t, Raised e, rest)
    end.

Definition unit_ {A : Type} (a : A) : console A :=
  fun typed => ([], Returned a, typed).

Definition silent {A : Type} (m : comp A) : console A :=
  fun typed => (fst m, snd m, typed).

Notation "x <~ m ;; k" := (then_ m (fun x => k))
  (at level 61, m at next level, right associativity).

(** The address, mask, gateway and name servers of the container. *)
Record network : Type := Network
  { ip_address : str; netmask : str; gateway : str; dns_servers : str;
    public_ip : bool; mac_address : option str }.

Definition ask_gateway (d : defaults) : console str :=
  match default_gateway d with
  | Some g => ask (py "Puerta de enlace") g (Some ip_pattern) error_msg_default
  | None => ask_None (py "Puerta de enlace") ip_pattern error_msg_default
  end.

(** The branch of [main] for a local address.  The arguments of a call are
    evaluated before it: a default that is not bound is missed before the
    prompt is shown. *)
Definition local_network (d : defaults) : console network :=
  suggested <~ silent (bound (default_suggested_ip d)) ;;
  ip <~ ask (py "Dirección IP local") suggested (Some ip_pattern)
          error_msg_default ;;
  mask_default <~ silent (bound (default_mask d)) ;;
  mask <~ ask (py "Máscara de red (CIDR)") mask_default
            (Some number_pattern) error_msg_default ;;
  gw <~ ask_gateway d ;;
  dns <~ ask (py "Servidores DNS") (py "9.9.9.9,1.1.1.1") None
           error_msg_default ;;
  unit_ (Network ip mask gw dns false None).

(** The branch of [main] for a public address. *)
Definition public_network (d : defaults) : console network :=
  ip <~ ask (py "Dirección IP pública") [] (Some ip_pattern)
          error_msg_default ;;
  gw <~ ask_gateway d ;;
  dns <~ ask (py "Servidores DNS (separados por coma)")
           (py "9.9.9.9,1.1.1.1") None error_msg_default ;;
  mac <~ ask_mac ;;
  unit_ (Network ip (py "32") gw dns true (Some mac)).

(** ** Copying the custom modules *)

Section Transfer.

Variables vm_id modules_dir : str.

Definition tmp_tar (module : str) : str := py "/tmp/" ++ module ++ py ".tar.gz".

(** The five commands [main] runs for one module. *)
Definition module_commands (module : str) : list str :=
  [py "tar -czf " ++ tmp_tar module ++ py " -C " ++ modules_dir ++ py " "
      ++ module;
   py "pct push " ++ vm_id ++ py " " ++ tmp_tar module ++ py " /tmp/"
      ++ module ++ py ".tar.gz";
   py "pct exec " ++ vm_id ++ py " -- tar -xzf /tmp/" ++ module
      ++ py ".tar.gz -C /tmp/custom_modules";
   py "rm " ++ tmp_tar module;
   py "pct exec " ++ vm_id ++ py " -- rm /tmp/" ++ module ++ py ".tar.gz"].

Definition mkdir_command : str :=
  py "pct exec " ++ vm_id ++ py " -- mkdir -p /tmp/custom_modules".

(** [run_command] on each command in turn; [p i] is how the command number
    [i] ends. *)
Fixpoint run_commands (commands : list str) (p : nat -> process)
  : comp unit :=
  match commands with
  | [] => ret tt
  | c :: rest =>
    run_command c true false (p 0) ;;;
    run_commands rest (fun i => p (S i))
  end.

(** The loop over the modules: the five commands and the message. *)
Fixpoint transfer_loop (custom_modules : list str) (p : nat -> process)
  : comp unit :=
  match custom_modules with
  | [] => ret tt
  | module :: rest =>
    run_commands (module_commands module) p ;;;
    emit (success (py "Módulo '" ++ module ++ py "' transferido al contenedor")) ;;;
    transfer_loop rest (fun i => p (5 + i))
  end.

(** The section of [main] that copies the custom modules into the
    container; [p i] is how the command number [i] of the section ends. *)
Definition transfer_modules (custom_modules : list str) (p : nat -> process)
  : comp unit :=
  if has_custom_modules custom_modules then
    emit (section (py "CONFIGURACIÓN DE MÓDULOS PERSONALIZADOS")) ;;;
    emit (info (py "Copiando módulos personalizados al contenedor...")) ;;;
    run_command mkdir_command true false (p 0) ;;;
    transfer_loop custom_modules (fun i => p (S i))
  else ret tt.

(** The commands of the section, in the order of the script. *)
Definition transfer_plan (custom_modules : list str) : list str :=
  if has_custom_modules custom_modules
  then mkdir_command :: flat_map module_commands custom_modules
  else [].

End Transfer.

(** ** The routes of a public address *)

Definition netcfg_path : str := py "/tmp/01-netcfg.yaml".

(** The five commands that install the network configuration in the
    container. *)
Definition route_commands (vm_id : str) : list str :=
  [py "pct push " ++ vm_id ++ py " /tmp/01-netcfg.yaml /etc/netplan/01-netcfg.yaml";
   py "pct exec " ++ vm_id ++ py " -- chmod 644 /etc/netplan/01-netcfg.yaml";
   py "pct exec " ++ vm_id ++ py " -- bash -c 'rm -f /etc/netplan/10-*.yaml'";
   py "pct exec " ++ vm_id ++ py " -- netplan apply";
   py "rm /tmp/01-netcfg.yaml"].

(** The section of [main] under "Configurar para IP pública /32"; [p i] is
    how the command number [i] ends. *)
Definition configure_public_ip (vm_id : str) (public_ip : bool)
    (ip_address gateway dns_servers : str) (p : nat -> process) : comp unit :=
  if public_ip then
    emit (info (py "Configurando rutas para IP pública...")) ;;;
    emit [File_write netcfg_path
            (netplan_config ip_address gateway dns_servers)] ;;;
    run_commands (route_commands vm_id) p
  else ret tt.

(** The commands before the first that does not succeed, that one
    included. *)
Fixpoint attempted (commands : list str) (p : nat -> process) : list str :=
  match commands with
  | [] => []
  | c :: rest =>
    if succeeds (p 0) then c :: attempted rest (fun i => p (S i)) else [c]
  end.

(** The first [n] commands all succeed. *)
Definition all_succeed (n : nat) (p : nat -> process) : bool :=
  forallb (fun i => succeeds (p i)) (seq 0 n).

(** ** The output of the install script *)

(** [s.replace(old, "")]: the occurrences of [old] are dropped, from the
    left; [skip] characters of the occurrence found last are still to be
    dropped. *)
Fixpoint drop_from (old : str) (skip : nat) (s : str) : str :=
  match s with
  | [] => []
  | c :: r =>
    match skip with
    | S k => drop_from old k r
    | 0 =>
      if prefixb old s then drop_from old (List.length old - 1) r
      else c :: drop_from old 0 r
    end
  end.

Definition replace_ (old s : str) : str :=
  match old with
  | [] => s
  | _ :: _ => drop_from old 0 s
  end.

Definition progress_msg (text : str) : list event := msg text (py "PROGRESS") cO.

(** The body of the loop over the lines of the output. *)
Definition show_line (raw : str) : list event :=
  let line := strip raw in
  if infixb (py "[INFO]") line then info (replace_ (py "[INFO] ") line)
  else if infixb (py "[SUCCESS]") line
  then success (replace_ (py "[SUCCESS] ") line)
  else if infixb (py "[WARNING]") line
  then warning (replace_ (py "[WARNING] ") line)
  else if infixb (py "[ERROR]") line
  then error (replace_ (py "[ERROR] ") line)
  else if infixb (py "[PROGRESS]") line
  then progress_msg (replace_ (py "[PROGRESS] ") line)
  else [print (py "  " ++ line)].

(** What the functions of the install script write. *)
Inductive tag : Type := INFO | SUCCESS | WARNING | ERROR | PROGRESS.

Definition tag_text (t : tag) : str :=
  match t with
  | INFO => py "[INFO]"
  | SUCCESS => py "[SUCCESS]"
  | WARNING => py "[WARNING]"
  | ERROR => py "[ERROR]"
  | PROGRESS => py "[PROGRESS]"
  end.

(** [echo "[TAG] $1"] *)
Definition echoed (t : tag) (text : str) : str :=
  tag_text t ++ py " " ++ text ++ [nl].

(** What [main] shows for a message of the kind [t]. *)
Definition shown (t : tag) (text : str) : list event :=
  match t with
  | INFO => info text
  | SUCCESS => success text
  | WARNING => warning text
  | ERROR => error text
  | PROGRESS => progress_msg text
  end.

(** The text holds no opening bracket. *)
Definition no_bracket (s : str) : bool :=
  forallb (fun y => negb (char_eqb 91%N y)) s.

(** [str(z)] *)
Definition str_of_Z (z : Z) : str :=
  match z with
  | Z0 => py "0"
  | Zpos p => str_of_N (Npos p)
  | Zneg p => py "-" ++ str_of_N (Npos p)
  end.

(** How the install script runs under [subprocess.Popen]: it cannot be
    started; or it writes lines and ends with a return code; or reading its
    output fails after some lines. *)
Inductive streamed : Type :=
| Not_started (exception : str)
| Finished (output : list str) (return_code : Z)
| Cut_off (output : list str) (exception : str).

Definition install_command (vm_id : str) : str :=
  py "pct exec " ++ vm_id ++ py " -- bash /root/odoo_install.sh".

Section Install.

Variable describe : str -> str.

(** The [try] block of [main] that runs the install script and shows what
    it writes. *)
Definition run_install (vm_id : str) (s : streamed) : comp unit :=
  try_except_Exception
    (emit [Shell (install_command vm_id)] ;;;
     match s with
     | Not_started e => lift (Raised e)
     | Finished output return_code =>
       emit (flat_map show_line output) ;;;
       if negb (return_code =? 0)%Z
       then emit (warning (py "El proceso de instalación finalizó con código "
                             ++ str_of_Z return_code))
       else emit (success (py "Instalación de Odoo completada con éxito"))
     | Cut_off output e =>
       emit (flat_map show_line output) ;;; lift (Raised e)
     end)
    (fun e => emit (error (py "Error durante la instalación: " ++ describe e))).

Definition show_group (title : str) : list event :=
  [print (C cBOLD ++ title ++ py ":" ++ C cN)].

Definition banner (text : string) : event :=
  print (C cO ++ py text ++ C cN).

(** The end of [main], from the removal of the install script on. *)
Definition finish (vm_id ip_address odoo_user db_password password : str)
    (custom_modules : list str) (p_rm : process) : comp unit :=
  run_command (py "rm /tmp/odoo_install.sh") true false p_rm ;;;
  emit (section (py "INSTALACIÓN COMPLETADA")
        ++ [banner "╔═════════════════════════════════════════════════════════════════╗";
            banner "║                   C3i SERVICIOS INFORMÁTICOS                    ║";
            banner "║                 INSTALACIÓN DE ODOO COMPLETADA                  ║";
            banner "╚═════════════════════════════════════════════════════════════════╝"]
        ++ show_group (py "Información de acceso a Odoo")
        ++ show_item (py "URL") (py "http://" ++ ip_address ++ py ":8069")
        ++ show_item (py "Usuario de base de datos") odoo_user
        ++ show_item (py "Contraseña de base de datos") db_password
        ++ [print []]
        ++ show_group (py "Acceso al contenedor")
        ++ show_item (py "Comando SSH") (py "ssh root@" ++ ip_address)
        ++ show_item (py "Contraseña SSH") password
        ++ show_item (py "Desde Proxmox") (py "pct enter " ++ vm_id)
        ++ (if has_custom_modules custom_modules then
              [print []]
              ++ show_group (py "Módulos personalizados")
              ++ flat_map (show_item (py "Módulo instalado")) custom_modules
              ++ [print (nl :: C cY ++ py "NOTA: Los módulos personalizados estarán disponibles después de crear la base de datos." ++ C cN);
                  print (C cY ++ py "      Deberá activarlos desde el menú de Aplicaciones en Odoo." ++ C cN)]
            else [])
        ++ [print (nl :: C cY ++ py "NOTA: Espere unos minutos para que Odoo se inicialice completamente." ++ C cN ++ [nl])]).

(** The install and what follows it. *)
Definition install_and_finish (vm_id ip_address odoo_user db_password
    password : str) (custom_modules : list str) (s : streamed)
    (p_rm : process) : comp unit :=
  run_install vm_id s ;;;
  finish vm_id ip_address odoo_user db_password password custom_modules p_rm.

End Install.

(** ** Worlds for examples *)

(** A storage that holds images and templates, and a [json.loads] that
    reads nothing. *)
Definition storage_local : dict :=
  [(py "storage", VStr (py "local")); (py "content", VStr (py "iso,vztmpl"))].

Definition unreadable (s : str) : value + str := inr (py "JSONDecodeError").

Definition done (output : string) : process := Ran (Completed 0 (py output) []).

Definition failed (status : Z) : process := Ran (Completed status [] []).

(** A container whose status query answers "stopped" until, at attempt
    [k], it answers a text that is no JSON. *)
Definition garbled_at (k attempt : nat) : process * process :=
  (Ran (Completed 0 (if attempt =? k then py "starting up"
                     else py "{`status`:`stopped`}") []),
   Ran (Completed 1 [] [])).

(** ** Properties of [run_command] *)

Example strip_example :
  strip (py "  pve01
") = py "pve01".
Proof. reflexivity. Qed.

(** C1 (as amended).  For every command: when it runs to its end with exit
    status 0, [run_command] returns the stripped standard output, with
    either value of [exit_on_error]; when it ends with another status,
    [run_command] with [exit_on_error] true prints one error line to the
    standard error stream and leaves the process with exit status 1, and
    with [exit_on_error] false it returns [None], prints nothing and leaves
    nothing.  When [subprocess.run] itself raises (the shell cannot be
    started, the output cannot be decoded), the exception goes through
    [run_command] with either value of [exit_on_error]: nothing is
    returned, no error line is printed, and the process is not left with
    status 1. *)
Theorem run_command_result :
  forall (command : str) (show_output : bool),
    (forall c exit_on_error,
        returncode c = 0%Z ->
        snd (run_command command exit_on_error show_output (Ran c))
        = Returned (Some (strip (stdout c))))
    /\ (forall c,
           returncode c <> 0%Z ->
           run_command command true show_output (Ran c)
           = ([Shell command; command_error_line command c], Exited 1%Z))
    /\ (forall c,
           returncode c <> 0%Z ->
           run_command command false show_output (Ran c)
           = ([Shell command], Returned None))
    /\ (forall e exit_on_error,
           run_command command exit_on_error show_output (Not_run e)
           = ([Shell command], Raised e)).
Proof.
  intros command show_output; unfold run_command.
  repeat split.
  - intros c exit_on_error H. rewrite H. reflexivity.
  - intros c H. apply Z.eqb_neq in H. rewrite H. reflexivity.
  - intros c H. apply Z.eqb_neq in H. rewrite H. reflexivity.
Qed.

Lemma run_command_result_witness :
  run_command (py "hostname") false false (Ran (Completed 1 [] (py "sh: 1")))
  = ([Shell (py "hostname")], Returned None).
Proof.
  apply (proj1 (proj2 (proj2 (run_command_result (py "hostname") false)))
           (Completed 1 [] (py "sh: 1"))).
  simpl. lia.
Defined.

(** C1, where the claim as first worded fails.  The output of the command
    cannot be decoded as text: [subprocess.run] raises [UnicodeDecodeError],
    which [run_command] does not catch.  With [exit_on_error] true the call
    neither returns the output nor prints the error line and exits; with
    [exit_on_error] false it does not return [None]. *)
Lemma run_command_undecodable_output :
  run_command (py "hostname") true false (Not_run (py "UnicodeDecodeError"))
  = ([Shell (py "hostname")], Raised (py "UnicodeDecodeError"))
  /\ run_command (py "hostname") false false
       (Not_run (py "UnicodeDecodeError"))
     = ([Shell (py "hostname")], Raised (py "UnicodeDecodeError")).
Proof. split; reflexivity. Qed.

Example vm_id_examples :
  map (re_match vm_id_pattern)
      [py "100"; py "999"; py "542"; py "099"; py "1000"; py "99"; py "10a"; []]
  = [true; true; true; false; false; false; false; false].
Proof. reflexivity. Qed.

(** ** Properties of [strip] *)

Lemma lstrip_head : forall s c r, lstrip s = c :: r -> isspace c = false.
Proof.
  induction s as [|x s IH]; intros c r H; simpl in H.
  - discriminate.
  - destruct (isspace x) eqn:Hx.
    + eapply IH; eassumption.
    + injection H as -> _. exact Hx.
Qed.

Lemma rstrip_last : forall s t c, rstrip s = t ++ [c] -> isspace c = false.
Proof.
  unfold rstrip; intros s t c H.
  apply (f_equal (@rev char)) in H.
  rewrite rev_involutive, rev_app_distr in H; simpl in H.
  eapply lstrip_head; eassumption.
Qed.

Lemma strip_last : forall s t c, strip s = t ++ [c] -> isspace c = false.
Proof. unfold strip; intros s t c H. eapply rstrip_last; eassumption. Qed.

(** What [ask] validates is the default or a stripped entry: with a default
    that does not end in a line feed, it never ends in one. *)
Lemma or_strip_last :
  forall line default t c,
    (forall d, default <> d ++ [nl]) ->
    or_ (strip line) default = t ++ [c] -> c <> nl.
Proof.
  intros line default t c Hd H Hc; subst c.
  destruct (strip line) as [|x r] eqn:Hs; simpl in H.
  - exact (Hd t H).
  - rewrite <- Hs in H. apply strip_last in H. discriminate.
Qed.

(** ** The container id *)

Lemma rep_eq :
  forall a lo hi k first s,
    rep a lo hi k first s
    = (match lo with 0 => k first s | S _ => false end)
      || match s, more hi with
         | c :: s', Some hi' => atom_match a c && rep a (pred lo) hi' k false s'
         | _, _ => false
         end.
Proof. intros; destruct s; reflexivity. Qed.

Lemma class_digit1 :
  forall c, atom_match (Class [range "1" "9"]) c = true <-> digit1 c.
Proof.
  intros c; unfold digit1.
  change (atom_match _ c) with (((49 <=? c) && (c <=? 57))%N || false).
  rewrite orb_false_r, andb_true_iff, !N.leb_le. tauto.
Qed.

Lemma class_digit0 : forall c, atom_match digit c = true <-> digit0 c.
Proof.
  intros c; unfold digit0.
  change (atom_match _ c) with (((48 <=? c) && (c <=? 57))%N || false).
  rewrite orb_false_r, andb_true_iff, !N.leb_le. tauto.
Qed.

(** The strings the pattern matches, character by character. *)
Lemma vm_id_pattern_shape :
  forall s,
    re_match vm_id_pattern s = true
    <-> exists a b c,
          digit1 a /\ digit0 b /\ digit0 c /\ (s = [a; b; c] \/ s = [a; b; c; nl]).
Proof.
  intros s; unfold re_match, vm_id_pattern, one, times.
  cbn [matches andb].
  split.
  - destruct s as [|a [|b [|c [|d [|e s]]]]];
      repeat (rewrite rep_eq; cbn [more pred orb andb matches at_end]);
      rewrite ?andb_false_r, ?orb_false_r; try discriminate.
    + rewrite !andb_true_iff, class_digit1, !class_digit0.
      intros (Ha & Hb & Hc & _). exists a, b, c; auto.
    + rewrite !andb_true_iff, class_digit1, !class_digit0.
      unfold char_eqb; rewrite N.eqb_eq.
      intros (Ha & Hb & Hc & Hd & _). subst d. exists a, b, c; auto.
  - intros (a & b & c & Ha & Hb & Hc & [-> | ->]);
      apply class_digit1 in Ha; apply class_digit0 in Hb, Hc;
      repeat (rewrite rep_eq; cbn [more pred orb andb matches at_end]);
      rewrite Ha, Hb, Hc; reflexivity.
Qed.

Lemma str_eqb_eq : forall a b, str_eqb a b = true <-> a = b.
Proof.
  induction a as [|x a IH]; destruct b as [|y b]; simpl; split;
    try discriminate; try reflexivity.
  - rewrite andb_true_iff; unfold char_eqb; rewrite N.eqb_eq, IH.
    intros [-> ->]; reflexivity.
  - intros H; injection H as -> ->.
    rewrite andb_true_iff; unfold char_eqb; rewrite N.eqb_eq, IH; auto.
Qed.

Lemma ids_all : forall n, (100 <= n <= 999)%N -> In n ids.
Proof.
  intros n H; unfold ids.
  rewrite <- (N2Nat.id n). apply in_map, in_seq. lia.
Qed.

Lemma ids_numeral3 :
  forallb (fun n => str_eqb (str_of_N n) (numeral3 n)) ids = true.
Proof. vm_compute. reflexivity. Qed.

Lemma str_of_N_numeral3 :
  forall n, (100 <= n <= 999)%N -> str_of_N n = numeral3 n.
Proof.
  intros n H. apply str_eqb_eq.
  exact (proj1 (forallb_forall _ _) ids_numeral3 n (ids_all H)).
Qed.

Lemma container_id_shape :
  forall s,
    container_id s
    <-> exists a b c, digit1 a /\ digit0 b /\ digit0 c /\ s = [a; b; c].
Proof.
  intros s; unfold container_id, digit1, digit0; split.
  - intros (n & Hn & ->). rewrite (str_of_N_numeral3 Hn); unfold numeral3.
    exists (48 + n / 100)%N, (48 + (n / 10) mod 10)%N, (48 + n mod 10)%N.
    assert (n / 100 < 10 /\ 1 <= n / 100)%N as [? ?]
      by (split; [apply N.Div0.div_lt_upper_bound | apply N.div_le_lower_bound]; lia).
    assert ((n / 10) mod 10 < 10)%N by (apply N.mod_lt; lia).
    assert (n mod 10 < 10)%N by (apply N.mod_lt; lia).
    repeat split; try apply N.le_add_r; lia.
  - intros (a & b & c & Ha & Hb & Hc & ->).
    exists ((a - 48) * 100 + (b - 48) * 10 + (c - 48))%N.
    assert (Hn : (100 <= (a - 48) * 100 + (b - 48) * 10 + (c - 48) <= 999)%N)
      by lia.
    split; [exact Hn|].
    rewrite (str_of_N_numeral3 Hn); unfold numeral3.
    repeat f_equal; zify; Z.to_euclidean_division_equations; lia.
Qed.

Lemma container_id_no_line_feed : forall s d, container_id s -> s <> d ++ [nl].
Proof.
  intros s d H E. apply container_id_shape in H.
  destruct H as (a & b & c & Ha & Hb & Hc & ->).
  unfold digit0 in Hc.
  destruct d as [|x [|y [|z [|w d]]]]; try discriminate.
  injection E as _ _ E. subst c. unfold nl in Hc. lia.
Qed.

Lemma vm_id_pattern_matches :
  forall s,
    re_match vm_id_pattern s = true
    <-> container_id s \/ exists t, container_id t /\ s = t ++ [nl].
Proof.
  intros s. rewrite vm_id_pattern_shape. split.
  - intros (a & b & c & Ha & Hb & Hc & [-> | ->]).
    + left. apply container_id_shape. exists a, b, c; auto.
    + right. exists [a; b; c]. split; [|reflexivity].
      apply container_id_shape. exists a, b, c; auto.
  - intros [H | (t & H & ->)]; apply container_id_shape in H;
      destruct H as (a & b & c & Ha & Hb & Hc & ->); exists a, b, c; auto.
Qed.

Lemma ask_returned_valid :
  forall prompt default validation error_msg typed trace v rest,
    ask prompt default validation error_msg typed = (trace, Returned v, rest) ->
    valid validation v = true
    /\ exists line, In line typed /\ v = or_ (strip line) default.
Proof.
  intros prompt default validation error_msg.
  induction typed as [|line typed IH]; intros trace v rest H; simpl in H.
  - discriminate.
  - destruct (valid validation (or_ (strip line) default)) eqn:Hv.
    + injection H as _ <- _. split; [exact Hv|].
      exists line; simpl; auto.
    + destruct (ask prompt default validation error_msg typed)
        as [[trace' r'] rest'] eqn:Hr.
      injection H as _ -> _.
      destruct (IH _ _ _ eq_refl) as (Hv' & l & Hl & ->).
      split; [exact Hv'|]. exists l; simpl; auto.
Qed.

(** C4 (as amended).  The pattern of the [vm_id] prompt matches exactly the
    numerals of 100 to 999 and each of them followed by one line feed.  What
    the prompt validates is a stripped entry or the default, which ends in
    no line feed: there the pattern holds exactly for the numerals of 100 to
    999, whatever the prompt returns is one of them, and an entry that is
    one of them is returned at once.  "099", "1000" and "99" are refused. *)
Theorem vm_id_validation :
  (forall s,
      re_match vm_id_pattern s = true
      <-> container_id s \/ exists t, container_id t /\ s = t ++ [nl])
  /\ (forall line,
         re_match vm_id_pattern (or_ (strip line) (py "100")) = true
         <-> container_id (or_ (strip line) (py "100")))
  /\ (forall typed trace v rest,
         ask_vm_id typed = (trace, Returned v, rest) -> container_id v)
  /\ (forall line typed,
         container_id (strip line) ->
         snd (fst (ask_vm_id (line :: typed))) = Returned (strip line))
  /\ map (re_match vm_id_pattern) [py "099"; py "1000"; py "99"]
     = [false; false; false].
Proof.
  assert (Hline : forall line,
             re_match vm_id_pattern (or_ (strip line) (py "100")) = true
             <-> container_id (or_ (strip line) (py "100"))).
  { intros line. rewrite vm_id_pattern_matches. split; [|auto].
    intros [H | (t & _ & E)]; [exact H|].
    exfalso. refine (or_strip_last line _ _ E eq_refl).
    intros d Hd. destruct d as [|x [|y [|z [|w d]]]]; discriminate. }
  split; [exact vm_id_pattern_matches|].
  split; [exact Hline|].
  split; [|split; [|reflexivity]].
  - intros typed trace v rest H. unfold ask_vm_id in H. apply ask_returned_valid in H.
    destruct H as (Hv & line & _ & ->). apply Hline. exact Hv.
  - intros line typed H. unfold ask_vm_id; simpl.
    assert (E : or_ (strip line) (py "100") = strip line).
    { destruct (strip line) eqn:Hs; [|reflexivity].
      apply container_id_shape in H.
      destruct H as (a & b & c & _ & _ & _ & H). discriminate. }
    rewrite E.
    change (valid (Some vm_id_pattern) (strip line))
      with (re_match vm_id_pattern (strip line)).
    rewrite (proj2 (vm_id_pattern_matches (strip line)) (or_introl H)).
    reflexivity.
Qed.

Lemma vm_id_validation_witness :
  container_id (py "250").
Proof.
  apply (proj1 (proj2 (proj2 vm_id_validation))
           [py "abc"; py " 250 "; py "300"]
           (ask_prompt (py "ID del contenedor (100-999)") (py "100")
              :: warning error_msg_default
              ++ [ask_prompt (py "ID del contenedor (100-999)") (py "100")])
           (py "250") [py "300"]).
  vm_compute. reflexivity.
Defined.

(** C4, as stated, fails: the pattern also matches a numeral that is
    followed by a line feed, a string of four characters that is no
    three-digit numeral. *)
Lemma vm_id_pattern_line_feed :
  re_match vm_id_pattern (py "100" ++ [nl]) = true
  /\ List.length (py "100" ++ [nl]) = 4
  /\ ~ container_id (py "100" ++ [nl]).
Proof.
  repeat split.
  intros H. exact (@container_id_no_line_feed _ (py "100") H eq_refl).
Qed.

(** ** The prompt loop *)

Lemma blank_lstrip : forall line, blank line = true -> lstrip line = [].
Proof.
  induction line as [|c line IH]; simpl; [reflexivity|].
  rewrite andb_true_iff; intros [-> H]. exact (IH H).
Qed.

Lemma blank_strip : forall line, blank line = true -> strip line = [].
Proof. intros line H; unfold strip. rewrite (blank_lstrip _ H). reflexivity. Qed.

(** C9 (as amended).  With a pattern and a default that is a text, whatever
    [ask] returns matches the pattern.  A blank entry (empty or of white
    space only) is validated as the default: when the default matches, it is
    returned at that entry; when it does not, the entry is refused with the
    warning and the prompt comes again, so that under blank entries alone
    [ask] returns at none of them, however many they are: it has not
    returned after any number of prompts.  With a pattern and the default
    [None], whatever [ask] returns matches the pattern as well, and a blank
    entry ends the call with [TypeError]: it neither returns nor asks
    again. *)
Theorem ask_validated :
  forall (prompt default : str) (p : pattern) (error_msg : str),
    (forall typed trace v rest,
        ask prompt default (Some p) error_msg typed = (trace, Returned v, rest) ->
        re_match p v = true)
    /\ (forall line typed,
           blank line = true -> re_match p default = true ->
           ask prompt default (Some p) error_msg (line :: typed)
           = ([ask_prompt prompt default], Returned default, typed))
    /\ (forall line typed,
           blank line = true -> re_match p default = false ->
           ask prompt default (Some p) error_msg (line :: typed)
           = (let '(trace, r, rest) :=
                ask prompt default (Some p) error_msg typed in
              (ask_prompt prompt default :: warning error_msg ++ trace, r, rest)))
    /\ (forall typed,
           forallb blank typed = true -> re_match p default = false ->
           ask prompt default (Some p) error_msg typed
           = (refused prompt default error_msg (List.length typed)
                ++ [ask_prompt prompt default],
              Raised (py "EOFError"), []))
    /\ (forall entries,
           (forall i, blank (entries i) = true) ->
           re_match p default = false ->
           forall fuel,
             ask_within prompt default (Some p) error_msg entries fuel = None)
    /\ (forall typed trace v rest,
           ask_None prompt p error_msg typed = (trace, Returned v, rest) ->
           re_match p v = true)
    /\ (forall line typed,
           blank line = true ->
           ask_None prompt p error_msg (line :: typed)
           = ([ask_prompt prompt (py "None")], Raised (py "TypeError"), typed)).
Proof.
  intros prompt default p error_msg.
  assert (Hstep : forall line typed,
             blank line = true -> re_match p default = false ->
             ask prompt default (Some p) error_msg (line :: typed)
             = (let '(trace, r, rest) :=
                  ask prompt default (Some p) error_msg typed in
                (ask_prompt prompt default :: warning error_msg ++ trace,
                 r, rest))).
  { intros line typed Hb Hd. simpl.
    rewrite (blank_strip _ Hb); simpl. rewrite Hd. reflexivity. }
  assert (Hloop : forall typed,
             forallb blank typed = true -> re_match p default = false ->
             ask prompt default (Some p) error_msg typed
             = (refused prompt default error_msg (List.length typed)
                  ++ [ask_prompt prompt default],
                Raised (py "EOFError"), [])).
  { induction typed as [|line typed IH]; intros Hb Hd.
    - reflexivity.
    - simpl in Hb. apply andb_true_iff in Hb. destruct Hb as [Hl Hb].
      rewrite (Hstep _ _ Hl Hd), (IH Hb Hd). reflexivity. }
  split; [|split; [|split; [exact Hstep|split; [exact Hloop|split; [|split]]]]].
  - intros typed trace v rest H.
    exact (proj1 (ask_returned_valid _ _ _ _ _ H)).
  - intros line typed Hb Hd. simpl.
    rewrite (blank_strip _ Hb); simpl. rewrite Hd. reflexivity.
  - intros entries Hb Hd fuel. unfold ask_within.
    rewrite Hloop; [reflexivity | | exact Hd].
    apply forallb_forall. intros line Hin.
    apply in_map_iff in Hin. destruct Hin as (i & <- & _). apply Hb.
  - induction typed as [|line typed IH]; intros trace v rest H;
      cbn [ask_None] in H; [discriminate|].
    destruct (strip line) as [|c r] eqn:Es; [discriminate|].
    destruct (re_match p (c :: r)) eqn:Hv.
    + injection H as _ <- _. exact Hv.
    + destruct (ask_None prompt p error_msg typed) as [[trace' r'] rest'] eqn:Hr.
      injection H as _ -> _. exact (IH _ _ _ eq_refl).
  - intros line typed Hb. cbn [ask_None].
    rewrite (blank_strip _ Hb). reflexivity.
Qed.

Lemma ask_validated_witness :
  re_match hostname_pattern (py "odoo-server") = true.
Proof.
  apply (proj1 (ask_validated (py "Nombre de host del contenedor")
                  (py "odoo-server") hostname_pattern error_msg_default)
           [py "-x"; py "   "; py "next"]
           (ask_prompt (py "Nombre de host del contenedor") (py "odoo-server")
              :: warning error_msg_default
              ++ [ask_prompt (py "Nombre de host del contenedor")
                    (py "odoo-server")])
           (py "odoo-server") [py "next"]).
  vm_compute. reflexivity.
Defined.

(** C9, where the claim as first worded fails.  [main] asks for the gateway
    with a pattern and with the default the gateway query returned, which is
    [None] when that query failed.  A blank entry is then neither answered
    with the default nor refused: [re.match] is given [None] and the call
    ends with [TypeError], the entries after it unread. *)
Lemma ask_default_None_blank_entry :
  ask_None (py "Puerta de enlace") ip_pattern error_msg_default
           [py "  "; py "10.0.0.1"]
  = ([ask_prompt (py "Puerta de enlace") (py "None")],
     Raised (py "TypeError"), [py "10.0.0.1"]).
Proof. reflexivity. Qed.

(** ** Computations *)

Lemma trace_bind :
  forall (A B : Type) (m : comp A) (k : A -> comp B),
    trace (bind m k)
    = trace m ++ match result m with
                 | Returned a => trace (k a)
                 | _ => []
                 end.
Proof.
  intros A B [t [a | c | e]] k; unfold bind, trace, result; simpl;
    try (rewrite app_nil_r; reflexivity).
  destruct (k a); reflexivity.
Qed.

Lemma result_bind :
  forall (A B : Type) (m : comp A) (k : A -> comp B),
    result (bind m k)
    = match result m with
      | Returned a => result (k a)
      | Exited c => Exited c
      | Raised e => Raised e
      end.
Proof.
  intros A B [t [a | c | e]] k; unfold bind, trace, result; simpl;
    try reflexivity.
  destruct (k a); reflexivity.
Qed.

Lemma safe_bind :
  forall (A B : Type) (m : comp A) (k : A -> comp B),
    safe m -> (forall a, safe (k a)) -> safe (bind m k).
Proof.
  intros A B m k [Ht Hr] Hk; unfold safe.
  rewrite trace_bind, result_bind, existsb_app, Ht; simpl.
  destruct (result m) as [a | c | e]; simpl in *; auto.
  apply Hk.
Qed.

Lemma safe_ret : forall (A : Type) (a : A), safe (ret a).
Proof. intros; split; reflexivity. Qed.

Lemma safe_emit_prints :
  forall es, existsb divides_by_zero es = false -> safe (emit es).
Proof. intros es H; split; [exact H | reflexivity]. Qed.

(** ** Converting an integer to a float

    A non-zero [int] never becomes the [float] zero: rounding keeps at
    least one bit of it. *)

Lemma digits2_size : forall m, digits2_pos m = Pos.size m.
Proof. induction m; simpl; congruence. Qed.

Lemma digits2_bounds :
  forall m, (2 ^ (Zpos (digits2_pos m) - 1) <= Zpos m < 2 ^ Zpos (digits2_pos m))%Z.
Proof.
  intros m. rewrite digits2_size.
  pose proof (Pos.size_gt m) as Hgt. pose proof (Pos.size_le m) as Hle.
  assert (E : (2 ^ Zpos (Pos.size m) = Zpos (2 ^ Pos.size m))%Z)
    by (rewrite Pos2Z.inj_pow; reflexivity).
  assert (E2 : (2 ^ Zpos (Pos.size m) = 2 * 2 ^ (Zpos (Pos.size m) - 1))%Z).
  { rewrite <- Z.pow_succ_r by lia. f_equal. lia. }
  split.
  - assert (Zpos (2 ^ Pos.size m) <= Zpos m~0)%Z by exact Hle. lia.
  - rewrite E. exact Hgt.
Qed.

Lemma shr_1_m :
  forall r, (0 <= shr_m r)%Z -> shr_m (shr_1 r) = (shr_m r / 2)%Z.
Proof.
  intros [m r s] H; simpl in *.
  destruct m as [|[p|p|]|p]; simpl; try reflexivity; try lia.
  - rewrite Pos2Z.inj_xI. apply Z.div_unique with 1%Z; lia.
  - rewrite Pos2Z.inj_xO. apply Z.div_unique with 0%Z; lia.
Qed.

Lemma iter_shr_1_m :
  forall p r, (0 <= shr_m r)%Z ->
    shr_m (iter_pos shr_1 p r) = (shr_m r / 2 ^ Zpos p)%Z.
Proof.
  induction p as [p IH | p IH |]; intros r H; cbn [iter_pos].
  - assert (H1 : (0 <= shr_m (shr_1 r))%Z)
      by (rewrite shr_1_m by exact H; apply Z.div_pos; lia).
    assert (H2 : (0 <= shr_m (iter_pos shr_1 p (shr_1 r)))%Z)
      by (rewrite IH by exact H1; apply Z.div_pos; lia).
    rewrite IH, IH, shr_1_m by assumption.
    rewrite !Z.div_div by lia. f_equal.
    change 2%Z with (2 ^ 1)%Z at 1. rewrite <- !Z.pow_add_r by lia.
    f_equal. lia.
  - assert (H2 : (0 <= shr_m (iter_pos shr_1 p r))%Z)
      by (rewrite IH by exact H; apply Z.div_pos; lia).
    rewrite IH, IH by assumption.
    rewrite !Z.div_div by lia. f_equal.
    rewrite <- Z.pow_add_r by lia. f_equal. lia.
  - rewrite shr_1_m by exact H. reflexivity.
Qed.

Lemma shr_record_of_loc_m : forall m l, shr_m (shr_record_of_loc m l) = m.
Proof. intros m [|[| |]]; reflexivity. Qed.

Lemma shr_fexp_positive :
  forall m e l,
    (0 < m)%Z -> (emin prec emax <= e)%Z ->
    (0 < shr_m (fst (shr_fexp prec emax m e l)))%Z
    /\ (emin prec emax <= snd (shr_fexp prec emax m e l))%Z.
Proof.
  intros m e l Hm He. unfold shr_fexp, shr.
  destruct m as [|m|m]; try lia. cbn [Zdigits2].
  pose proof (digits2_bounds m) as [Hlo _].
  set (d := Zpos (digits2_pos m)) in *.
  assert (Hd : (0 < d)%Z) by (unfold d; lia).
  destruct (fexp prec emax (d + e) - e)%Z as [|p|p] eqn:En; simpl;
    rewrite ?shr_record_of_loc_m; try lia.
  rewrite iter_shr_1_m by (rewrite shr_record_of_loc_m; lia).
  rewrite shr_record_of_loc_m.
  unfold fexp, emin, prec, emax in *.
  split; [|lia].
  apply Z.lt_le_trans with 1%Z; [lia|].
  apply Z.div_le_lower_bound; [lia|].
  rewrite Z.mul_1_r.
  apply Z.le_trans with (2 ^ (d - 1))%Z; [|exact Hlo].
  apply Z.pow_le_mono_r; lia.
Qed.

Lemma round_nearest_even_positive :
  forall m l, (0 < m)%Z -> (0 < round_nearest_even m l)%Z.
Proof.
  intros m [|[| |]] H; simpl; try lia.
  destruct (Z.even m); lia.
Qed.

Lemma binary_round_aux_not_zero :
  forall s m e l,
    (0 < m)%Z -> (emin prec emax <= e)%Z ->
    float_is_zero (binary_round_aux prec emax s m e l) = false.
Proof.
  intros s m e l Hm He. unfold binary_round_aux.
  pose proof (shr_fexp_positive l Hm He) as [H1 H2].
  destruct (shr_fexp prec emax m e l) as [mrs' e']; simpl in H1, H2.
  pose proof (shr_fexp_positive loc_Exact
                (round_nearest_even_positive (loc_of_shr_record mrs') H1) H2)
    as [H3 _].
  destruct (shr_fexp prec emax _ e' loc_Exact) as [mrs'' e'']; simpl in H3.
  destruct (shr_m mrs''); try lia.
  - destruct (_ <=? _)%Z; reflexivity.
Qed.

Lemma float_of_Z_not_zero :
  forall z, z <> 0%Z -> float_is_zero (float_of_Z z) = false.
Proof.
  intros z Hz. unfold float_of_Z, binary_normalize.
  destruct z as [|m|m]; [contradiction| |];
    unfold binary_round, shl_align;
    destruct (fexp prec emax (Zpos (digits2_pos m) + 0) - 0)%Z eqn:E;
    apply binary_round_aux_not_zero; try lia;
    unfold fexp, emin, prec, emax in *; lia.
Qed.

(** ** The storage display never divides by zero *)

Lemma positive_not_zero : forall t, positive_num t = true -> is_zero t = false.
Proof.
  intros [y | g]; simpl.
  - rewrite Z.ltb_lt, Z.eqb_neq; lia.
  - destruct g; simpl; intros H; try reflexivity; discriminate.
Qed.

Lemma safe_to_float : forall z, safe (to_float z).
Proof.
  intros z; unfold to_float.
  destruct (float_of_Z z); split; reflexivity.
Qed.

Lemma safe_float_div :
  forall f g, float_is_zero g = false -> safe (float_div f g).
Proof. intros f g H; unfold float_div; rewrite H; split; reflexivity. Qed.


Lemma bind_ret :
  forall (A B : Type) (a : A) (k : A -> comp B), bind (ret a) k = k a.
Proof. intros; unfold bind, ret. destruct (k a); reflexivity. Qed.

Lemma to_float_cases :
  forall z, to_float z = raise "OverflowError" \/ to_float z = ret (float_of_Z z).
Proof. intros z; unfold to_float. destruct (float_of_Z z); auto. Qed.

Lemma safe_truediv :
  forall a b, is_zero b = false -> safe (truediv a b).
Proof.
  intros a b Hb; unfold truediv.
  apply safe_bind.
  - apply safe_emit_prints; simpl. rewrite Hb. reflexivity.
  - intros _. destruct a as [x | f], b as [y | g]; simpl in Hb.
    + rewrite Hb. destruct (SFdiv _ _ _ _); split; reflexivity.
    + apply safe_bind; [apply safe_to_float|].
      intros f. apply safe_float_div; exact Hb.
    + apply Z.eqb_neq in Hb.
      destruct (to_float_cases y) as [-> | ->].
      * split; reflexivity.
      * rewrite bind_ret. apply safe_float_div.
        apply float_of_Z_not_zero; exact Hb.
    + apply safe_float_div; exact Hb.
Qed.

Lemma safe_format_size : forall size, safe (format_size size).
Proof.
  intros size; unfold format_size.
  destruct (as_num size) as [n|]; [|apply safe_ret].
  repeat (apply safe_bind; [apply safe_truediv; reflexivity | intros ?]).
  apply safe_ret.
Qed.

Lemma safe_used_percent : forall used total, safe (used_percent used total).
Proof.
  intros used total; unfold used_percent.
  destruct (as_num used) as [u|]; [|apply safe_ret].
  destruct (as_num total) as [t|]; [|apply safe_ret].
  destruct (positive_num t) eqn:Ht; [|apply safe_ret].
  apply safe_bind; [|intros; apply safe_ret].
  apply safe_truediv, positive_not_zero, Ht.
Qed.

Lemma safe_contains : forall needle v, safe (contains needle v).
Proof. intros needle [ | | | | | | ]; split; reflexivity. Qed.

Lemma safe_find_storage :
  forall storage_data name, safe (find_storage storage_data name).
Proof.
  induction storage_data as [|item rest IH]; intros name; simpl.
  - apply safe_ret.
  - destruct (lookup item (py "storage")) as [v|]; [|split; reflexivity].
    destruct (is_str v name); [apply safe_ret | apply IH].
Qed.

Lemma safe_show_storage :
  forall storage_data index name, safe (show_storage storage_data index name).
Proof.
  intros; unfold show_storage.
  apply safe_bind; [apply safe_find_storage | intros info].
  do 2 (apply safe_bind; [apply safe_contains | intros ?]).
  do 3 (apply safe_bind; [apply safe_format_size | intros ?]).
  apply safe_bind; [apply safe_used_percent | intros ?].
  apply safe_emit_prints. reflexivity.
Qed.

Lemma safe_show_storages :
  forall storage_data storages, safe (show_storages storage_data storages).
Proof.
  intros storage_data storages; unfold show_storages.
  apply safe_bind; [apply safe_emit_prints; reflexivity | intros _].
  generalize 1%N.
  induction storages as [|name rest IH]; intros index; simpl.
  - apply safe_ret.
  - apply safe_bind; [apply safe_show_storage | intros _; apply IH].
Qed.

Lemma round_half_even_nearest :
  forall n d, (0 < d)%Z -> (2 * Z.abs (n - round_half_even n d * d) <= d)%Z.
Proof.
  intros n d Hd; unfold round_half_even.
  pose proof (Z.div_mod n d ltac:(lia)) as E.
  pose proof (Z.mod_pos_bound n d Hd) as B.
  destruct (2 * (n mod d) ?= d)%Z eqn:Hc;
    [apply Z.compare_eq in Hc; destruct (Z.even (n / d))
    |apply -> Z.compare_lt_iff in Hc
    |apply -> Z.compare_gt_iff in Hc]; nia.
Qed.

Example used_percent_examples :
  map (fun ut => used_percent (VInt (fst ut)) (VInt (snd ut)))
      [(50, 200); (1, 3); (1, 800); (5, 0); (5, -1)]%Z
  = [([Divide (NInt 5000) (NInt 200)], Returned (py "25.00%"));
     ([Divide (NInt 100) (NInt 3)], Returned (py "33.33%"));
     ([Divide (NInt 100) (NInt 800)], Returned (py "0.12%"));
     ([], Returned (py "N/A"));
     ([], Returned (py "N/A"))]%Z.
Proof. vm_compute. reflexivity. Qed.

Lemma zero_not_positive : forall t, is_zero t = true -> positive_num t = false.
Proof.
  intros [y | g]; simpl.
  - rewrite Z.eqb_eq, Z.ltb_ge; lia.
  - destruct g; simpl; intros H; try reflexivity; discriminate.
Qed.

Lemma to_float_trace : forall z, trace (to_float z) = [].
Proof. intros z; destruct (to_float_cases z) as [-> | ->]; reflexivity. Qed.

Lemma float_div_trace : forall f g, trace (float_div f g) = [].
Proof. intros f g; unfold float_div. destruct (float_is_zero g); reflexivity. Qed.

Lemma truediv_trace : forall a b, trace (truediv a b) = [Divide a b].
Proof.
  intros a b; unfold truediv. rewrite trace_bind; simpl. f_equal.
  destruct a as [x | f], b as [y | g].
  - destruct (y =? 0)%Z; [reflexivity|].
    destruct (SFdiv _ _ _ _); reflexivity.
  - rewrite trace_bind, to_float_trace.
    destruct (result _); try reflexivity. apply float_div_trace.
  - rewrite trace_bind, to_float_trace.
    destruct (result _); try reflexivity. apply float_div_trace.
  - apply float_div_trace.
Qed.

(** The [.2f] format of a finite number: its sign, the digits of the whole
    part, a point and two digits, for the number of hundredths nearest to
    it (ties to the even one). *)
Lemma format_2f_finite :
  forall s m e,
    let h := hundredths m e in
    (exists d1 d2,
        digit0 d1 /\ digit0 d2
        /\ format_2f (S754_finite s m e)
           = sign s ++ str_of_N (Z.to_N (h / 100)) ++ py "." ++ [d1; d2]
        /\ (h mod 100 = 10 * (Z.of_N d1 - 48) + (Z.of_N d2 - 48))%Z)
    /\ match e with
       | Zneg k => (2 * Z.abs (Zpos m * 100 - h * 2 ^ Zpos k) <= 2 ^ Zpos k)%Z
       | _ => h = (Zpos m * 100 * 2 ^ e)%Z
       end.
Proof.
  intros s m e h. split.
  - exists (48 + Z.to_N ((h / 10) mod 10))%N, (48 + Z.to_N (h mod 10))%N.
    pose proof (Z.mod_pos_bound (h / 10) 10 ltac:(lia)).
    pose proof (Z.mod_pos_bound h 10 ltac:(lia)).
    unfold digit0. repeat split; try lia.
    rewrite !N2Z.inj_add, !Z2N.id by lia.
    zify; Z.to_euclidean_division_equations; lia.
  - unfold h, hundredths. destruct e as [|k|k]; try reflexivity.
    apply round_half_even_nearest. apply Z.pow_pos_nonneg; lia.
Qed.

(** C3.  The percentage of [show_storages] is "N/A", with no division
    evaluated, whenever the guard fails: [used] or [total] is no number, or
    [total > 0] does not hold, as with a [total] of zero.  When the guard
    holds the one division evaluated is [used*100 / total], its divisor is
    not zero, and the text is the quotient in the [.2f] format (for a
    finite quotient: sign, whole part, a point and two digits) followed by
    the percent sign.  In no case does the expression, or the whole of
    [show_storages], evaluate a division with a zero divisor or raise
    [ZeroDivisionError]. *)
Theorem used_percent_guarded :
  (forall used total,
      percent_guard used total = false ->
      used_percent used total = ([], Returned (py "N/A")))
  /\ (forall used total t,
         as_num total = Some t -> is_zero t = true ->
         used_percent used total = ([], Returned (py "N/A")))
  /\ (forall used total u t,
         as_num used = Some u -> as_num total = Some t ->
         positive_num t = true ->
         percent_guard used total = true
         /\ is_zero t = false
         /\ divisions (trace (used_percent used total)) = [(times100 u, t)]
         /\ used_percent used total
            = (q <- truediv (times100 u) t ;; ret (format_2f q ++ py "%")))
  /\ (forall s m e,
         exists d1 d2,
           digit0 d1 /\ digit0 d2
           /\ format_2f (S754_finite s m e)
              = sign s ++ str_of_N (Z.to_N (hundredths m e / 100)) ++ py "."
                  ++ [d1; d2])
  /\ (forall used total, safe (used_percent used total))
  /\ (forall storage_data storages,
         safe (show_storages storage_data storages)).
Proof.
  assert (Hguard : forall used total,
             percent_guard used total = false ->
             used_percent used total = ([], Returned (py "N/A"))).
  { intros used total; unfold percent_guard, used_percent.
    destruct (as_num used), (as_num total); try reflexivity.
    intros ->. reflexivity. }
  split; [exact Hguard|].
  split; [|split; [|split; [|split; [exact safe_used_percent
                                    |exact safe_show_storages]]]].
  3: { intros s m e.
       destruct (format_2f_finite s m e) as [(d1 & d2 & H1 & H2 & E & _) _].
       exists d1, d2. auto. }
  - intros used total t Ht Hz. apply Hguard. unfold percent_guard.
    rewrite Ht, (zero_not_positive _ Hz). destruct (as_num used); reflexivity.
  - intros used total u t Hu Ht Hp.
    unfold percent_guard, used_percent. rewrite Hu, Ht, Hp.
    split; [reflexivity|]. split; [exact (positive_not_zero _ Hp)|].
    split; [|reflexivity].
    rewrite trace_bind, truediv_trace.
    destruct (result _); reflexivity.
Qed.

Lemma used_percent_guarded_witness :
  used_percent (VInt 50) (VInt 200)
  = (q <- truediv (NInt 5000) (NInt 200) ;; ret (format_2f q ++ py "%")).
Proof.
  apply (proj1 (proj2 (proj2 used_percent_guarded))
           (VInt 50) (VInt 200) (NInt 50) (NInt 200));
    reflexivity.
Defined.

(** ** The loop that waits for the container *)

Section Waiting_facts.

Variable json_loads : str -> outcome value.
Variables hostname_cmd vm_id : str.
Variable probe : nat -> process * process.

Let query : str := status_command hostname_cmd vm_id.

#[local] Abbreviation attempt_ := (wait_attempt json_loads hostname_cmd vm_id probe).
#[local] Abbreviation loop_ := (wait_loop json_loads hostname_cmd vm_id probe).
#[local] Abbreviation ready_ := (ready json_loads probe).
#[local] Abbreviation raises_ := (raises json_loads hostname_cmd vm_id probe).

#[local] Abbreviation quiet := (quiet_of query).

Lemma ping_is_no_query : str_eqb (ping_command vm_id) query = false.
Proof. reflexivity. Qed.

Lemma query_refl : forall c, str_eqb c c = true.
Proof. intros c; apply str_eqb_eq; reflexivity. Qed.

Ltac crunch :=
  repeat (cbn [fst snd];
          match goal with
          | |- context [match ?x with _ => _ end] =>
            lazymatch x with
            | context [match _ with _ => _ end] => fail
            | _ => destruct x eqn:?
            end
          end).

Ltac open_attempt :=
  unfold raises, ready, reports_running, ping_succeeds, wait_attempt,
    run_command, get_status, dot, lift, raise, emit, ret, bind, trace, result,
    truthy, text_of.

Lemma wait_attempt_trace :
  forall a shown,
    exists rest,
      trace (attempt_ a shown) = Sleep 5 :: Shell query :: rest
      /\ quiet rest = true /\ warned rest = false.
Proof.
  intros a shown. open_attempt. crunch.
  all: eexists; split; [reflexivity|]; split; reflexivity.
Qed.

Ltac settle :=
  intros;
  repeat match goal with
         | H : Returned _ = Returned _ |- _ => injection H as H
         | H : VDict _ = VDict _ |- _ => injection H as H
         end;
  subst; cbn [fst snd andb] in *;
  repeat match goal with
         | H : ?b = false, H' : context [?b] |- _ =>
           progress (rewrite H in H'); cbn [fst snd andb] in H'
         | H : ?b = true, H' : context [?b] |- _ =>
           progress (rewrite H in H'); cbn [fst snd andb] in H'
         end;
  rewrite ?andb_false_r in *;
  try congruence; try discriminate; eauto.

Lemma wait_attempt_ready :
  forall a shown,
    ready_ a = true -> result (attempt_ a shown) = Returned (true, true).
Proof. intros a shown. open_attempt. crunch; settle. Qed.

Lemma wait_attempt_not_ready :
  forall a shown,
    ready_ a = false -> raises_ a = false ->
    exists shown', result (attempt_ a shown) = Returned (false, shown').
Proof. intros a shown. open_attempt. crunch; settle. Qed.

Lemma ready_returns : forall a, ready_ a = true -> raises_ a = false.
Proof.
  intros a H. unfold raises. rewrite (wait_attempt_ready a false H). reflexivity.
Qed.

Lemma count_app :
  forall f t t', count f (t ++ t') = count f t + count f t'.
Proof. intros; unfold count. rewrite filter_app, length_app. reflexivity. Qed.

Lemma quiet_no_sleep : forall t, quiet t = true -> count is_sleep t = 0.
Proof.
  induction t as [|e t IH]; [reflexivity|].
  unfold quiet; simpl. rewrite !andb_true_iff, !negb_true_iff.
  intros [[_ Hs] Ht]. unfold count in *; simpl. rewrite Hs. exact (IH Ht).
Qed.

Lemma quiet_no_query : forall t, quiet t = true -> count (is_shell query) t = 0.
Proof.
  induction t as [|e t IH]; [reflexivity|].
  unfold quiet; simpl. rewrite !andb_true_iff, !negb_true_iff.
  intros [[Hq _] Ht]. unfold count in *; simpl. rewrite Hq. exact (IH Ht).
Qed.

Lemma quiet_then :
  forall t t',
    quiet t = true ->
    sleeps_before_queries query (t ++ t') = sleeps_before_queries query t'.
Proof.
  induction t as [|e t IH]; intros t' H; [reflexivity|].
  unfold quiet in H; simpl in H.
  rewrite !andb_true_iff, !negb_true_iff in H. destruct H as [[Hq Hs] Ht].
  destruct e; try discriminate; simpl in *; rewrite ?Hq; simpl; auto.
Qed.

Lemma attempt_then :
  forall rest t',
    quiet rest = true ->
    sleeps_before_queries query (Sleep 5 :: Shell query :: rest ++ t')
    = sleeps_before_queries query t'.
Proof.
  intros rest t' H. cbn [sleeps_before_queries].
  rewrite query_refl, (@quiet_then rest t' H). reflexivity.
Qed.

(** What the loop does, whatever the probes answer. *)
Lemma wait_loop_trace :
  forall attempts last shown,
    count (is_shell query) (trace (loop_ attempts last shown)) <= List.length attempts
    /\ count is_sleep (trace (loop_ attempts last shown))
       = count (is_shell query) (trace (loop_ attempts last shown))
    /\ sleeps_before_queries query (trace (loop_ attempts last shown)) = true
    /\ warned (trace (loop_ attempts last shown)) = false.
Proof.
  induction attempts as [|a attempts IH]; intros last shown.
  - repeat split; vm_compute; lia.
  - cbn [wait_loop]. rewrite trace_bind.
    destruct (wait_attempt_trace a shown) as (rest & -> & Hq & Hw).
    set (tail := match result (attempt_ a shown) with
                 | Returned r =>
                   trace (if fst r then ret (Some a, true)
                          else loop_ attempts (Some a) (snd r))
                 | _ => []
                 end).
    assert (Htail : count (is_shell query) tail <= List.length attempts
                    /\ count is_sleep tail = count (is_shell query) tail
                    /\ sleeps_before_queries query tail = true
                    /\ warned tail = false).
    { unfold tail. destruct (result (attempt_ a shown)) as [[b s] | |];
        [destruct b; [|apply IH] | |]; repeat split; vm_compute; lia. }
    destruct Htail as (H1 & H2 & H3 & H4).
    change ((Sleep 5 :: Shell query :: rest) ++ tail)
      with ([Sleep 5; Shell query] ++ rest ++ tail).
    rewrite !count_app, (@quiet_no_sleep rest Hq), (@quiet_no_query rest Hq).
    change ([Sleep 5; Shell query] ++ rest ++ tail)
      with (Sleep 5 :: Shell query :: rest ++ tail).
    rewrite (@attempt_then rest tail Hq).
    assert (Hs : count is_sleep [Sleep 5; Shell query] = 1) by reflexivity.
    assert (Hc : count (is_shell query) [Sleep 5; Shell query] = 1)
      by (unfold count; cbn [filter is_shell]; rewrite query_refl; reflexivity).
    rewrite Hs, Hc. cbn [List.length].
    split; [lia|]. split; [lia|]. split; [assumption|].
    change (Sleep 5 :: Shell query :: rest ++ tail)
      with ([Sleep 5; Shell query] ++ rest ++ tail).
    unfold warned in *. rewrite !existsb_app, Hw, H4. reflexivity.
Qed.

Lemma attempt_counts_one :
  forall a shown tail,
    count (is_shell query) (trace (attempt_ a shown) ++ tail)
    = S (count (is_shell query) tail).
Proof.
  intros a shown tail.
  destruct (wait_attempt_trace a shown) as (rest & -> & Hq & _).
  change ((Sleep 5 :: Shell query :: rest) ++ tail)
    with ([Sleep 5; Shell query] ++ rest ++ tail).
  rewrite !count_app, (@quiet_no_query rest Hq).
  unfold count at 1; cbn [filter is_shell]; rewrite query_refl. reflexivity.
Qed.

(** The loop leaves through [break] at the first attempt that finds the
    container ready. *)
Lemma wait_loop_break :
  forall k a n last shown,
    k < n ->
    (forall j, a <= j < a + k -> ready_ j = false /\ raises_ j = false) ->
    ready_ (a + k) = true ->
    result (loop_ (seq a n) last shown) = Returned (Some (a + k), true)
    /\ count (is_shell query) (trace (loop_ (seq a n) last shown)) = S k.
Proof.
  induction k as [|k IH]; intros a n last shown Hn Hbefore Hready;
    (destruct n as [|n]; [lia|]); cbn [seq wait_loop];
    rewrite result_bind, trace_bind, attempt_counts_one.
  - rewrite Nat.add_0_r in *.
    rewrite (wait_attempt_ready a shown Hready). split; reflexivity.
  - destruct (Hbefore a ltac:(lia)) as [Hr Hx].
    destruct (wait_attempt_not_ready a shown Hr Hx) as [shown' ->].
    cbn [fst snd].
    destruct (IH (S a) n (Some a) shown' ltac:(lia)) as [E1 E2].
    + intros j Hj. apply Hbefore. lia.
    + rewrite Nat.add_succ_comm. exact Hready.
    + rewrite E1, E2, Nat.add_succ_comm. split; reflexivity.
Qed.

(** Without a ready attempt the loop makes them all. *)
Lemma wait_loop_exhaust :
  forall n a last shown,
    (forall j, a <= j < a + n -> ready_ j = false /\ raises_ j = false) ->
    result (loop_ (seq a n) last shown)
    = Returned (match n with 0 => last | S n' => Some (a + n') end, false)
    /\ count (is_shell query) (trace (loop_ (seq a n) last shown)) = n.
Proof.
  induction n as [|n IH]; intros a last shown Hnone; cbn [seq wait_loop].
  - split; reflexivity.
  - rewrite result_bind, trace_bind, attempt_counts_one.
    destruct (Hnone a ltac:(lia)) as [Hr Hx].
    destruct (wait_attempt_not_ready a shown Hr Hx) as [shown' ->].
    cbn [fst snd].
    destruct (IH (S a) (Some a) shown') as [E1 E2].
    + intros j Hj. apply Hnone. lia.
    + rewrite E1, E2. split; [|reflexivity].
      destruct n; [rewrite Nat.add_0_r; reflexivity|].
      rewrite Nat.add_succ_comm. reflexivity.
Qed.

(** Among the first [n] attempts none is ready, or one is the first. *)
Lemma first_ready :
  forall n,
    (forall j, j < n -> ready_ j = false)
    \/ exists k, k < n /\ ready_ k = true /\ forall j, j < k -> ready_ j = false.
Proof.
  induction n as [|n [IH | (k & Hk & Hr & Hb)]].
  - left; intros j Hj; lia.
  - destruct (ready_ n) eqn:Hn.
    + right; exists n; auto.
    + left; intros j Hj.
      destruct (Nat.eq_dec j n) as [-> | Hne]; [exact Hn | apply IH; lia].
  - right; exists k; auto.
Qed.

#[local] Abbreviation run_ := (wait_for_container json_loads hostname_cmd vm_id probe).

Lemma wait_for_container_trace :
  trace run_
  = info (py "Esperando a que el contenedor se inicie...")
      ++ trace (loop_ (seq 0 30) None false)
      ++ match result (loop_ (seq 0 30) None false) with
         | Returned r => trace (after_loop r)
         | _ => []
         end.
Proof.
  unfold wait_for_container. rewrite trace_bind. cbn [result emit snd trace fst].
  rewrite trace_bind. reflexivity.
Qed.

Lemma wait_for_container_result :
  result run_
  = match result (loop_ (seq 0 30) None false) with
    | Returned r => result (after_loop r)
    | Exited c => Exited c
    | Raised e => Raised e
    end.
Proof.
  unfold wait_for_container. rewrite result_bind. cbn [result emit snd].
  rewrite result_bind. reflexivity.
Qed.

Lemma after_loop_quiet :
  forall r, quiet (trace (after_loop r)) = true.
Proof.
  intros [[attempt|] brk]; unfold after_loop; cbn [fst snd];
    [destruct (29 <=? attempt)|]; reflexivity.
Qed.

Lemma after_loop_warned :
  forall attempt brk,
    warned (trace (after_loop (Some attempt, brk))) = (29 <=? attempt)
    /\ result (after_loop (Some attempt, brk)) = Returned brk.
Proof.
  intros attempt brk; unfold after_loop; cbn [fst snd].
  destruct (29 <=? attempt); split; reflexivity.
Qed.

Lemma wait_for_container_queries :
  count (is_shell query) (trace run_)
  = count (is_shell query) (trace (loop_ (seq 0 30) None false))
  /\ count is_sleep (trace run_)
     = count is_sleep (trace (loop_ (seq 0 30) None false)).
Proof.
  rewrite wait_for_container_trace, !count_app.
  assert (H : quiet match result (loop_ (seq 0 30) None false) with
                    | Returned r => trace (after_loop r)
                    | _ => []
                    end = true)
    by (destruct (result _); [apply after_loop_quiet | |]; reflexivity).
  rewrite (quiet_no_query _ H), (quiet_no_sleep _ H).
  split; unfold count; simpl; lia.
Qed.

Lemma sleeps_before_queries_app :
  forall n t t',
    List.length t <= n ->
    sleeps_before_queries query t = true ->
    sleeps_before_queries query t' = true ->
    sleeps_before_queries query (t ++ t') = true.
Proof.
  induction n as [|n IH]; intros t t' Hn Ht Ht'.
  - destruct t; [exact Ht' | simpl in Hn; lia].
  - destruct t as [|e t]; [exact Ht'|]. simpl in Hn.
    destruct e as [f x y | x | c | k | x y | x y];
      try (cbn [sleeps_before_queries app] in *;
           apply andb_true_iff in Ht; destruct Ht as [H1 H2];
           rewrite H1; apply IH; [lia | exact H2 | exact Ht']).
    cbn [sleeps_before_queries app] in *.
    apply andb_true_iff in Ht; destruct Ht as [H1 H2]. rewrite H1.
    destruct t as [|e t]; [discriminate|].
    destruct e; try discriminate. cbn [app].
    apply andb_true_iff in H2; destruct H2 as [H2 H3]. rewrite H2.
    apply IH; [simpl in Hn; lia | exact H3 | exact Ht'].
Qed.

Lemma quiet_sleeps :
  forall t, quiet t = true -> sleeps_before_queries query t = true.
Proof.
  intros t H. rewrite <- (app_nil_r t). rewrite (@quiet_then t [] H).
  reflexivity.
Qed.

Lemma wait_for_container_sleeps :
  sleeps_before_queries query (trace run_) = true.
Proof.
  rewrite wait_for_container_trace.
  rewrite (@quiet_then (info _) _ eq_refl).
  destruct (wait_loop_trace (seq 0 30) None false) as (_ & _ & H & _).
  eapply sleeps_before_queries_app; [apply Nat.le_refl | exact H |].
  apply quiet_sleeps.
  destruct (result _); [apply after_loop_quiet | |]; reflexivity.
Qed.
End Waiting_facts.

(** C6.  Whatever the probes answer, the wait for the container queries
    the status at most 30 times, sleeps as often as it queries, and every
    query comes right after a sleep of five seconds.  When an attempt finds
    the container ready (status "running" and a ping with a result) and no
    attempt before it did or raised, the loop is left through [break] at
    that attempt: the queries are one more than its number.  When no attempt
    finds it ready, and none raises, all 30 are made. *)
Theorem readiness_poller_bounded :
  forall (json_loads : str -> outcome value) (hostname_cmd vm_id : str)
         (probe : nat -> process * process),
    count (is_shell (status_command hostname_cmd vm_id))
          (trace (wait_for_container json_loads hostname_cmd vm_id probe)) <= 30
    /\ count is_sleep
             (trace (wait_for_container json_loads hostname_cmd vm_id probe))
       = count (is_shell (status_command hostname_cmd vm_id))
               (trace (wait_for_container json_loads hostname_cmd vm_id probe))
    /\ sleeps_before_queries (status_command hostname_cmd vm_id)
         (trace (wait_for_container json_loads hostname_cmd vm_id probe)) = true
    /\ (forall k,
           k < 30 ->
           (forall j, j < k ->
                 ready json_loads probe j = false
                 /\ raises json_loads hostname_cmd vm_id probe j = false) ->
           ready json_loads probe k = true ->
           count (is_shell (status_command hostname_cmd vm_id))
                 (trace (wait_for_container json_loads hostname_cmd vm_id probe))
           = S k
           /\ result (wait_for_container json_loads hostname_cmd vm_id probe)
              = Returned true)
    /\ ((forall j, j < 30 ->
               ready json_loads probe j = false
               /\ raises json_loads hostname_cmd vm_id probe j = false) ->
        count (is_shell (status_command hostname_cmd vm_id))
              (trace (wait_for_container json_loads hostname_cmd vm_id probe))
        = 30
        /\ result (wait_for_container json_loads hostname_cmd vm_id probe)
           = Returned false).
Proof.
  intros json_loads hostname_cmd vm_id probe.
  destruct (wait_for_container_queries json_loads hostname_cmd vm_id probe)
    as [Eq Es].
  destruct (wait_loop_trace json_loads hostname_cmd vm_id probe
              (seq 0 30) None false) as (Hle & Hsl & _ & _).
  rewrite Eq, Es, wait_for_container_result.
  split; [exact Hle|]. split; [exact Hsl|].
  split; [apply wait_for_container_sleeps|]. split.
  - intros k Hk Hbefore Hready.
    destruct (@wait_loop_break json_loads hostname_cmd vm_id probe
                k 0 30 None false Hk) as [E1 E2].
    + intros j Hj. apply Hbefore. lia.
    + exact Hready.
    + rewrite E1, E2. split; [reflexivity|].
      apply after_loop_warned.
  - intros Hnone.
    destruct (@wait_loop_exhaust json_loads hostname_cmd vm_id probe
                30 0 None false) as [E1 E2].
    + intros j Hj. apply Hnone. lia.
    + rewrite E1, E2. split; reflexivity.
Qed.

(** What the code does about the warning: when no attempt raises, it warns
    exactly when none of the first 29 attempts found the container ready,
    whatever the thirtieth found. *)
Lemma poller_warning_rule :
  forall (json_loads : str -> outcome value) (hostname_cmd vm_id : str)
         (probe : nat -> process * process),
    (forall j, j < 30 -> raises json_loads hostname_cmd vm_id probe j = false) ->
    warned (trace (wait_for_container json_loads hostname_cmd vm_id probe))
    = forallb (fun j => negb (ready json_loads probe j)) (seq 0 29).
Proof.
  intros json_loads hostname_cmd vm_id probe Hx.
  rewrite wait_for_container_trace.
  destruct (wait_loop_trace json_loads hostname_cmd vm_id probe
              (seq 0 30) None false) as (_ & _ & _ & Hw).
  unfold warned in *. rewrite !existsb_app, Hw.
  change (existsb _ (info _)) with false. cbn [orb].
  fold (warned (match result (wait_loop json_loads hostname_cmd vm_id probe
                                (seq 0 30) None false) with
                | Returned r => trace (after_loop r)
                | _ => []
                end)).
  destruct (first_ready json_loads probe 30) as [Hnone | (k & Hk & Hr & Hb)].
  - destruct (@wait_loop_exhaust json_loads hostname_cmd vm_id probe
                30 0 None false) as [E1 _].
    + intros j Hj. split; [apply Hnone | apply Hx]; lia.
    + rewrite E1.
      rewrite (proj1 (after_loop_warned _ _)). symmetry.
      apply forallb_forall. intros j Hj. apply in_seq in Hj.
      rewrite Hnone by lia. reflexivity.
  - destruct (@wait_loop_break json_loads hostname_cmd vm_id probe
                k 0 30 None false Hk) as [E1 _].
    + intros j Hj. split; [apply Hb | apply Hx]; lia.
    + exact Hr.
    + rewrite E1. rewrite (proj1 (after_loop_warned _ _)). cbn [Nat.add].
      destruct (29 <=? k) eqn:E.
      * apply Nat.leb_le in E. symmetry.
        apply forallb_forall. intros j Hj. apply in_seq in Hj.
        rewrite Hb by lia. reflexivity.
      * apply Nat.leb_gt in E. symmetry.
        apply not_true_is_false. intros H.
        rewrite forallb_forall in H.
        specialize (H k). rewrite Hr in H.
        assert (In k (seq 0 29)) by (apply in_seq; lia).
        specialize (H H0). discriminate.
Qed.

Lemma readiness_poller_bounded_witness :
  count (is_shell (status_command (py "pve") (py "100")))
        (trace (wait_for_container json_loads_status (py "pve") (py "100")
                  (network_up_at 2)))
  = 3
  /\ result (wait_for_container json_loads_status (py "pve") (py "100")
               (network_up_at 2))
     = Returned true.
Proof.
  apply (proj1 (proj2 (proj2 (proj2
           (readiness_poller_bounded json_loads_status (py "pve") (py "100")
              (network_up_at 2))))) 2).
  - lia.
  - intros j Hj. destruct j as [|[|j]]; [vm_compute; auto | vm_compute; auto | lia].
  - vm_compute. reflexivity.
Defined.

(** C7, at the input where the code departs from it.  The ping first
    succeeds at the thirtieth attempt (attempt 29): the loop is left through
    [break] with the success condition holding, and the warning is printed
    all the same, since [attempt >= 29] holds after the loop.  With the
    first success one attempt earlier there is no warning; with none at all
    there is one. *)
Theorem warning_after_success_on_last_attempt :
  ready json_loads_status (network_up_at 29) 29 = true
  /\ existsb (ready json_loads_status (network_up_at 29)) (seq 0 29) = false
  /\ result (wait_for_container json_loads_status (py "pve") (py "100")
               (network_up_at 29))
     = Returned true
  /\ warned (trace (wait_for_container json_loads_status (py "pve") (py "100")
                      (network_up_at 29)))
     = true
  /\ warned (trace (wait_for_container json_loads_status (py "pve") (py "100")
                      (network_up_at 28)))
     = false
  /\ warned (trace (wait_for_container json_loads_status (py "pve") (py "100")
                      (network_up_at 30)))
     = true.
Proof. vm_compute. repeat split. Qed.

(** ** Rendering and symbols *)

Lemma expand_app :
  forall (X : Type) (env : X -> str) (a b : list (symbol X)),
    expand env (a ++ b) = expand env a ++ expand env b.
Proof. intros; unfold expand; apply flat_map_app. Qed.

Lemma expand_text :
  forall (X : Type) (env : X -> str) (s : str),
    expand env (map (@Sc X) s) = s.
Proof.
  intros X env s; induction s as [|c s IH]; simpl; [reflexivity|].
  f_equal; exact IH.
Qed.

Lemma render_symbols :
  forall (X : Type) (env : X -> str) (f : fstring X),
    render env f = expand env (symbols f).
Proof.
  intros X env f; induction f as [|p f IH]; [reflexivity|].
  cbn [render symbols flat_map] in *. rewrite expand_app.
  fold (render env f). fold (symbols f). rewrite IH. f_equal.
  destruct p as [s | x]; [symmetry; apply expand_text | simpl; rewrite app_nil_r; reflexivity].
Qed.

Lemma render_text :
  forall (X : Type) (env : X -> str) (s : string) (f : fstring X),
    render env (Text s :: f) = py s ++ render env f.
Proof. reflexivity. Qed.

Lemma render_hole :
  forall (X : Type) (env : X -> str) (x : X) (f : fstring X),
    render env (Hole x :: f) = env x ++ render env f.
Proof. reflexivity. Qed.

Lemma render_nil :
  forall (X : Type) (env : X -> str), render env (@nil (piece X)) = [].
Proof. reflexivity. Qed.

Lemma render_app :
  forall (X : Type) (env : X -> str) (f g : fstring X),
    render env (f ++ g) = render env f ++ render env g.
Proof. intros; unfold render; apply flat_map_app. Qed.

(** ** Pieces in order *)

Lemma Ordered_weaken :
  forall ms pre s, Ordered ms s -> Ordered ms (pre ++ s).
Proof.
  intros [|m ms] pre s; [trivial|].
  intros (a & b & -> & H). exists (pre ++ a), b.
  rewrite <- app_assoc. auto.
Qed.

Lemma Ordered_In :
  forall ms s m, Ordered ms s -> In m ms -> Infix m s.
Proof.
  induction ms as [|m0 ms IH]; intros s m H Hin; [contradiction|].
  destruct H as (pre & post & -> & H). destruct Hin as [-> | Hin].
  - exists pre, post; reflexivity.
  - destruct (IH post m H Hin) as (a & b & E).
    exists (pre ++ m0 ++ a), b. rewrite E, <- !app_assoc. reflexivity.
Qed.

(** ** Lines *)

Lemma lines_not_nil : forall s, lines s <> [].
Proof.
  induction s as [|c s IH]; simpl; [discriminate|].
  destruct (char_eqb c nl); [discriminate|].
  destruct (lines s); discriminate.
Qed.

Lemma lines_app_nl :
  forall a b, lines (a ++ nl :: b) = lines a ++ lines b.
Proof.
  induction a as [|c a IH]; intros b; simpl.
  - reflexivity.
  - rewrite IH. destruct (char_eqb c nl); [reflexivity|].
    pose proof (lines_not_nil a) as Hne.
    destruct (lines a); [contradiction | reflexivity].
Qed.

Lemma single_line_cons :
  forall c s, single_line (c :: s) -> char_eqb c nl = false /\ single_line s.
Proof.
  intros c s H; unfold single_line in *; simpl in H. split.
  - apply N.eqb_neq; intros E; apply H; left; exact E.
  - intros Hin; apply H; right; exact Hin.
Qed.

(** A text of one line, put in front, joins the first line. *)
Lemma lines_single_app :
  forall v s,
    single_line v ->
    lines (v ++ s) = (v ++ hd [] (lines s)) :: tl (lines s).
Proof.
  induction v as [|c v IH]; intros s H; simpl.
  - pose proof (lines_not_nil s). destruct (lines s); [contradiction|reflexivity].
  - apply single_line_cons in H. destruct H as [Hc Hv].
    rewrite Hc, (IH s Hv). reflexivity.
Qed.

Lemma lines_single : forall v, single_line v -> lines v = [v].
Proof.
  intros v H. rewrite <- (app_nil_r v) at 1.
  rewrite (lines_single_app [] H). simpl. rewrite app_nil_r. reflexivity.
Qed.

(** Two whole lines, one after the other, inside a text are two of its
    lines, one after the other. *)
Lemma lines_of_marker :
  forall t1 t2 s,
    single_line t1 -> single_line t2 ->
    Infix (nl :: t1 ++ nl :: t2 ++ [nl]) s ->
    exists A B, lines s = A ++ t1 :: t2 :: B.
Proof.
  intros t1 t2 s H1 H2 (pre & post & ->).
  replace (pre ++ (nl :: t1 ++ nl :: t2 ++ [nl]) ++ post)
    with (pre ++ nl :: (t1 ++ nl :: (t2 ++ nl :: post)))
    by (cbn [app]; rewrite <- !app_assoc; cbn [app]; rewrite <- !app_assoc; reflexivity).
  rewrite !lines_app_nl, (lines_single H1), (lines_single H2).
  pose proof (lines_not_nil pre) as Hne.
  exists (lines pre), (lines post). reflexivity.
Qed.

Lemma adjacent_map :
  forall (A B : Type) (g : A -> B) (ys : list A) (L R : list B) (t1 t2 : B),
    map g ys = L ++ t1 :: t2 :: R ->
    exists k1 k2, In (k1, k2) (adjacent ys) /\ g k1 = t1 /\ g k2 = t2.
Proof.
  intros A B g ys L; revert ys.
  induction L as [|x L IH]; intros ys R t1 t2 H.
  - destruct ys as [|k1 [|k2 ys]]; try discriminate.
    injection H as E1 E2 _. exists k1, k2. simpl; auto.
  - destruct ys as [|k ys]; [discriminate|].
    injection H as _ H. destruct (IH _ _ _ _ H) as (k1 & k2 & Hin & E).
    exists k1, k2. split; [|exact E].
    destruct ys; [contradiction | right; exact Hin].
Qed.

Section Symbolic_facts.

Variable X : Type.
Variable eqb : X -> X -> bool.
Hypothesis eqb_eq : forall x y, eqb x y = true -> x = y.

Lemma symbol_eqb_eq : forall a b : symbol X, symbol_eqb eqb a b = true -> a = b.
Proof.
  intros [c | x] [d | y]; simpl; try discriminate.
  - unfold char_eqb; rewrite N.eqb_eq; intros ->; reflexivity.
  - intros H; apply eqb_eq in H; rewrite H; reflexivity.
Qed.

Lemma starts_sound :
  forall m l rest, starts eqb m l = Some rest -> l = m ++ rest.
Proof.
  induction m as [|a m IH]; intros l rest H; simpl in H.
  - injection H as ->; reflexivity.
  - destruct l as [|b l]; [discriminate|].
    destruct (symbol_eqb eqb a b) eqn:E; [|discriminate].
    apply symbol_eqb_eq in E. apply IH in H. rewrite E, H. reflexivity.
Qed.

Lemma find_after_sound :
  forall m l rest,
    find_after eqb m l = Some rest -> exists pre, l = pre ++ m ++ rest.
Proof.
  intros m; induction l as [|b l IH]; intros rest H; simpl in H.
  - destruct (starts eqb m []) eqn:E; [|discriminate].
    injection H as ->. exists []. apply starts_sound in E. exact E.
  - destruct (starts eqb m (b :: l)) eqn:E.
    + injection H as ->. exists []. apply starts_sound in E. exact E.
    + apply IH in H. destruct H as (pre & ->). exists (b :: pre). reflexivity.
Qed.

Lemma in_order_sound :
  forall ms l,
    in_order eqb ms l = true ->
    forall env, Ordered (map (expand env) ms) (expand env l).
Proof.
  induction ms as [|m ms IH]; intros l H env; simpl; [trivial|].
  simpl in H. destruct (find_after eqb m l) as [rest|] eqn:E; [|discriminate].
  apply find_after_sound in E. destruct E as (pre & ->).
  exists (expand env pre), (expand env rest).
  rewrite !expand_app. split; [reflexivity | apply IH; exact H].
Qed.


Variable env : X -> str.

Lemma symbol_lines_not_nil : forall l : list (symbol X), symbol_lines l <> [].
Proof.
  induction l as [|[c | x] l IH]; simpl; try discriminate.
  - destruct (char_eqb c nl); [discriminate|].
    destruct (symbol_lines l); discriminate.
  - destruct (symbol_lines l); discriminate.
Qed.

Lemma lines_expand :
  forall l : list (symbol X),
    fields_single_line env l ->
    lines (expand env l) = map (expand env) (symbol_lines l).
Proof.
  induction l as [|[c | x] l IH]; intros Hl.
  - reflexivity.
  - cbn [expand flat_map app symbol_lines lines]. fold (expand env l).
    rewrite IH by (intros y Hy; apply Hl; right; exact Hy).
    pose proof (symbol_lines_not_nil l) as Hne.
    destruct (char_eqb c nl); [reflexivity|].
    destruct (symbol_lines l); [contradiction | reflexivity].
  - cbn [expand flat_map symbol_lines]. fold (expand env l).
    rewrite (lines_single_app _ (Hl x (or_introl eq_refl))).
    rewrite IH by (intros y Hy; apply Hl; right; exact Hy).
    pose proof (symbol_lines_not_nil l) as Hne.
    destruct (symbol_lines l) as [|k ks]; [contradiction|].
    cbn [map hd tl expand flat_map]. reflexivity.
Qed.

Lemma may_be_sound :
  forall (k : list (symbol X)) (t : str), expand env k = t -> may_be k t = true.
Proof.
  induction k as [|[c | x] k IH]; intros t H.
  - simpl in H; subst t; reflexivity.
  - cbn [expand flat_map app] in H. fold (expand env k) in H. subst t.
    cbn [may_be]. unfold char_eqb at 1. rewrite N.eqb_refl. apply IH; reflexivity.
  - destruct t; reflexivity.
Qed.

Lemma may_be_pair_sound :
  forall (k1 k2 : list (symbol X)) (t1 t2 : str),
    expand env k1 = t1 -> expand env k2 = t2 ->
    may_be_pair eqb t1 t2 k1 k2 = true.
Proof.
  intros k1 k2 t1 t2 H1 H2. unfold may_be_pair.
  rewrite (may_be_sound _ H1), (may_be_sound _ H2). cbn [andb].
  destruct k1 as [|[c | x] [|a k1]]; try reflexivity.
  destruct k2 as [|[d | y] [|b k2]]; try reflexivity.
  destruct (eqb x y) eqn:E; [|reflexivity].
  apply eqb_eq in E. subst y. apply str_eqb_eq. congruence.
Qed.

(** The check on the symbols rules the two lines out of every rendering. *)
Lemma never_adjacent_sound :
  forall (t1 t2 : str) (l : list (symbol X)),
    never_adjacent eqb t1 t2 l = true ->
    fields_single_line env l ->
    single_line t1 -> single_line t2 ->
    ~ Infix (nl :: t1 ++ nl :: t2 ++ [nl]) (expand env l).
Proof.
  intros t1 t2 l Hcheck Hl H1 H2 Hin.
  destruct (lines_of_marker H1 H2 Hin) as (L & R & E).
  rewrite lines_expand in E by exact Hl.
  destruct (adjacent_map _ _ _ _ _ _ E) as (k1 & k2 & Hk & E1 & E2).
  unfold never_adjacent in Hcheck. rewrite forallb_forall in Hcheck.
  specialize (Hcheck _ Hk). cbn [fst snd] in Hcheck.
  rewrite (may_be_pair_sound _ _ E1 E2) in Hcheck. discriminate.
Qed.

End Symbolic_facts.

(** ** Containment, computed *)

Lemma prefixb_sound : forall a s, prefixb a s = true -> exists post, s = a ++ post.
Proof.
  induction a as [|x a IH]; intros s H.
  - exists s; reflexivity.
  - destruct s as [|y s]; [discriminate|]. simpl in H.
    apply andb_true_iff in H. destruct H as [E H].
    apply N.eqb_eq in E. subst y. destruct (IH s H) as [post ->].
    exists post; reflexivity.
Qed.

Lemma infixb_sound : forall a s, infixb a s = true -> Infix a s.
Proof.
  intros a; induction s as [|y s IH]; intros H; simpl in H.
  - rewrite orb_false_r in H. apply prefixb_sound in H.
    destruct H as [post E]. exists [], post. exact E.
  - apply orb_true_iff in H. destruct H as [H | H].
    + apply prefixb_sound in H. destruct H as [post E]. exists [], post. exact E.
    + destruct (IH H) as (pre & post & ->). exists (y :: pre), post. reflexivity.
Qed.

Lemma Infix_trans : forall a b c, Infix a b -> Infix b c -> Infix a c.
Proof.
  intros a b c (p1 & q1 & ->) (p2 & q2 & ->).
  exists (p2 ++ p1), (q1 ++ q2). rewrite <- !app_assoc. reflexivity.
Qed.

Lemma single_lineb_sound : forall s, single_lineb s = true -> single_line s.
Proof.
  unfold single_lineb, single_line; intros s H Hin.
  rewrite forallb_forall in H. specialize (H _ Hin).
  unfold char_eqb in H. rewrite N.eqb_refl in H. discriminate.
Qed.

Lemma install_var_eqb_eq :
  forall x y, install_var_eqb x y = true -> x = y.
Proof. intros [] []; simpl; intros H; try reflexivity; discriminate. Qed.

Lemma netplan_var_eqb_eq :
  forall x y, netplan_var_eqb x y = true -> x = y.
Proof. intros [] []; simpl; intros H; try reflexivity; discriminate. Qed.

Lemma Ordered_rendered :
  forall (X : Type) (eqb : X -> X -> bool),
    (forall x y, eqb x y = true -> x = y) ->
    forall (ms : list (fstring X)) (f : fstring X),
      in_order eqb (map (@symbols X) ms) (symbols f) = true ->
      forall env, Ordered (map (render env) ms) (render env f).
Proof.
  intros X eqb Heq ms f H env.
  rewrite render_symbols.
  replace (map (render env) ms) with (map (expand env) (map (@symbols X) ms)).
  - exact (@in_order_sound X eqb Heq _ _ H env).
  - rewrite map_map. apply map_ext. intros g. symmetry. apply render_symbols.
Qed.

Lemma script_content_rendered :
  forall v p u ms,
    script_content v p u ms
    = render (install_env v p u ms) (install_fstring (has_custom_modules ms)).
Proof.
  intros; unfold script_content, install_fstring.
  rewrite !render_app. destruct (has_custom_modules ms); reflexivity.
Qed.

(** C8.  For every version, password, user and list of modules, the
    install script holds its sections one after the other in this order,
    each by its heading and by the command that does its work: system
    update, installation of the dependencies, creation of the database role
    for the user, checkout of the sources at the version, virtual
    environment, wkhtmltopdf, the copy of the custom modules when there are
    any, configuration file, service unit, and start of the service. *)
Theorem install_script_sections :
  forall (odoo_version db_pass odoo_user : str) (custom_modules : list str),
    Ordered
      ([py "# Actualizar sistema";
        py "apt-get update && DEBIAN_FRONTEND=noninteractive apt-get upgrade -y";
        py "# Instalar requisitos";
        py "apt-get install -y openssh-server";
        py "apt-get install -y npm git postgresql python3-venv";
        py "# Configurar PostgreSQL";
        py "createuser --createdb --username postgres --no-createrole --superuser --pwprompt "
           ++ odoo_user;
        py "# Clonar Odoo";
        py "git clone https://www.github.com/odoo/odoo --depth 1 --branch "
           ++ odoo_version;
        py "# Instalar dependencias de Python";
        py "python3 -m venv /opt/odoo18/venv";
        py "/opt/odoo18/venv/bin/pip install -r requirements.txt";
        py "# Instalar wkhtmltopdf";
        py "dpkg -i wkhtmltox_0.12.6.1-2.jammy_amd64.deb"]
       ++ (if has_custom_modules custom_modules
           then [py "# Instalar módulos personalizados";
                 py "mkdir -p /opt/odoo18/custom_addons";
                 py "for module in " ++ custom_modules_str custom_modules
                    ++ py "; do";
                 py "cp -r /tmp/custom_modules/$module /opt/odoo18/custom_addons/"]
           else [])
       ++ [py "# Configurar Odoo";
           py "cat > /etc/odoo18.conf << EOL";
           py "# Configurar systemd";
           py "cat > /etc/systemd/system/odoo18.service << EOL";
           py "systemctl start odoo18.service"])
      (script_content odoo_version db_pass odoo_user custom_modules).
Proof.
  intros v p u ms. rewrite script_content_rendered.
  destruct (has_custom_modules ms).
  - assert (H : in_order install_var_eqb
                  (map (@symbols install_var) (section_markers true))
                  (symbols (install_fstring true)) = true)
      by (vm_compute; reflexivity).
    pose proof (@Ordered_rendered install_var install_var_eqb
                  install_var_eqb_eq (section_markers true)
                  (install_fstring true) H (install_env v p u ms)) as Ho.
    generalize dependent (render (install_env v p u ms) (install_fstring true)).
    intros body Ho.
    unfold section_markers in Ho. cbn [map app] in Ho.
    rewrite !render_text, !render_hole, ?render_text, !render_nil, !app_nil_r
      in Ho.
    cbn [install_env] in Ho. cbn [app]. exact Ho.
  - assert (H : in_order install_var_eqb
                  (map (@symbols install_var) (section_markers false))
                  (symbols (install_fstring false)) = true)
      by (vm_compute; reflexivity).
    pose proof (@Ordered_rendered install_var install_var_eqb
                  install_var_eqb_eq (section_markers false)
                  (install_fstring false) H (install_env v p u ms)) as Ho.
    generalize dependent (render (install_env v p u ms) (install_fstring false)).
    intros body Ho.
    unfold section_markers in Ho. cbn [map app] in Ho.
    rewrite !render_text, !render_hole, ?render_text, !render_nil, !app_nil_r
      in Ho.
    cbn [install_env] in Ho. cbn [app]. exact Ho.
Qed.

(** C5.  For every address, gateway and DNS text, the network configuration
    holds, one after the other: the address between quotes with [/32] in
    the [addresses] entry, the gateway as [gateway4], the DNS text between
    the brackets of the [addresses] of [nameservers], and the gateway with
    [/32] as the target of the link-scope route. *)
Theorem netplan_config_values :
  forall ip_address gateway dns_servers : str,
    Ordered [py "      addresses: ['" ++ ip_address ++ py "/32']
";
             py "      gateway4: " ++ gateway ++ py "
";
             py "      nameservers:
        addresses: [" ++ dns_servers ++ py "]
";
             py "      routes:
      - scope: link
        to: " ++ gateway ++ py "/32
"]
            (netplan_config ip_address gateway dns_servers).
Proof.
  intros ip gw dns. unfold netplan_config.
  assert (H : in_order netplan_var_eqb (map (@symbols netplan_var) netplan_entries)
                (symbols netplan_template) = true)
    by (vm_compute; reflexivity).
  pose proof (@Ordered_rendered netplan_var netplan_var_eqb netplan_var_eqb_eq
                netplan_entries netplan_template H (netplan_env ip gw dns))
    as Ho.
  unfold netplan_entries in Ho. cbn [map] in Ho.
  rewrite !render_text, !render_hole, !render_text, !render_nil, !app_nil_r
    in Ho.
  exact Ho.
Qed.

(** ** The custom-module block *)

Lemma has_custom_modules_iff :
  forall ms : list str, has_custom_modules ms = true <-> ms <> [].
Proof.
  intros [|m ms]; unfold has_custom_modules; simpl; split;
    intros H; try reflexivity; try discriminate; contradiction.
Qed.

Lemma In_join :
  forall (sep : str) (parts : list str) (q : str),
    In q parts -> Infix q (join sep parts).
Proof.
  intros sep; induction parts as [|q0 parts IH]; intros q Hin; [contradiction|].
  cbn [join]. destruct Hin as [-> | Hin].
  - destruct parts as [|q1 parts].
    + exists [], []. rewrite app_nil_r. reflexivity.
    + exists [], (sep ++ join sep (q1 :: parts)). reflexivity.
  - destruct parts as [|q1 parts]; [contradiction|].
    destruct (IH q Hin) as (a & b & Eq).
    exists (q0 ++ sep ++ a), b. rewrite Eq, <- !app_assoc. reflexivity.
Qed.

Lemma quoted_in_join :
  forall (ms : list str) (m : str),
    In m ms -> Infix (py "`" ++ m ++ py "`") (custom_modules_str ms).
Proof.
  intros ms m Hin. unfold custom_modules_str. apply In_join.
  exact (in_map (fun m => py "`" ++ m ++ py "`") ms m Hin).
Qed.

Lemma Infix_rendered :
  forall (X : Type) (eqb : X -> X -> bool),
    (forall x y, eqb x y = true -> x = y) ->
    forall (t : str) (f : fstring X),
      in_order eqb [map (@Sc X) t] (symbols f) = true ->
      forall env, Infix t (render env f).
Proof.
  intros X eqb Heq t f H env. rewrite render_symbols.
  pose proof (@in_order_sound X eqb Heq _ _ H env) as Ho.
  change (map (expand env) [map (@Sc X) t])
    with [expand env (map (@Sc X) t)] in Ho.
  rewrite expand_text in Ho.
  eapply Ordered_In; [exact Ho | left; reflexivity].
Qed.

(** The block holds its two lines, one after the other. *)
Lemma block_has_lines :
  forall v p u ms,
    Infix (nl :: block_line_1 ++ nl :: block_line_2 ++ [nl])
          (custom_modules_block v p u ms).
Proof.
  intros v p u ms. unfold custom_modules_block.
  apply (@Infix_rendered install_var install_var_eqb install_var_eqb_eq).
  vm_compute. reflexivity.
Qed.

(** Without the block, no rendering of the script holds the two lines. *)
Lemma no_block_lines :
  never_adjacent install_var_eqb block_line_1 block_line_2
    (symbols (install_fstring false)) = true.
Proof. vm_compute. reflexivity. Qed.

Lemma install_fields_single_line :
  forall v p u (l : list (symbol install_var)),
    single_line v -> single_line p -> single_line u ->
    fields_single_line (install_env v p u []) l.
Proof.
  intros v p u l Hv Hp Hu [] _; simpl; try assumption;
    apply single_lineb_sound; reflexivity.
Qed.

Lemma block_in_script :
  forall v p u ms,
    ms <> [] ->
    Infix (custom_modules_block v p u ms) (script_content v p u ms).
Proof.
  intros v p u ms H. apply has_custom_modules_iff in H.
  unfold script_content, custom_modules_block. rewrite H.
  exists (render (install_env v p u ms) install_head),
         (render (install_env v p u ms) install_tail).
  reflexivity.
Qed.

Lemma no_block_without_modules :
  forall v p u,
    single_line v -> single_line p -> single_line u ->
    ~ Infix (custom_modules_block v p u []) (script_content v p u []).
Proof.
  intros v p u Hv Hp Hu H.
  pose proof (Infix_trans (block_has_lines v p u []) H) as Hm.
  rewrite script_content_rendered, render_symbols in Hm.
  change (has_custom_modules []) with false in Hm.
  revert Hm.
  apply (@never_adjacent_sound install_var install_var_eqb install_var_eqb_eq).
  - exact no_block_lines.
  - apply install_fields_single_line; assumption.
  - apply single_lineb_sound; reflexivity.
  - apply single_lineb_sound; reflexivity.
Qed.

Lemma conf_in_script :
  forall v p u ms,
    Infix (render (install_env v p u ms) odoo_conf_heredoc)
          (script_content v p u ms).
Proof.
  intros v p u ms.
  assert (H : Ordered (map (render (install_env v p u ms)) [odoo_conf_heredoc])
                      (script_content v p u ms)).
  { rewrite script_content_rendered.
    apply (@Ordered_rendered install_var install_var_eqb install_var_eqb_eq).
    destruct (has_custom_modules ms); vm_compute; reflexivity. }
  eapply Ordered_In; [exact H | left; reflexivity].
Qed.

Lemma In_holes :
  forall (X : Type) (l : list (symbol X)) (x : X), In (Sh x) l -> In x (holes l).
Proof.
  intros X l x H. unfold holes. apply in_flat_map.
  exists (Sh x). split; [exact H | left; reflexivity].
Qed.

Lemma conf_lines :
  forall v p u ms,
    single_line p -> single_line u ->
    lines (odoo_conf v p u ms)
    = map (render (install_env v p u ms)) odoo_conf_lines.
Proof.
  intros v p u ms Hp Hu. unfold odoo_conf.
  rewrite render_symbols, lines_expand.
  - replace (map (render (install_env v p u ms)) odoo_conf_lines)
      with (map (expand (install_env v p u ms))
                (map (@symbols install_var) odoo_conf_lines))
      by (rewrite map_map; apply map_ext; intros g; symmetry;
          apply render_symbols).
    f_equal.
  - intros x Hx. apply In_holes in Hx.
    assert (E : holes (symbols odoo_conf_template)
                = [Odoo_user; Db_pass; Addons_path])
      by (vm_compute; reflexivity).
    rewrite E in Hx. simpl in Hx.
    destruct Hx as [<- | [<- | [<- | []]]]; simpl; try assumption.
    unfold addons_path. destruct (has_custom_modules ms);
      apply single_lineb_sound; reflexivity.
Qed.

Lemma prefixb_complete : forall a post, prefixb a (a ++ post) = true.
Proof.
  induction a as [|x a IH]; intros post; simpl.
  - destruct post; reflexivity.
  - unfold char_eqb at 1. rewrite N.eqb_refl. apply IH.
Qed.

Lemma infixb_complete : forall a s, Infix a s -> infixb a s = true.
Proof.
  intros a s (pre & post & ->). induction pre as [|y pre IH].
  - simpl. destruct (a ++ post) eqn:E; simpl; rewrite <- E, prefixb_complete;
      reflexivity.
  - cbn [app infixb]. rewrite IH. apply orb_true_r.
Qed.

Lemma modules_named_in_block :
  forall v p u ms m,
    In m ms -> Infix (py "`" ++ m ++ py "`") (custom_modules_block v p u ms).
Proof.
  intros v p u ms m Hin.
  apply Infix_trans with (custom_modules_str ms); [exact (quoted_in_join ms m Hin)|].
  apply Infix_trans
    with (render (install_env v p u ms)
                 [Text "for module in "; Hole Custom_modules_str; Text "; do"]).
  - exists (py "for module in "), (py "; do" ++ []). reflexivity.
  - unfold custom_modules_block.
    apply Ordered_In
      with (ms := map (render (install_env v p u ms))
                      [[Text "for module in "; Hole Custom_modules_str;
                        Text "; do"]]);
      [|left; reflexivity].
    apply (@Ordered_rendered install_var install_var_eqb install_var_eqb_eq).
    vm_compute. reflexivity.
Qed.

Lemma addons_path_custom :
  forall ms : list str,
    Infix (py "/opt/odoo18/custom_addons") (addons_path ms) <-> ms <> [].
Proof.
  intros ms. unfold addons_path. destruct ms as [|m ms]; cbn [has_custom_modules List.length Nat.ltb Nat.leb].
  - split; [|intros H; contradiction].
    intros H. apply infixb_complete in H. vm_compute in H. discriminate.
  - split; [discriminate|]. intros _. apply infixb_sound. vm_compute. reflexivity.
Qed.

(** C2 (as amended).  For a version, a password and a user of one line
    each, as the prompts deliver them, the install script holds the
    custom-module block exactly when the list of modules is not empty, and
    the block names every module of the list between quotes.  The script
    emits the configuration file as a here-document; its lines are those of
    [odoo_conf_lines], the [addons_path] line among them, and the path of
    that line holds [/opt/odoo18/custom_addons] exactly when the list is not
    empty. *)
Theorem custom_modules_block_iff :
  forall (odoo_version db_pass odoo_user : str) (custom_modules : list str),
    single_line odoo_version -> single_line db_pass -> single_line odoo_user ->
    (Infix (custom_modules_block odoo_version db_pass odoo_user custom_modules)
           (script_content odoo_version db_pass odoo_user custom_modules)
     <-> custom_modules <> [])
    /\ (forall m,
           In m custom_modules ->
           Infix (py "`" ++ m ++ py "`")
                 (custom_modules_block odoo_version db_pass odoo_user
                    custom_modules))
    /\ Infix (render (install_env odoo_version db_pass odoo_user custom_modules)
                     odoo_conf_heredoc)
             (script_content odoo_version db_pass odoo_user custom_modules)
    /\ lines (odoo_conf odoo_version db_pass odoo_user custom_modules)
       = map (render (install_env odoo_version db_pass odoo_user custom_modules))
             odoo_conf_lines
    /\ In (py "addons_path = " ++ addons_path custom_modules)
          (lines (odoo_conf odoo_version db_pass odoo_user custom_modules))
    /\ (Infix (py "/opt/odoo18/custom_addons") (addons_path custom_modules)
        <-> custom_modules <> []).
Proof.
  intros v p u ms Hv Hp Hu.
  split; [|split; [|split; [|split; [|split]]]].
  - split; [|apply block_in_script].
    intros H. destruct ms as [|m ms]; [|discriminate].
    exfalso. exact (no_block_without_modules Hv Hp Hu H).
  - intros m. apply modules_named_in_block.
  - apply conf_in_script.
  - apply conf_lines; assumption.
  - rewrite (conf_lines v ms Hp Hu).
    replace (py "addons_path = " ++ addons_path ms)
      with (render (install_env v p u ms) [Text "addons_path = "; Hole Addons_path])
      by (cbn [render flat_map install_env]; rewrite app_nil_r; reflexivity).
    apply in_map. unfold odoo_conf_lines. simpl. tauto.
  - apply addons_path_custom.
Qed.

Lemma custom_modules_block_iff_witness :
  Infix (custom_modules_block (py "18.0") (py "admin2025") (py "odoo18")
           [py "sale_extra"])
        (script_content (py "18.0") (py "admin2025") (py "odoo18")
           [py "sale_extra"])
  <-> [py "sale_extra"] <> [].
Proof.
  exact (proj1 (@custom_modules_block_iff (py "18.0") (py "admin2025")
                  (py "odoo18") [py "sale_extra"]
                  (single_lineb_sound (py "18.0") eq_refl)
                  (single_lineb_sound (py "admin2025") eq_refl)
                  (single_lineb_sound (py "odoo18") eq_refl))).
Defined.

(** C2, as stated, fails: the script copies the password as it is, so with a
    password that is the text of the block (several lines) the script of an
    empty list holds the block. *)
Lemma block_text_as_password :
  Infix (custom_modules_block (py "18.0")
           (custom_modules_block [] [] (py "odoo18") []) (py "odoo18") [])
        (script_content (py "18.0")
           (custom_modules_block [] [] (py "odoo18") []) (py "odoo18") [])
  /\ has_custom_modules [] = false
  /\ single_lineb (custom_modules_block [] [] (py "odoo18") []) = false.
Proof.
  split; [|split; reflexivity].
  apply infixb_sound. vm_compute. reflexivity.
Qed.

(** ** Custom modules *)

Example check_custom_modules_example :
  result (check_custom_modules (py "/root/deploy")
            [(py "create-odoo-lxc.py", File);
             (py "modules",
              Dir [(py "sale_extra", Dir [(py "__manifest__.py", File);
                                          (py "models", Dir [])]);
                   (py "README.md", File);
                   (py "drafts", Dir [(py "notes.txt", File)]);
                   (py "stock_extra", Dir [(py "__init__.py", File);
                                           (py "__manifest__.py", File)])])])
  = Returned ([py "sale_extra"; py "stock_extra"], py "/root/deploy/modules").
Proof. vm_compute. reflexivity. Qed.

Lemma entry_In :
  forall (d : directory) (name : str) (x : node),
    distinct d = true -> (entry d name = Some x <-> In (name, x) d).
Proof.
  induction d as [|[n y] rest IH]; intros name x Hd.
  - simpl. split; [discriminate | contradiction].
  - cbn [distinct] in Hd. apply andb_true_iff in Hd. destruct Hd as [Hn Hr].
    apply negb_true_iff in Hn. cbn [entry In].
    destruct (str_eqb n name) eqn:E.
    + apply str_eqb_eq in E. subst n. split.
      * intros H. injection H as ->. left; reflexivity.
      * intros [H | H]; [injection H as ->; reflexivity|].
        exfalso.
        assert (Hx : existsb (fun e : str * node => str_eqb (fst e) name) rest
                     = true).
        { apply existsb_exists. exists (name, x). split; [exact H|].
          apply str_eqb_eq. reflexivity. }
        rewrite Hx in Hn. discriminate.
    + rewrite (IH name x Hr). split.
      * intros H; right; exact H.
      * intros [H | H]; [|exact H]. exfalso. injection H as H _.
        apply str_eqb_eq in H. rewrite H in E. discriminate.
Qed.

Lemma entry_none :
  forall (d : directory) (name : str),
    distinct d = true ->
    (forall x, In (name, x) d -> x = Broken) ->
    exists_node (entry d name) = false.
Proof.
  intros d name Hd H. destruct (entry d name) as [x|] eqn:E; [|reflexivity].
  apply (entry_In d name x Hd) in E. rewrite (H x E). reflexivity.
Qed.

(** C10 (as amended).  In a directory of the script where every name occurs
    once: with a [modules] directory, [check_custom_modules] returns, in the
    order of the listing, exactly the names in it that lead to a directory
    holding an entry named [__manifest__.py], be that entry a file or a
    directory; names that lead to a file, and directories without that
    entry, are left out.  With no [modules] entry, or one that leads
    nowhere, it prints a message and returns the empty list.  With
    [modules] a file, the listing raises [NotADirectoryError]. *)
Theorem check_custom_modules_modules :
  forall (script_dir : str) (here : directory),
    distinct here = true ->
    ((forall x, In (py "modules", x) here -> x = Broken) ->
       check_custom_modules script_dir here
       = (info (py "No se encontró el directorio 'modules'"),
          Returned ([], path_join script_dir (py "modules"))))
    /\ (In (py "modules", File) here ->
          check_custom_modules script_dir here
          = ([], Raised (py "NotADirectoryError")))
    /\ (forall items,
           In (py "modules", Dir items) here ->
           distinct items = true ->
           (forall item sub, In (item, Dir sub) items -> distinct sub = true) ->
           exists modules,
             check_custom_modules script_dir here
             = ([], Returned (modules, path_join script_dir (py "modules")))
             /\ (exists keep, modules = filter keep (map fst items))
             /\ (forall item,
                    In item modules
                    <-> exists sub,
                          In (item, Dir sub) items
                          /\ (In (manifest, File) sub
                              \/ exists inner, In (manifest, Dir inner) sub))
             /\ (forall item, In (item, File) items -> ~ In item modules)
             /\ (forall item sub,
                    In (item, Dir sub) items ->
                    (forall x, In (manifest, x) sub -> x = Broken) ->
                    ~ In item modules)).
Proof.
  intros script_dir here Hd. split; [|split].
  - intros H. unfold check_custom_modules.
    rewrite (entry_none here (py "modules") Hd H). reflexivity.
  - intros H. apply (entry_In here (py "modules") File Hd) in H.
    unfold check_custom_modules. rewrite H. reflexivity.
  - intros items H Hi Hsub.
    apply (entry_In here (py "modules") (Dir items) Hd) in H.
    unfold check_custom_modules. rewrite H. cbn [exists_node negb].
    eexists. split; [reflexivity|]. split; [eexists; reflexivity|].
    assert (Hin : forall item,
               In item (filter (fun item => is_module (entry items item))
                               (map fst items))
               <-> exists sub,
                     In (item, Dir sub) items
                     /\ (In (manifest, File) sub
                         \/ exists inner, In (manifest, Dir inner) sub)).
    { intros item. rewrite filter_In. unfold is_module. split.
      - intros [_ Hm].
        destruct (entry items item) as [[|sub|]|] eqn:E;
          cbn [isdir_node andb] in Hm; try discriminate Hm.
        apply (entry_In items item (Dir sub) Hi) in E.
        exists sub. split; [exact E|].
        pose proof (Hsub item sub E) as Hs.
        destruct (entry sub manifest) as [[|inner|]|] eqn:Em;
          try discriminate Hm.
        + left. apply (entry_In sub manifest File Hs). exact Em.
        + right. exists inner.
          apply (entry_In sub manifest (Dir inner) Hs). exact Em.
      - intros (sub & E & Hm). split.
        + apply in_map_iff. exists (item, Dir sub). split; [reflexivity|exact E].
        + pose proof (Hsub item sub E) as Hs.
          apply (entry_In items item (Dir sub) Hi) in E. rewrite E.
          cbn [isdir_node andb].
          destruct Hm as [Hm | (inner & Hm)];
            apply (entry_In sub manifest _ Hs) in Hm; rewrite Hm; reflexivity. }
    split; [exact Hin|]. split.
    + intros item E Hm. apply Hin in Hm. destruct Hm as (sub & E' & _).
      apply (entry_In items item File Hi) in E.
      apply (entry_In items item (Dir sub) Hi) in E'. congruence.
    + intros item sub E Hnone Hm. apply Hin in Hm.
      destruct Hm as (sub' & E' & Hm).
      apply (entry_In items item (Dir sub) Hi) in E.
      apply (entry_In items item (Dir sub') Hi) in E'.
      assert (sub' = sub) by congruence. subst sub'.
      destruct Hm as [Hm | (inner & Hm)]; apply Hnone in Hm; discriminate.
Qed.

Lemma check_custom_modules_modules_witness :
  exists modules,
    check_custom_modules (py "/root/deploy")
      [(py "create-odoo-lxc.py", File);
       (py "modules",
        Dir [(py "sale_extra", Dir [(py "__manifest__.py", File)]);
             (py "README.md", File);
             (py "drafts", Dir [(py "notes.txt", File)])])]
    = ([], Returned (modules, path_join (py "/root/deploy") (py "modules")))
    /\ (exists keep,
          modules
          = filter keep
              (map fst
                 [(py "sale_extra", Dir [(py "__manifest__.py", File)]);
                  (py "README.md", File);
                  (py "drafts", Dir [(py "notes.txt", File)])]))
    /\ (forall item,
           In item modules
           <-> exists sub,
                 In (item, Dir sub)
                    [(py "sale_extra", Dir [(py "__manifest__.py", File)]);
                     (py "README.md", File);
                     (py "drafts", Dir [(py "notes.txt", File)])]
                 /\ (In (manifest, File) sub
                     \/ exists inner, In (manifest, Dir inner) sub))
    /\ (forall item,
           In (item, File)
              [(py "sale_extra", Dir [(py "__manifest__.py", File)]);
               (py "README.md", File);
               (py "drafts", Dir [(py "notes.txt", File)])] ->
           ~ In item modules)
    /\ (forall item sub,
           In (item, Dir sub)
              [(py "sale_extra", Dir [(py "__manifest__.py", File)]);
               (py "README.md", File);
               (py "drafts", Dir [(py "notes.txt", File)])] ->
           (forall x, In (manifest, x) sub -> x = Broken) ->
           ~ In item modules).
Proof.
  apply (proj2 (proj2 (@check_custom_modules_modules (py "/root/deploy")
           [(py "create-odoo-lxc.py", File);
            (py "modules",
             Dir [(py "sale_extra", Dir [(py "__manifest__.py", File)]);
                  (py "README.md", File);
                  (py "drafts", Dir [(py "notes.txt", File)])])]
           eq_refl))).
  - right. left. reflexivity.
  - reflexivity.
  - intros item sub H.
    destruct H as [H | [H | [H | H]]];
      [ injection H as _ <-; reflexivity
      | discriminate H
      | injection H as _ <-; reflexivity
      | contradiction H ].
Defined.

(** C10, where the claim as first worded fails.  A subdirectory whose
    [__manifest__.py] is itself a directory holds no file of that name and
    is returned all the same, since [os.path.exists] does not ask what kind
    of entry it finds; and with a file named [modules] beside the script
    there is no [modules] directory, yet the call does not return the empty
    list: [os.listdir] raises [NotADirectoryError]. *)
Lemma manifest_directory_counts :
  check_custom_modules (py "/root/deploy")
    [(py "modules",
      Dir [(py "sale_extra", Dir [(py "__manifest__.py", Dir [])])])]
  = ([], Returned ([py "sale_extra"], py "/root/deploy/modules"))
  /\ check_custom_modules (py "/root/deploy") [(py "modules", File)]
     = ([], Raised (py "NotADirectoryError")).
Proof. split; vm_compute; reflexivity. Qed.

(** ** Patterns, read as sets of strings *)



Lemma rep_spec :
  forall a k s lo hi first,
    rep a lo hi k first s = true
    <-> exists pre post,
          s = pre ++ post
          /\ forallb (atom_match a) pre = true
          /\ lo <= List.length pre /\ within hi (List.length pre)
          /\ k (first && is_nil pre) post = true.
Proof.
  intros a k; induction s as [|c s IH]; intros lo hi first; rewrite rep_eq.
  - destruct (more hi); rewrite orb_false_r; (split;
      [ destruct lo; [|discriminate]; intros H; exists [], [];
        rewrite andb_true_r; repeat split; simpl; try lia; try exact H;
        destruct hi; simpl; lia
      | intros (pre & post & E & _ & Hlo & _ & Hk);
        symmetry in E; apply app_eq_nil in E; destruct E as [-> ->];
        simpl in Hlo; destruct lo; [|lia];
        rewrite andb_true_r in Hk; exact Hk ]).
  - rewrite orb_true_iff. split.
    + intros [H | H].
      * destruct lo; [|discriminate]. exists [], (c :: s).
        rewrite andb_true_r. repeat split; simpl; try lia; try exact H.
        destruct hi; simpl; lia.
      * destruct (more hi) as [hi'|] eqn:Em; [|discriminate].
        apply andb_true_iff in H. destruct H as [Hc H].
        apply IH in H. destruct H as (pre & post & -> & Hall & Hlo & Hhi & Hk).
        exists (c :: pre), post. simpl. rewrite Hc, Hall.
        rewrite andb_false_r. rewrite andb_false_l in Hk.
        repeat split; try lia; try exact Hk.
        destruct hi as [[|h]|]; simpl in *; try discriminate;
          try (injection Em as <-; simpl in Hhi; lia); exact I.
    + intros (pre & post & E & Hall & Hlo & Hhi & Hk).
      destruct pre as [|c' pre]; simpl in E.
      * left. subst post. simpl in Hlo. destruct lo; [|lia].
        rewrite andb_true_r in Hk. exact Hk.
      * right. injection E as <- ->. simpl in Hall.
        apply andb_true_iff in Hall. destruct Hall as [Hc Hall].
        assert (Em : exists hi', more hi = Some hi'
                                 /\ within hi' (List.length pre)).
        { destruct hi as [[|h]|]; simpl in *; try lia.
          - eexists; split; [reflexivity|]. simpl. lia.
          - eexists; split; [reflexivity|]. exact I. }
        destruct Em as (hi' & -> & Hhi'). rewrite Hc. simpl.
        apply IH. exists pre, post. simpl in Hlo, Hk.
        rewrite andb_false_r in Hk.
        repeat split; try lia; try assumption.
Qed.

Lemma at_end_iff : forall s, at_end s = true <-> s = [] \/ s = [nl].
Proof.
  intros [|c [|d s]]; simpl; split; auto; try discriminate.
  - unfold char_eqb; rewrite N.eqb_eq; intros ->; auto.
  - intros [H | H]; [discriminate|]. injection H as ->. reflexivity.
  - intros [H | H]; discriminate.
Qed.

Lemma forallb_digit : forall ds, forallb (atom_match digit) ds = true <-> Forall digit0 ds.
Proof.
  intros ds. rewrite forallb_forall, Forall_forall.
  split; intros H c Hc; apply class_digit0, H, Hc.
Qed.

(** [number_pattern] matches the non-empty strings of digits, and each of
    them followed by one line feed. *)
Lemma number_pattern_matches :
  forall s,
    re_match number_pattern s = true
    <-> exists ds, ds <> [] /\ Forall digit0 ds /\ (s = ds \/ s = ds ++ [nl]).
Proof.
  intros s. unfold re_match, number_pattern, plus. cbn [matches andb].
  rewrite rep_spec. split.
  - intros (pre & post & -> & Hall & Hlo & _ & Hk).
    cbn [matches] in Hk. rewrite andb_true_r in Hk.
    apply at_end_iff in Hk. exists pre. split; [|split].
    + destruct pre; [simpl in Hlo; lia | discriminate].
    + apply forallb_digit; exact Hall.
    + destruct Hk as [-> | ->]; [left; apply app_nil_r | right; reflexivity].
  - intros (ds & Hne & Hall & Hs).
    exists ds, (if is_nil (skipn (List.length ds) s) then [] else [nl]).
    assert (Hlen : 1 <= List.length ds) by (destruct ds; [contradiction | simpl; lia]).
    destruct Hs as [-> | ->].
    + rewrite skipn_all. cbn [is_nil]. rewrite app_nil_r.
      repeat split; try (apply forallb_digit; exact Hall); try exact Hlen.
    + rewrite skipn_app, skipn_all, Nat.sub_diag. cbn [app skipn is_nil].
      repeat split; try (apply forallb_digit; exact Hall); try exact Hlen.
Qed.

(** ** Stripping a clean string *)

Lemma strip_clean :
  forall s, lstrip s = s -> lstrip (rev s) = rev s -> strip s = s.
Proof.
  intros s H1 H2. unfold strip, rstrip. rewrite H1, H2. apply rev_involutive.
Qed.

Lemma lstrip_first :
  forall c s, isspace c = false -> lstrip (c :: s) = c :: s.
Proof. intros c s H; simpl; rewrite H; reflexivity. Qed.

Lemma nospace_strip :
  forall s, forallb (fun c => negb (isspace c)) s = true -> strip s = s.
Proof.
  intros s H. apply strip_clean.
  - destruct s as [|c s]; [reflexivity|]. simpl in H.
    apply andb_true_iff in H. destruct H as [Hc _].
    apply negb_true_iff in Hc. apply lstrip_first; exact Hc.
  - assert (Hr : forallb (fun c => negb (isspace c)) (rev s) = true).
    { rewrite forallb_forall in *. intros c Hc. apply H, in_rev, Hc. }
    destruct (rev s) as [|c r]; [reflexivity|]. simpl in Hr.
    apply andb_true_iff in Hr. destruct Hr as [Hc _].
    apply negb_true_iff in Hc. apply lstrip_first; exact Hc.
Qed.

Lemma digit0_cases :
  forall c, digit0 c -> In c [48; 49; 50; 51; 52; 53; 54; 55; 56; 57]%N.
Proof. unfold digit0; intros c H; simpl. lia. Qed.

Lemma digit0_nospace : forall c, digit0 c -> isspace c = false.
Proof.
  intros c H. apply digit0_cases in H. simpl in H.
  repeat (destruct H as [<- | H]; [reflexivity|]). contradiction.
Qed.

Lemma digits_strip : forall ds, Forall digit0 ds -> strip ds = ds.
Proof.
  intros ds H. apply nospace_strip. apply forallb_forall. intros c Hc.
  rewrite Forall_forall in H. rewrite (digit0_nospace (H c Hc)). reflexivity.
Qed.

Lemma digits_digit0 : forall d, Forall digit0 (digits d).
Proof.
  induction d; simpl; constructor; try assumption; unfold digit0; lia.
Qed.

Lemma str_of_N_digits : forall n, str_of_N n <> [] /\ Forall digit0 (str_of_N n).
Proof.
  intros n; unfold str_of_N; split; [|apply digits_digit0].
  destruct n as [|p]; [discriminate|]. simpl.
  pose proof (Unsigned.to_uint_nonnil p) as H.
  destruct (Pos.to_uint p); [contradiction | | | | | | | | | | ]; discriminate.
Qed.

Lemma lstrip_suffix : forall s, exists sp, s = sp ++ lstrip s.
Proof.
  induction s as [|c s [sp IH]]; [exists []; reflexivity|].
  simpl. destruct (isspace c).
  - exists (c :: sp). simpl. f_equal. exact IH.
  - exists []. reflexivity.
Qed.

Lemma rstrip_prefix : forall s, exists sp, s = rstrip s ++ sp.
Proof.
  intros s. unfold rstrip. destruct (lstrip_suffix (rev s)) as [sp E].
  exists (rev sp). rewrite <- rev_app_distr, <- E. symmetry. apply rev_involutive.
Qed.

(** A stripped string that is not empty starts with no white space. *)
Lemma strip_head : forall s c r, strip s = c :: r -> isspace c = false.
Proof.
  intros s c r H. unfold strip in H.
  destruct (rstrip_prefix (lstrip s)) as [sp E]. rewrite H in E.
  simpl in E. eapply lstrip_head. exact E.
Qed.

Lemma any_pattern_matches :
  forall s,
    re_match any_pattern s = true <-> exists c r, s = c :: r /\ c <> nl.
Proof.
  intros s.
  change (re_match any_pattern s)
    with (rep Dot 1 (Some 1) (fun _ _ => true) true s).
  rewrite rep_spec. split.
  - intros (pre & post & -> & Hall & Hlo & _ & _).
    destruct pre as [|c pre]; [simpl in Hlo; lia|].
    exists c, (pre ++ post). split; [reflexivity|].
    simpl in Hall. apply andb_true_iff in Hall. destruct Hall as [Hc _].
    apply negb_true_iff in Hc. apply N.eqb_neq in Hc. exact Hc.
  - intros (c & r & -> & Hc). exists [c], r. simpl.
    apply N.eqb_neq in Hc. unfold char_eqb. rewrite Hc.
    repeat split; lia.
Qed.

(** ** The prompt returns the first valid entry *)

Lemma ask_refuses :
  forall prompt default validation error_msg line typed,
    valid validation (or_ (strip line) default) = false ->
    ask prompt default validation error_msg (line :: typed)
    = (let '(trace, r, rest) := ask prompt default validation error_msg typed in
       (ask_prompt prompt default :: warning error_msg ++ trace, r, rest)).
Proof. intros; simpl. rewrite H. reflexivity. Qed.

Lemma ask_accepts :
  forall prompt default validation error_msg line typed,
    valid validation (or_ (strip line) default) = true ->
    ask prompt default validation error_msg (line :: typed)
    = ([ask_prompt prompt default], Returned (or_ (strip line) default), typed).
Proof. intros; simpl. rewrite H. reflexivity. Qed.

(** [ask] returns the first entry that is valid, stripped, or the default
    when that entry is blank: every entry before it is answered by the
    prompt and the warning, and the entries after it are left unread. *)
Theorem ask_first_valid :
  forall (prompt default : str) (validation : option pattern) (error_msg : str)
         (refused_lines : list str) (good : str) (rest : list str),
    forallb (fun line => negb (valid validation (or_ (strip line) default)))
            refused_lines = true ->
    valid validation (or_ (strip good) default) = true ->
    ask prompt default validation error_msg (refused_lines ++ good :: rest)
    = (refused prompt default error_msg (List.length refused_lines)
         ++ [ask_prompt prompt default],
       Returned (or_ (strip good) default), rest).
Proof.
  intros prompt default validation error_msg refused_lines good rest Hr Hg.
  induction refused_lines as [|line ls IH].
  - simpl app. rewrite (ask_accepts _ _ _ _ _ _ Hg). reflexivity.
  - simpl in Hr. apply andb_true_iff in Hr. destruct Hr as [Hl Hr].
    apply negb_true_iff in Hl.
    cbn [app]. rewrite (ask_refuses _ _ _ _ _ _ Hl), (IH Hr). reflexivity.
Qed.

(** ** The prompts for numbers *)

Lemma numeral_valid :
  forall s, numeral s -> re_match number_pattern s = true.
Proof.
  intros s [Hne Hall]. apply number_pattern_matches.
  exists s. repeat split; auto.
Qed.

Lemma numeral_entry :
  forall s default, numeral s -> or_ (strip s) default = s.
Proof.
  intros s default [Hne Hall]. rewrite (digits_strip Hall).
  destruct s; [contradiction | reflexivity].
Qed.

Lemma str_of_N_numeral : forall n, numeral (str_of_N n).
Proof. intros n. exact (str_of_N_digits n). Qed.

Lemma ask_numeral :
  forall prompt default error_msg s typed,
    numeral s ->
    ask prompt default (Some number_pattern) error_msg (s :: typed)
    = ([ask_prompt prompt default], Returned s, typed).
Proof.
  intros prompt default error_msg s typed Hs.
  rewrite ask_accepts; rewrite (numeral_entry default Hs);
    [reflexivity | exact (numeral_valid Hs)].
Qed.

(** The prompts for the memory, the disk and the cores announce a minimum
    ("mín 2048", "mín 10") and check none: the numeral of every number, 0
    included, is returned at the first prompt. *)
Theorem announced_minimum_not_enforced :
  forall (n : N) (typed : list str),
    ask_memory (str_of_N n :: typed)
    = ([ask_prompt (py "RAM (MB, mín 2048)") (py "4096")],
       Returned (str_of_N n), typed)
    /\ ask_disk (str_of_N n :: typed)
       = ([ask_prompt (py "Disco (GB, mín 10)") (py "20")],
          Returned (str_of_N n), typed)
    /\ ask_cores (str_of_N n :: typed)
       = ([ask_prompt (py "Núcleos de CPU") (py "2")],
          Returned (str_of_N n), typed).
Proof.
  intros n typed. unfold ask_memory, ask_disk, ask_cores.
  repeat split; apply ask_numeral, str_of_N_numeral.
Qed.

Lemma number_entry_numeral :
  forall line default,
    (forall d, default <> d ++ [nl]) ->
    re_match number_pattern (or_ (strip line) default) = true ->
    numeral (or_ (strip line) default).
Proof.
  intros line default Hd Hv. apply number_pattern_matches in Hv.
  destruct Hv as (ds & Hne & Hall & [E | E]).
  - rewrite E. split; assumption.
  - exfalso. exact (@or_strip_last line default ds nl Hd E eq_refl).
Qed.

(** Whatever a prompt with the pattern of numbers returns (the storage
    number, the memory, the disk, the cores, the mask) is a numeral: decimal
    digits only, one at least, given that the default does not end in a line
    feed. *)
Theorem number_prompt_returns_numeral :
  forall (prompt default error_msg : str) (typed : list str)
         (trace : list event) (v : str) (rest : list str),
    (forall d, default <> d ++ [nl]) ->
    ask prompt default (Some number_pattern) error_msg typed
    = (trace, Returned v, rest) ->
    numeral v.
Proof.
  intros prompt default error_msg typed trace v rest Hd H.
  apply ask_returned_valid in H. destruct H as (Hv & line & _ & ->).
  exact (number_entry_numeral line Hd Hv).
Qed.

Lemma no_final_line_feed :
  forall s, negb (char_eqb (last s 0%N) nl) = true -> forall d, s <> d ++ [nl].
Proof.
  intros s H d E. subst s. rewrite last_last in H. discriminate.
Qed.

Lemma number_prompt_returns_numeral_witness :
  numeral (py "8192").
Proof.
  apply (@number_prompt_returns_numeral
           (py "RAM (MB, mín 2048)") (py "4096") error_msg_default
           [py "lots"; py " 8192 "]
           (refused (py "RAM (MB, mín 2048)") (py "4096") error_msg_default 1
              ++ [ask_prompt (py "RAM (MB, mín 2048)") (py "4096")])
           (py "8192") []).
  - apply no_final_line_feed. reflexivity.
  - reflexivity.
Defined.

(** ** The prompts for passwords *)

Lemma any_pattern_entry :
  forall default line,
    re_match any_pattern default = true ->
    valid (Some any_pattern) (or_ (strip line) default) = true.
Proof.
  intros default line Hd. simpl.
  destruct (strip line) as [|c r] eqn:E; simpl; [exact Hd|].
  apply any_pattern_matches. exists c, r. split; [reflexivity|].
  apply strip_head in E. intros ->. discriminate.
Qed.

(** The two password prompts refuse nothing: the first entry is returned
    without the white space around it, and the default stands for an entry
    of white space only. *)
Theorem password_never_refused :
  forall (line : str) (typed : list str),
    ask_password (line :: typed)
    = ([ask_prompt (py "Contraseña de root del contenedor") (py "Cambiame123")],
       Returned (or_ (strip line) (py "Cambiame123")), typed)
    /\ ask_db_password (line :: typed)
       = ([ask_prompt (py "Contraseña de BD de Odoo") (py "admin2025")],
          Returned (or_ (strip line) (py "admin2025")), typed).
Proof.
  intros line typed. unfold ask_password, ask_db_password.
  split; apply ask_accepts, any_pattern_entry; reflexivity.
Qed.

Lemma ask_first_valid_witness :
  ask (py "Disco (GB, mín 10)") (py "20") (Some number_pattern)
      error_msg_default [py "ten"; py "-5"; py " 40 "; py "7"]
  = (refused (py "Disco (GB, mín 10)") (py "20") error_msg_default 2
       ++ [ask_prompt (py "Disco (GB, mín 10)") (py "20")],
     Returned (py "40"), [py "7"]).
Proof.
  apply (@ask_first_valid (py "Disco (GB, mín 10)") (py "20")
           (Some number_pattern) error_msg_default
           [py "ten"; py "-5"] (py " 40 ") [py "7"]); reflexivity.
Defined.

(** ** Addresses *)

Lemma plus_digit_spec :
  forall k first s,
    rep digit 1 None k first s = true
    <-> exists ds post, s = ds ++ post /\ numeral ds /\ k false post = true.
Proof.
  intros k first s. rewrite rep_spec. split.
  - intros (pre & post & -> & Hall & Hlo & _ & Hk).
    exists pre, post. destruct pre as [|c pre]; [simpl in Hlo; lia|].
    rewrite andb_false_r in Hk. repeat split; auto; [discriminate|].
    apply forallb_digit; exact Hall.
  - intros (ds & post & -> & [Hne Hall] & Hk).
    exists ds, post. destruct ds as [|c ds]; [contradiction|].
    rewrite andb_false_r. repeat split; auto; [|simpl; lia].
    apply forallb_digit; exact Hall.
Qed.

Lemma one_chr_spec :
  forall c k first s,
    rep (Chr c) 1 (Some 1) k first s = true
    <-> exists post, s = c :: post /\ k false post = true.
Proof.
  intros c k first s. rewrite rep_spec. split.
  - intros (pre & post & -> & Hall & Hlo & Hhi & Hk).
    destruct pre as [|x [|y pre]]; simpl in Hlo, Hhi; try lia.
    rewrite andb_false_r in Hk. simpl in Hall. rewrite andb_true_r in Hall.
    apply N.eqb_eq in Hall. subst x. exists post. split; [reflexivity|exact Hk].
  - intros (post & -> & Hk). exists [c], post.
    rewrite andb_false_r. simpl. unfold char_eqb. rewrite N.eqb_refl.
    repeat split; auto.
Qed.

Lemma ip_pattern_matches :
  forall s,
    re_match ip_pattern s = true
    <-> exists a b c d,
          numeral a /\ numeral b /\ numeral c /\ numeral d
          /\ (s = dotted_quad a b c d \/ s = dotted_quad a b c d ++ [nl]).
Proof.
  intros s. unfold re_match, ip_pattern, plus.
  change (one (Chr 46%N)) with (Rep (Chr 46%N) 1 (Some 1)).
  cbn [matches andb]. unfold dotted_quad.
  change (py ".") with [46%N]. split.
  - intros H.
    apply plus_digit_spec in H. destruct H as (a & s1 & -> & Ha & H).
    apply one_chr_spec in H. destruct H as (s2 & -> & H).
    apply plus_digit_spec in H. destruct H as (b & s3 & -> & Hb & H).
    apply one_chr_spec in H. destruct H as (s4 & -> & H).
    apply plus_digit_spec in H. destruct H as (c & s5 & -> & Hc & H).
    apply one_chr_spec in H. destruct H as (s6 & -> & H).
    apply plus_digit_spec in H. destruct H as (d & s7 & -> & Hd & H).
    rewrite andb_true_r in H. apply at_end_iff in H.
    exists a, b, c, d. repeat split; try (apply Ha || apply Hb || apply Hc || apply Hd).
    destruct H as [-> | ->]; [left | right]; rewrite ?app_nil_r;
      repeat (rewrite <- ?app_assoc; simpl); reflexivity.
  - intros (a & b & c & d & Ha & Hb & Hc & Hd & Hs).
    assert (exists tail, (tail = [] \/ tail = [nl])
                         /\ s = a ++ 46%N :: b ++ 46%N :: c ++ 46%N :: d ++ tail)
      as (tail & Ht & ->).
    { destruct Hs as [-> | ->]; [exists [] | exists [nl]]; split; auto;
        rewrite ?app_nil_r; repeat (rewrite <- ?app_assoc; simpl); reflexivity. }
    apply plus_digit_spec. exists a, (46%N :: b ++ 46%N :: c ++ 46%N :: d ++ tail).
    repeat split; try apply Ha.
    apply one_chr_spec. eexists; split; [reflexivity|].
    apply plus_digit_spec. exists b, (46%N :: c ++ 46%N :: d ++ tail).
    repeat split; try apply Hb.
    apply one_chr_spec. eexists; split; [reflexivity|].
    apply plus_digit_spec. exists c, (46%N :: d ++ tail).
    repeat split; try apply Hc.
    apply one_chr_spec. eexists; split; [reflexivity|].
    apply plus_digit_spec. exists d, tail.
    repeat split; try apply Hd.
    rewrite andb_true_r. apply at_end_iff. exact Ht.
Qed.

Lemma numeral_no_space :
  forall s, numeral s -> forallb (fun c => negb (isspace c)) s = true.
Proof.
  intros s [_ H]. apply forallb_forall. intros c Hc.
  rewrite Forall_forall in H. rewrite (digit0_nospace (H c Hc)). reflexivity.
Qed.

Lemma dotted_quad_entry :
  forall a b c d default,
    numeral a -> numeral b -> numeral c -> numeral d ->
    or_ (strip (dotted_quad a b c d)) default = dotted_quad a b c d.
Proof.
  intros a b c d default Ha Hb Hc Hd.
  rewrite nospace_strip.
  - unfold dotted_quad. destruct Ha as [Hne _].
    destruct a; [contradiction | reflexivity].
  - unfold dotted_quad. rewrite !forallb_app.
    rewrite (numeral_no_space Ha), (numeral_no_space Hb),
      (numeral_no_space Hc), (numeral_no_space Hd). reflexivity.
Qed.

(** The pattern of the address prompts bounds no octet: four numerals with
    dots between them are returned at the first prompt, whatever numbers
    they write (999.999.999.999 is an address for it), under any prompt text
    and default. *)
Theorem address_prompt_bounds_no_octet :
  forall (prompt default error_msg : str) (a b c d : N) (typed : list str),
    ask prompt default (Some ip_pattern) error_msg
        (dotted_quad (str_of_N a) (str_of_N b) (str_of_N c) (str_of_N d)
           :: typed)
    = ([ask_prompt prompt default],
       Returned (dotted_quad (str_of_N a) (str_of_N b) (str_of_N c)
                   (str_of_N d)),
       typed).
Proof.
  intros prompt default error_msg a b c d typed.
  rewrite ask_accepts;
    rewrite (dotted_quad_entry default (str_of_N_numeral a) (str_of_N_numeral b)
               (str_of_N_numeral c) (str_of_N_numeral d)); [reflexivity|].
  apply ip_pattern_matches.
  exists (str_of_N a), (str_of_N b), (str_of_N c), (str_of_N d).
  repeat split; try apply str_of_N_numeral. left; reflexivity.
Qed.

Lemma address_entry_dotted_quad :
  forall line default,
    (forall d, default <> d ++ [nl]) ->
    re_match ip_pattern (or_ (strip line) default) = true ->
    exists a b c d,
      numeral a /\ numeral b /\ numeral c /\ numeral d
      /\ or_ (strip line) default = dotted_quad a b c d.
Proof.
  intros line default Hd Hv. apply ip_pattern_matches in Hv.
  destruct Hv as (a & b & c & d & Ha & Hb & Hc & Hdd & [E | E]).
  - exists a, b, c, d. repeat split;
      try (apply Ha || apply Hb || apply Hc || apply Hdd). exact E.
  - exfalso. exact (@or_strip_last line default _ nl Hd E eq_refl).
Qed.

(** Whatever an address prompt returns is four numerals with dots between
    them, given that the default does not end in a line feed. *)
Theorem address_prompt_returns_dotted_quad :
  forall (prompt default error_msg : str) (typed : list str)
         (trace : list event) (v : str) (rest : list str),
    (forall d, default <> d ++ [nl]) ->
    ask prompt default (Some ip_pattern) error_msg typed
    = (trace, Returned v, rest) ->
    exists a b c d,
      numeral a /\ numeral b /\ numeral c /\ numeral d
      /\ v = dotted_quad a b c d.
Proof.
  intros prompt default error_msg typed trace v rest Hd H.
  apply ask_returned_valid in H. destruct H as (Hv & line & _ & ->).
  exact (address_entry_dotted_quad line Hd Hv).
Qed.

Lemma address_prompt_returns_dotted_quad_witness :
  exists a b c d,
    numeral a /\ numeral b /\ numeral c /\ numeral d
    /\ py "10.0.0.7" = dotted_quad a b c d.
Proof.
  apply (@address_prompt_returns_dotted_quad
           (py "Dirección IP local") (py "192.168.1.100") error_msg_default
           [py "10.0.0"; py "10.0.0.7"]
           (refused (py "Dirección IP local") (py "192.168.1.100")
              error_msg_default 1
              ++ [ask_prompt (py "Dirección IP local") (py "192.168.1.100")])
           (py "10.0.0.7") []).
  - apply no_final_line_feed. reflexivity.
  - reflexivity.
Defined.

(** ** The characters of the validated fields *)





(** ** The address of the network card *)

Lemma times_spec :
  forall a n k first s,
    rep a n (Some n) k first s = true
    <-> exists pre post,
          s = pre ++ post /\ List.length pre = n
          /\ forallb (atom_match a) pre = true
          /\ k (first && is_nil pre) post = true.
Proof.
  intros a n k first s. rewrite rep_spec. split.
  - intros (pre & post & E & Hall & Hlo & Hhi & Hk). simpl in Hhi.
    exists pre, post. repeat split; auto. lia.
  - intros (pre & post & E & Hlen & Hall & Hk).
    exists pre, post. simpl. repeat split; auto; lia.
Qed.

Lemma mac_pattern_matches :
  forall s,
    re_match mac_pattern s = true
    <-> exists m, is_mac_address m = true /\ (s = m \/ s = m ++ [nl]).
Proof.
  intros s. unfold re_match, mac_pattern, times.
  change (one mac_separator) with (Rep mac_separator 1 (Some 1)).
  cbn [List.concat repeat app matches andb]. split.
  - intros H.
    repeat (apply times_spec in H;
            let pre := fresh "pre" in
            let Hl := fresh "Hl" in
            let Ha := fresh "Ha" in
            destruct H as (pre & ? & -> & Hl & Ha & H);
            destruct pre as [|? [|? [|? ?]]]; try discriminate Hl;
            cbn [forallb] in Ha; rewrite ?andb_true_r in Ha;
            cbn [is_nil andb] in H; rewrite ?andb_false_r in H).
    rewrite andb_true_r in H. apply at_end_iff in H.
    eexists [_; _; _; _; _; _; _; _; _; _; _; _; _; _; _; _; _].
    split.
    2:{ destruct H as [-> | ->]; [left | right]; cbn [app]; reflexivity. }
    unfold is_mac_address, is_hex, is_mac_separator. cbn [forallb].
    repeat match goal with
           | H : _ && _ = true |- _ => apply andb_true_iff in H; destruct H
           end.
    repeat match goal with
           | H : atom_match _ _ = true |- _ => rewrite H; clear H
           end.
    reflexivity.
  - intros (m & Hm & Hs).
    unfold is_mac_address in Hm.
    do 17 (destruct m as [|? m]; try discriminate Hm).
    destruct m; [|discriminate Hm].
    unfold is_hex, is_mac_separator in Hm. cbn [forallb] in Hm.
    repeat match goal with
           | H : _ && _ = true |- _ => apply andb_true_iff in H; destruct H
           end.
    assert (exists tail, (tail = [] \/ tail = [nl])
                         /\ s = [c; c0; c1; c2; c3; c4; c5; c6; c7; c8; c9;
                                 c10; c11; c12; c13; c14; c15] ++ tail)
      as (tail & Ht & ->).
    { destruct Hs as [-> | ->]; [exists [] | exists [nl]]; split; auto. }
    cbn [app].
    repeat (apply times_spec;
            first
              [ eexists [_; _], _; split; [reflexivity|]; split; [reflexivity|];
                split; [cbn [forallb]; rewrite ?andb_true_r;
                        apply andb_true_iff; split; assumption|]
              | eexists [_], _; split; [reflexivity|]; split; [reflexivity|];
                split; [cbn [forallb]; rewrite ?andb_true_r; assumption|] ];
            cbn [is_nil andb]; rewrite ?andb_false_r).
    rewrite andb_true_r. apply at_end_iff. exact Ht.
Qed.

Lemma isspace_range :
  forall c, isspace c = true -> (c <= 32 \/ 133 <= c)%N.
Proof.
  intros c H. unfold isspace in H.
  repeat match goal with
         | H : _ || _ = true |- _ => apply orb_true_iff in H; destruct H as [H | H]
         | H : _ && _ = true |- _ => apply andb_true_iff in H; destruct H
         | H : (_ <=? _)%N = true |- _ => apply N.leb_le in H
         | H : (_ =? _)%N = true |- _ => apply N.eqb_eq in H
         end; lia.
Qed.

Lemma printable_no_space :
  forall c, (33 <= c <= 126)%N -> isspace c = false.
Proof.
  intros c Hc. destruct (isspace c) eqn:E; [|reflexivity].
  apply isspace_range in E. lia.
Qed.

Lemma class_range :
  forall ranges c,
    atom_match (Class ranges) c = true ->
    exists r, In r ranges /\ (fst r <= c <= snd r)%N.
Proof.
  intros ranges c H. unfold atom_match in H.
  apply existsb_exists in H. destruct H as (r & Hr & H).
  exists r. split; [exact Hr|]. unfold in_range in H.
  apply andb_true_iff in H. destruct H as [H1 H2].
  apply N.leb_le in H1, H2. lia.
Qed.

Lemma hex_no_space : forall c, is_hex c = true -> isspace c = false.
Proof.
  intros c H. apply class_range in H. destruct H as (r & Hr & H).
  apply printable_no_space.
  simpl in Hr. destruct Hr as [<- | [<- | [<- | []]]];
    [ change (48 <= c <= 57)%N in H | change (65 <= c <= 70)%N in H
    | change (97 <= c <= 102)%N in H ]; lia.
Qed.

Lemma mac_separator_no_space :
  forall c, is_mac_separator c = true -> isspace c = false.
Proof.
  intros c H. apply class_range in H. destruct H as (r & Hr & H).
  apply printable_no_space.
  simpl in Hr. destruct Hr as [<- | [<- | []]];
    [ change (58 <= c <= 58)%N in H | change (45 <= c <= 45)%N in H ]; lia.
Qed.

Lemma mac_address_strip :
  forall m, is_mac_address m = true -> strip m = m /\ m <> [].
Proof.
  intros m Hm. unfold is_mac_address in Hm.
  do 17 (destruct m as [|? m]; try discriminate Hm).
  destruct m; [|discriminate Hm]. split; [|discriminate].
  cbn [forallb] in Hm.
  repeat match goal with
         | H : _ && _ = true |- _ => apply andb_true_iff in H; destruct H
         end.
  apply nospace_strip. cbn [forallb].
  repeat match goal with
         | H : is_hex _ = true |- _ => rewrite (hex_no_space _ H); clear H
         | H : is_mac_separator _ = true |- _ =>
           rewrite (mac_separator_no_space _ H); clear H
         end.
  reflexivity.
Qed.

Lemma ask_mac_step :
  forall line rest,
    ask_mac (line :: rest)
    = (if negb (is_nil (strip line)) && re_match mac_pattern (strip line)
       then ([ask_prompt mac_prompt []], Returned (strip line), rest)
       else
         let '(trace', r, rest') := ask_mac rest in
         ([ask_prompt mac_prompt []]
            ++ error (py "Se requiere una dirección MAC válida para IP pública")
            ++ trace', r, rest')).
Proof.
  intros line rest. cbn [ask_mac ask valid].
  replace (or_ (strip line) []) with (strip line)
    by (destruct (strip line); reflexivity).
  reflexivity.
Qed.

Lemma mac_entry :
  forall line,
    re_match mac_pattern (strip line) = true -> is_mac_address (strip line) = true.
Proof.
  intros line E. apply mac_pattern_matches in E.
  destruct E as (m & Hm & [E | E]).
  - rewrite E. exact Hm.
  - apply strip_last in E. discriminate.
Qed.

Lemma ask_mac_entry :
  forall typed trace mac rest,
    ask_mac typed = (trace, Returned mac, rest) ->
    exists line,
      In line typed /\ mac = strip line /\ re_match mac_pattern mac = true.
Proof.
  induction typed as [|line typed IH]; intros trace mac rest H.
  - discriminate.
  - rewrite ask_mac_step in H.
    destruct (negb (is_nil (strip line)) && re_match mac_pattern (strip line))
      eqn:E.
    + injection H as _ <- _. apply andb_true_iff in E. destruct E as [_ E].
      exists line. split; [left; reflexivity|]. split; [reflexivity|exact E].
    + destruct (ask_mac typed) as [[trace' r'] rest'] eqn:Hr.
      injection H as _ -> _.
      destruct (IH _ _ _ eq_refl) as (l & Hl & Hm & Hv).
      exists l. split; [right; exact Hl|]. split; assumption.
Qed.

(** The loop that asks for the address of the network card returns nothing
    but six pairs of hexadecimal digits, each of the first five followed by
    a colon or a hyphen. *)
Theorem mac_loop_returns_mac_address :
  forall (typed : list str) (trace : list event) (mac : str)
         (rest : list str),
    ask_mac typed = (trace, Returned mac, rest) ->
    is_mac_address mac = true.
Proof.
  intros typed trace mac rest H.
  apply ask_mac_entry in H. destruct H as (line & _ & -> & Hv).
  exact (mac_entry line Hv).
Qed.

Lemma mac_loop_returns_mac_address_witness :
  is_mac_address (py "BC:24:11:aa:0f:3e") = true.
Proof.
  apply (@mac_loop_returns_mac_address
           [[]; py "BC:24:11:aa:0f"; py "  BC:24:11:aa:0f:3e"]
           (fst (fst (ask_mac [[]; py "BC:24:11:aa:0f";
                               py "  BC:24:11:aa:0f:3e"])))
           (py "BC:24:11:aa:0f:3e") []).
  reflexivity.
Defined.

(** An address of the network card is returned at the first prompt as it
    was entered; its separators need not be the same (a colon after one
    pair, a hyphen after another). *)
Theorem mac_address_accepted :
  forall (m : str) (typed : list str),
    is_mac_address m = true ->
    ask_mac (m :: typed) = ([ask_prompt mac_prompt []], Returned m, typed).
Proof.
  intros m typed Hm. rewrite ask_mac_step.
  destruct (mac_address_strip m Hm) as [-> Hne].
  assert (E : re_match mac_pattern m = true).
  { apply mac_pattern_matches. exists m. split; [exact Hm | left; reflexivity]. }
  rewrite E. destruct m; [contradiction | reflexivity].
Qed.

Lemma mac_address_accepted_witness :
  ask_mac [py "bc:24-11:AA-0f:3e"; py "x"]
  = ([ask_prompt mac_prompt []], Returned (py "bc:24-11:AA-0f:3e"), [py "x"]).
Proof.
  apply (@mac_address_accepted (py "bc:24-11:AA-0f:3e") [py "x"]).
  reflexivity.
Defined.

(** ** Yes or no *)

Lemma lower_ascii_head :
  forall unicode_lower c r,
    forallb ascii (c :: r) = true ->
    prefixb (py "y") (lower unicode_lower (c :: r))
    = ((c =? 121) || (c =? 89))%N.
Proof.
  intros ul c r H. unfold lower. rewrite H.
  change (py "y") with [121%N]. cbn [map prefixb]. rewrite andb_true_r.
  unfold char_eqb, ascii_lower.
  destruct ((65 <=? c) && (c <=? 90))%N eqn:E.
  - apply andb_true_iff in E. destruct E as [E1 E2].
    apply N.leb_le in E1, E2.
    destruct (N.eqb_spec c 89) as [->|Hn]; [reflexivity|].
    rewrite orb_false_r.
    destruct (N.eqb_spec 121 (c + 32)) as [E|_]; [lia|].
    symmetry. apply N.eqb_neq. lia.
  - destruct (N.eqb_spec c 89) as [->|Hn]; [discriminate|].
    rewrite orb_false_r. apply N.eqb_sym.
Qed.

(** What [confirm_action] makes of an answer in ASCII: after the white
    space, a first letter y or Y is a yes and any other first character a
    no, whatever the default (so "si" is a no); an answer of white space
    only is the choice written as a capital in the options shown. *)
Theorem confirm_action_answer :
  forall (unicode_lower : str -> str) (prompt default line : str),
    forallb ascii (strip line) = true ->
    confirm_action unicode_lower prompt default (Some line)
    = ([confirm_prompt unicode_lower prompt default],
       Returned
         match strip line with
         | [] => str_eqb (options unicode_lower default) (py "Y/n")
         | c :: _ => ((c =? 121) || (c =? 89))%N
         end).
Proof.
  intros ul prompt default line H. unfold confirm_action.
  do 2 f_equal.
  destruct (strip line) as [|c r] eqn:E.
  - unfold lower at 1. cbn [forallb map or_]. unfold options.
    destruct (prefixb (py "y") (lower ul default)); reflexivity.
  - rewrite <- (lower_ascii_head ul c r H).
    destruct (lower ul (c :: r)) eqn:El; [|reflexivity].
    unfold lower in El. rewrite H in El. discriminate.
Qed.

Lemma confirm_action_answer_witness :
  confirm_action (fun s => s) (py "¿Usar IP pública?") (py "N")
                 (Some (py " si"))
  = ([confirm_prompt (fun s => s) (py "¿Usar IP pública?") (py "N")],
     Returned false).
Proof.
  apply (@confirm_action_answer (fun s => s) (py "¿Usar IP pública?") (py "N")
           (py " si")).
  reflexivity.
Defined.

(** ** Storage data *)

Lemma shells_app : forall a b, shells (a ++ b) = shells a ++ shells b.
Proof.
  induction a as [|e a IH]; intros b; [reflexivity|].
  destruct e; simpl; rewrite ?IH; reflexivity.
Qed.

Lemma shells_error : forall text, shells (error text) = [].
Proof. reflexivity. Qed.

Lemma shells_msg : forall text type_ color, shells (msg text type_ color) = [].
Proof. reflexivity. Qed.

Lemma run_command_cases :
  forall command show p,
    (succeeds p = true
     /\ exists c, p = Ran c
        /\ run_command command true show p
           = (Shell command :: (if show then [print (stdout c)] else []),
              Returned (Some (strip (stdout c)))))
    \/ (succeeds p = false
        /\ shells (trace (run_command command true show p)) = [command]
        /\ (result (run_command command true show p) = Exited 1%Z
            \/ exists e, p = Not_run e
               /\ result (run_command command true show p) = Raised e)).
Proof.
  intros command show [c|e]; unfold run_command, succeeds.
  - destruct (returncode c =? 0)%Z.
    + left. split; [reflexivity|]. exists c. split; reflexivity.
    + right. split; [reflexivity|]. split; [reflexivity|]. left; reflexivity.
  - right. split; [reflexivity|]. split; [reflexivity|].
    right. exists e. split; reflexivity.
Qed.

(** [get_storage_data] lets no exception out but the interrupts that are no
    [Exception]: it returns what [json.loads] makes of the stripped output
    of the storage query, which happens only when both commands end with
    status 0, and every failure ends the script with status 1.  The storage
    query is run only after [hostname] succeeded and names the node by its
    stripped output. *)
Theorem get_storage_data_outcome :
  forall (json_loads : str -> value + str) (describe : str -> str)
         (p_hostname p_storage : process),
    match result (get_storage_data json_loads describe p_hostname p_storage)
    with
    | Returned v =>
      exists c1 c2,
        p_hostname = Ran c1 /\ returncode c1 = 0%Z
        /\ p_storage = Ran c2 /\ returncode c2 = 0%Z
        /\ json_loads (strip (stdout c2)) = inl v
        /\ shells (trace (get_storage_data json_loads describe p_hostname
                            p_storage))
           = [py "hostname"; storage_command (strip (stdout c1))]
    | Exited code => code = 1%Z
    | Raised e => passes_except_Exception e = true
    end.
Proof.
  intros json_loads describe p_hostname p_storage.
  unfold get_storage_data, run_command.
  destruct p_hostname as [c1|e1].
  2:{ unfold bind, try_except_Exception.
      destruct (passes_except_Exception e1) eqn:E; [exact E | reflexivity]. }
  destruct (returncode c1 =? 0)%Z eqn:E1; [|reflexivity].
  apply Z.eqb_eq in E1.
  destruct p_storage as [c2|e2].
  2:{ unfold bind, try_except_Exception.
      destruct (passes_except_Exception e2) eqn:E; [exact E | reflexivity]. }
  cbn [formatted bind]. unfold bind.
  destruct (returncode c2 =? 0)%Z eqn:E2; [|reflexivity].
  apply Z.eqb_eq in E2.
  unfold loads, try_except_Exception, ret.
  destruct (json_loads (strip (stdout c2))) as [v|e] eqn:Ej.
  - exists c1, c2. repeat split; auto.
  - destruct (passes_except_Exception e) eqn:E; [exact E | reflexivity].
Qed.

(** ** Enabling a content type *)

Lemma split_not_nil : forall sep s, split sep s <> [].
Proof.
  intros sep; induction s as [|c s IH]; simpl; [discriminate|].
  destruct (char_eqb c sep); [discriminate|].
  destruct (split sep s); discriminate.
Qed.

Lemma split_app_sep :
  forall sep a b, split sep (a ++ sep :: b) = split sep a ++ split sep b.
Proof.
  intros sep; induction a as [|c a IH]; intros b; simpl.
  - unfold char_eqb. rewrite N.eqb_refl. reflexivity.
  - rewrite IH. destruct (char_eqb c sep); [reflexivity|].
    pose proof (split_not_nil sep a) as Hne.
    destruct (split sep a); [contradiction | reflexivity].
Qed.

Lemma split_single :
  forall sep s,
    forallb (fun c => negb (char_eqb c sep)) s = true -> split sep s = [s].
Proof.
  intros sep; induction s as [|c s IH]; intros H; [reflexivity|].
  simpl in H. apply andb_true_iff in H. destruct H as [Hc Hs].
  apply negb_true_iff in Hc. simpl. rewrite Hc, (IH Hs). reflexivity.
Qed.

Lemma find_storage_info_trace :
  forall storage_data storage,
    trace (find_storage_info storage_data storage) = [].
Proof.
  induction storage_data as [|item rest IH]; intros storage; simpl.
  - reflexivity.
  - destruct (lookup item (py "storage")) as [v|]; [|reflexivity].
    destruct (is_str v storage); [reflexivity | apply IH].
Qed.

Lemma find_storage_info_found :
  forall storage_data storage item,
    result (find_storage_info storage_data storage) = Returned (Some item) ->
    In item storage_data /\ item <> [].
Proof.
  induction storage_data as [|x rest IH]; intros storage item H; simpl in H.
  - discriminate.
  - destruct (lookup x (py "storage")) as [v|] eqn:El; [|discriminate].
    destruct (is_str v storage).
    + injection H as <-. split; [left; reflexivity|].
      intros ->. discriminate.
    + destruct (IH _ _ H) as [Hin Hne]. split; [right; exact Hin | exact Hne].
Qed.

Lemma comp_eta : forall (A : Type) (m : comp A), m = (trace m, result m).
Proof. intros A [t r]; reflexivity. Qed.

Lemma content_list_trace : forall content, trace (content_list content) = [].
Proof.
  intros content. unfold content_list.
  destruct (truth content); [|reflexivity].
  destruct content; reflexivity.
Qed.

Lemma enable_found :
  forall (unicode_lower : str -> str) (json_loads : str -> value + str)
         (describe : str -> str) (storage content_type readable_name : str)
         (storage_data : list dict) (answer : option str)
         (p_set p_hostname p_storage : process) (item : dict)
         (contents : list str),
    result (find_storage_info storage_data storage) = Returned (Some item) ->
    result (content_list (get item (py "content") (VStr [])))
    = Returned contents ->
    enable_storage_content unicode_lower json_loads describe storage
      content_type readable_name storage_data answer p_set p_hostname p_storage
    = (if negb (existsb (str_eqb content_type) contents) then
         emit (warning (py "El almacenamiento '" ++ storage
                          ++ py "' no soporta " ++ readable_name ++ py " ("
                          ++ content_type ++ py ")")) ;;;
         yes <- confirm_action unicode_lower
                  (py "¿Habilitar soporte para " ++ readable_name ++ py "?")
                  (py "Y") answer ;;
         if yes then
           run_command (set_content_command storage
                          (new_content (get item (py "content") (VStr []))
                             content_type))
                       true false p_set ;;;
           emit (success (py "Soporte para " ++ readable_name
                            ++ py " habilitado en '" ++ storage ++ py "'")) ;;;
           get_storage_data json_loads describe p_hostname p_storage
         else error_exit (py "Se requiere soporte para " ++ readable_name)
       else
         emit (info (py "El almacenamiento '" ++ storage ++ py "' ya soporta "
                       ++ readable_name)) ;;;
         ret (VList (map VDict storage_data))).
Proof.
  intros ul jl describe storage content_type readable_name storage_data
         answer p_set p_hostname p_storage item contents Hf Hc.
  unfold enable_storage_content.
  destruct (find_storage_info_found _ _ Hf) as [_ Hne].
  rewrite (comp_eta (find_storage_info storage_data storage)).
  rewrite find_storage_info_trace, Hf.
  unfold bind at 1. destruct item as [|kv item]; [contradiction|].
  rewrite (comp_eta (content_list _)).
  rewrite content_list_trace, Hc. unfold bind at 1.
  destruct (negb (existsb (str_eqb content_type) contents));
    match goal with |- _ = ?m => generalize m end;
    intros [t r]; reflexivity.
Qed.

(** A storage that already lists the content type is left alone: nothing is
    asked, no command is run, and the data come back as they were given. *)
Theorem enable_storage_content_supported :
  forall (unicode_lower : str -> str) (json_loads : str -> value + str)
         (describe : str -> str) (storage content_type readable_name : str)
         (storage_data : list dict) (answer : option str)
         (p_set p_hostname p_storage : process) (item : dict)
         (contents : list str),
    result (find_storage_info storage_data storage) = Returned (Some item) ->
    result (content_list (get item (py "content") (VStr [])))
    = Returned contents ->
    In content_type contents ->
    enable_storage_content unicode_lower json_loads describe storage
      content_type readable_name storage_data answer p_set p_hostname p_storage
    = (info (py "El almacenamiento '" ++ storage ++ py "' ya soporta "
               ++ readable_name),
       Returned (VList (map VDict storage_data))).
Proof.
  intros ul jl describe storage content_type readable_name storage_data
         answer p_set p_hostname p_storage item contents Hf Hc Hin.
  rewrite (@enable_found ul jl describe storage content_type readable_name
             storage_data answer p_set p_hostname p_storage item contents
             Hf Hc).
  assert (E : existsb (str_eqb content_type) contents = true).
  { apply existsb_exists. exists content_type. split; [exact Hin|].
    apply str_eqb_eq. reflexivity. }
  rewrite E. cbn [negb]. unfold bind, emit, ret.
  rewrite app_nil_r. reflexivity.
Qed.

(** Without the operator's yes [enable_storage_content] runs no command:
    when the answer is a no, or the input has ended, the storage is not
    touched, whatever the data look like. *)
Theorem enable_storage_content_asks_first :
  forall (unicode_lower : str -> str) (json_loads : str -> value + str)
         (describe : str -> str) (storage content_type readable_name : str)
         (storage_data : list dict) (answer : option str)
         (p_set p_hostname p_storage : process),
    result (confirm_action unicode_lower
              (py "¿Habilitar soporte para " ++ readable_name ++ py "?")
              (py "Y") answer)
    <> Returned true ->
    shells (trace (enable_storage_content unicode_lower json_loads describe
                     storage content_type readable_name storage_data answer
                     p_set p_hostname p_storage))
    = [].
Proof.
  intros ul jl describe storage content_type readable_name storage_data
         answer p_set p_hostname p_storage Hno.
  destruct (result (find_storage_info storage_data storage))
    as [[item|]| |] eqn:Hf.
  2-4: unfold enable_storage_content;
       rewrite (comp_eta (find_storage_info storage_data storage));
       rewrite find_storage_info_trace, Hf; reflexivity.
  destruct (result (content_list (get item (py "content") (VStr []))))
    as [contents| |] eqn:Hc.
  2-3: unfold enable_storage_content;
       rewrite (comp_eta (find_storage_info storage_data storage));
       rewrite find_storage_info_trace, Hf; unfold bind at 1;
       destruct item; [reflexivity|];
       rewrite (comp_eta (content_list _));
       rewrite content_list_trace, Hc; reflexivity.
  rewrite (@enable_found ul jl describe storage content_type readable_name
             storage_data answer p_set p_hostname p_storage item contents
             Hf Hc).
  destruct (negb (existsb (str_eqb content_type) contents)); [|reflexivity].
  unfold confirm_action in *.
  destruct answer as [line|]; [|reflexivity].
  cbn [result snd] in Hno.
  destruct (prefixb (py "y")
              (or_ (lower ul (strip line)) (lower ul (py "Y")))).
  - contradiction Hno. reflexivity.
  - reflexivity.
Qed.

Lemma content_list_new_content :
  forall content contents content_type,
    result (content_list content) = Returned contents ->
    forallb (fun c => negb (char_eqb c 44%N)) content_type = true ->
    split 44%N (new_content content content_type) = contents ++ [content_type].
Proof.
  intros content contents content_type Hc Ht. unfold content_list in Hc.
  destruct (truth content) eqn:E.
  - destruct content as [| | | |s| |]; try discriminate Hc.
    injection Hc as <-. destruct s as [|c s]; [discriminate E|].
    unfold new_content. change (py ",") with [44%N].
    change ((c :: s) ++ [44%N] ++ content_type)
      with ((c :: s) ++ 44%N :: content_type).
    rewrite split_app_sep, (split_single _ _ Ht). reflexivity.
  - injection Hc as <-.
    assert (En : new_content content content_type = content_type).
    { destruct content as [| | | |[|c s]| |]; try reflexivity. discriminate E. }
    rewrite En. apply split_single. exact Ht.
Qed.

(** When the operator agrees, the first command run sets the content of the
    storage to a list that keeps every content type it had, in their order,
    and ends in the new one. *)
Theorem enable_storage_content_adds_content_type :
  forall (unicode_lower : str -> str) (json_loads : str -> value + str)
         (describe : str -> str) (storage content_type readable_name : str)
         (storage_data : list dict) (answer : option str)
         (p_set p_hostname p_storage : process) (item : dict)
         (contents : list str),
    result (find_storage_info storage_data storage) = Returned (Some item) ->
    result (content_list (get item (py "content") (VStr [])))
    = Returned contents ->
    existsb (str_eqb content_type) contents = false ->
    forallb (fun c => negb (char_eqb c 44%N)) content_type = true ->
    result (confirm_action unicode_lower
              (py "¿Habilitar soporte para " ++ readable_name ++ py "?")
              (py "Y") answer)
    = Returned true ->
    (exists more,
        shells (trace (enable_storage_content unicode_lower json_loads
                         describe storage content_type readable_name
                         storage_data answer p_set p_hostname p_storage))
        = set_content_command storage
            (new_content (get item (py "content") (VStr [])) content_type)
            :: more)
    /\ split 44%N (new_content (get item (py "content") (VStr []))
                     content_type)
       = contents ++ [content_type].
Proof.
  intros ul jl describe storage content_type readable_name storage_data
         answer p_set p_hostname p_storage item contents Hf Hc Hnot Ht Hyes.
  split; [|exact (content_list_new_content _ _ Hc Ht)].
  rewrite (@enable_found ul jl describe storage content_type readable_name
             storage_data answer p_set p_hostname p_storage item contents
             Hf Hc).
  rewrite Hnot. cbn [negb].
  rewrite (comp_eta (confirm_action _ _ _ _)), Hyes.
  unfold emit at 1. unfold bind at 1. unfold bind at 1.
  set (cmd := set_content_command storage _).
  rewrite (comp_eta (run_command cmd true false p_set)).
  assert (Hs : exists t, trace (run_command cmd true false p_set)
                         = Shell cmd :: t).
  { unfold run_command. destruct p_set as [c|e]; [|eexists; reflexivity].
    destruct (returncode c =? 0)%Z; eexists; reflexivity. }
  destruct Hs as (t & Hs). rewrite Hs.
  assert (Hp : shells (trace (confirm_action ul
                  (py "¿Habilitar soporte para " ++ readable_name ++ py "?")
                  (py "Y") answer)) = []).
  { destruct answer; reflexivity. }
  match goal with
  | |- context [bind (Shell cmd :: t, ?r) ?k] =>
    destruct (bind (Shell cmd :: t, r) k) as [t2 r2] eqn:Eb
  end.
  assert (Ht2 : exists more, t2 = Shell cmd :: more).
  { unfold bind in Eb.
    destruct (result (run_command cmd true false p_set));
      [ match type of Eb with (let (_, _) := ?m in _) = _ => destruct m end |
        | ];
      injection Eb as <- _; eexists; reflexivity. }
  destruct Ht2 as (more & ->).
  exists (shells more). cbn [trace fst].
  rewrite !shells_app, Hp. reflexivity.
Qed.


Lemma enable_storage_content_supported_witness :
  enable_storage_content (fun s => s) unreadable (fun e => e) (py "local")
    (py "vztmpl") (py "plantillas") [storage_local] None (failed 1) (failed 1)
    (failed 1)
  = (info (py "El almacenamiento '" ++ py "local" ++ py "' ya soporta "
             ++ py "plantillas"),
     Returned (VList (map VDict [storage_local]))).
Proof.
  apply (@enable_storage_content_supported (fun s => s) unreadable
           (fun e => e) (py "local") (py "vztmpl") (py "plantillas")
           [storage_local] None (failed 1) (failed 1) (failed 1)
           storage_local [py "iso"; py "vztmpl"]).
  - reflexivity.
  - reflexivity.
  - simpl. auto.
Defined.

Lemma enable_storage_content_asks_first_witness :
  shells (trace (enable_storage_content (fun s => s) unreadable (fun e => e)
                   (py "local") (py "rootdir") (py "contenedores")
                   [storage_local] (Some (py "no")) (done "") (done "pve")
                   (done "[]")))
  = [].
Proof.
  apply (@enable_storage_content_asks_first (fun s => s) unreadable
           (fun e => e) (py "local") (py "rootdir") (py "contenedores")
           [storage_local] (Some (py "no")) (done "") (done "pve")
           (done "[]")).
  simpl. discriminate.
Defined.

Lemma enable_storage_content_adds_content_type_witness :
  (exists more,
      shells (trace (enable_storage_content (fun s => s) unreadable
                       (fun e => e) (py "local") (py "rootdir")
                       (py "contenedores") [storage_local] (Some [])
                       (done "") (done "pve") (done "[]")))
      = set_content_command (py "local") (py "iso,vztmpl,rootdir") :: more)
  /\ split 44%N (py "iso,vztmpl,rootdir")
     = [py "iso"; py "vztmpl"] ++ [py "rootdir"].
Proof.
  apply (@enable_storage_content_adds_content_type (fun s => s) unreadable
           (fun e => e) (py "local") (py "rootdir") (py "contenedores")
           [storage_local] (Some []) (done "") (done "pve") (done "[]")
           storage_local [py "iso"; py "vztmpl"]); reflexivity.
Defined.

(** ** Choosing the storage *)

Lemma decimal_acc :
  forall d acc,
    fold_left (fun a c => (a * 10 + (Z.of_N c - 48))%Z) (digits d) (Zpos acc)
    = Zpos (Pos.of_uint_acc d acc).
Proof.
  induction d; intros acc; cbn [digits fold_left Pos.of_uint_acc];
    try reflexivity; rewrite <- IHd; f_equal; lia.
Qed.

Lemma decimal_digits :
  forall d, decimal (digits d) = Z.of_N (Pos.of_uint d).
Proof.
  unfold decimal.
  induction d; cbn [digits fold_left Pos.of_uint]; try reflexivity;
    try exact IHd; cbn [Z.of_N]; rewrite <- decimal_acc; f_equal.
Qed.

Lemma decimal_str_of_N : forall n, decimal (str_of_N n) = Z.of_N n.
Proof.
  intros n. unfold str_of_N. rewrite decimal_digits.
  f_equal. exact (DecimalN.Unsigned.of_to n).
Qed.

Lemma ask_outcome :
  forall prompt default validation error_msg typed,
    match snd (fst (ask prompt default validation error_msg typed)) with
    | Returned _ => True
    | Exited _ => False
    | Raised e => e = py "EOFError"
    end.
Proof.
  intros prompt default validation error_msg.
  induction typed as [|line typed IH]; simpl; [reflexivity|].
  destruct (valid validation (or_ (strip line) default)); [exact I|].
  destruct (ask prompt default validation error_msg typed) as [[t r] rest].
  exact IH.
Qed.

Lemma numeral_is_digit :
  forall s, numeral s -> negb (is_nil s) && forallb is_digit s = true.
Proof.
  intros s [Hne Hall]. destruct s as [|c s]; [contradiction|].
  cbn [is_nil negb andb]. apply forallb_forall. intros x Hx.
  rewrite Forall_forall in Hall. specialize (Hall x Hx).
  unfold digit0 in Hall. unfold is_digit.
  apply andb_true_iff. split; apply N.leb_le; lia.
Qed.

Lemma decimal_nonneg :
  forall s, Forall digit0 s -> (0 <= decimal s)%Z.
Proof.
  intros s. unfold decimal.
  assert (H : forall acc, (0 <= acc)%Z -> Forall digit0 s ->
                          (0 <= fold_left (fun a c => a * 10 + (Z.of_N c - 48)) s acc)%Z).
  { induction s as [|c s IH]; intros acc Ha Hs; simpl; [exact Ha|].
    inversion Hs as [|? ? Hc Hs']; subst. apply IH; [|exact Hs'].
    unfold digit0 in Hc. lia. }
  apply H. lia.
Qed.

Lemma subscript_in_range :
  forall storages i,
    (0 <= i < Z.of_nat (List.length storages))%Z ->
    subscript storages i = ret (nth (Z.to_nat i) storages [])
    /\ nth_error storages (Z.to_nat i) = Some (nth (Z.to_nat i) storages []).
Proof.
  intros storages i Hi. unfold subscript.
  destruct (i <? 0)%Z eqn:E; [apply Z.ltb_lt in E; lia|].
  assert (E2 : ((0 <=? i) && (i <? Z.of_nat (List.length storages)))%Z = true).
  { apply andb_true_iff. split; [apply Z.leb_le | apply Z.ltb_lt]; lia. }
  rewrite E2. split; [reflexivity|].
  apply nth_error_nth'. lia.
Qed.

(** The choice of the storage ends in one of three ways.  It returns a
    storage: then the prompt returned a numeral of a number from 1 to the
    length of the list, and the storage is the one at that place of the
    list shown, counted from 1 and from its start.  Or it ends with exit
    status 1: then the number entered is 0 or beyond the length.  Or it ends
    with an exception: the end of the input, or the interpreter's refusal
    of an overlong numeral.  The list is never indexed out of its range,
    nor from its end. *)
Theorem select_storage_outcome :
  forall (int_refuses : str -> bool) (int_other : str -> outcome Z)
         (storages typed : list str),
    match result (fst (select_storage int_refuses int_other storages typed))
    with
    | Returned storage =>
      exists v,
        snd (fst (ask (py "Seleccione almacenamiento (número)") (py "1")
                      (Some number_pattern) error_msg_default typed))
        = Returned v
        /\ numeral v
        /\ (1 <= decimal v <= Z.of_nat (List.length storages))%Z
        /\ nth_error storages (Z.to_nat (decimal v - 1)) = Some storage
    | Exited code =>
      code = 1%Z
      /\ exists v,
           snd (fst (ask (py "Seleccione almacenamiento (número)") (py "1")
                         (Some number_pattern) error_msg_default typed))
           = Returned v
           /\ numeral v
           /\ (decimal v < 1
               \/ Z.of_nat (List.length storages) < decimal v)%Z
    | Raised e =>
      (e = py "EOFError"
       /\ snd (fst (ask (py "Seleccione almacenamiento (número)") (py "1")
                        (Some number_pattern) error_msg_default typed))
          = Raised (py "EOFError"))
      \/ (e = py "ValueError"
          /\ exists v,
               snd (fst (ask (py "Seleccione almacenamiento (número)")
                             (py "1") (Some number_pattern)
                             error_msg_default typed))
               = Returned v
               /\ int_refuses v = true)
    end.
Proof.
  intros ir io storages typed. unfold select_storage.
  pose proof (ask_outcome (py "Seleccione almacenamiento (número)") (py "1")
                (Some number_pattern) error_msg_default typed) as Ho.
  destruct (ask (py "Seleccione almacenamiento (número)") (py "1")
              (Some number_pattern) error_msg_default typed)
    as [[t r] rest] eqn:Ha.
  cbn [fst snd] in *.
  destruct r as [v| |e]; [|contradiction | left; subst e; split; reflexivity].
  assert (Hv : numeral v).
  { destruct (ask_returned_valid _ _ _ _ _ Ha) as (Hv & line & _ & E).
    rewrite E in *. apply number_entry_numeral; [|exact Hv].
    apply no_final_line_feed. reflexivity. }
  unfold bind at 1. unfold int_. rewrite (numeral_is_digit Hv).
  destruct (ir v) eqn:Er.
  { right. split; [reflexivity|]. exists v. split; [reflexivity | exact Er]. }
  unfold lift, bind at 1.
  pose proof (decimal_nonneg (proj2 Hv)) as Hn.
  destruct ((decimal v <? 1) || (Z.of_nat (List.length storages) <? decimal v))%Z
    eqn:E.
  { split; [reflexivity|]. exists v. split; [reflexivity|]. split; [exact Hv|].
    apply orb_true_iff in E. destruct E as [E | E]; apply Z.ltb_lt in E;
      [left | right]; exact E. }
  apply orb_false_iff in E. destruct E as [E1 E2].
  apply Z.ltb_ge in E1, E2.
  destruct (@subscript_in_range storages (decimal v - 1)) as [Es En]; [lia|].
  unfold ret at 1. unfold bind at 1. rewrite Es.
  unfold ret, bind, emit. cbn [result snd].
  exists v. split; [reflexivity|]. split; [exact Hv|]. split; [lia | exact En].
Qed.

(** The numeral of a place in the list chooses the storage at that place,
    counted from 1, at the first prompt. *)
Theorem select_storage_by_number :
  forall (int_refuses : str -> bool) (int_other : str -> outcome Z)
         (storages typed : list str) (k : nat) (name : str),
    nth_error storages k = Some name ->
    int_refuses (str_of_N (N.of_nat (S k))) = false ->
    select_storage int_refuses int_other storages
      (str_of_N (N.of_nat (S k)) :: typed)
    = ((ask_prompt (py "Seleccione almacenamiento (número)") (py "1")
          :: success (py "Almacenamiento seleccionado: " ++ name),
        Returned name),
       typed).
Proof.
  intros ir io storages typed k name Hk Hr. unfold select_storage.
  rewrite (ask_numeral _ _ _ typed (str_of_N_numeral (N.of_nat (S k)))).
  unfold bind at 1. unfold int_.
  rewrite (numeral_is_digit (str_of_N_numeral (N.of_nat (S k)))), Hr.
  rewrite decimal_str_of_N. unfold lift, bind at 1.
  assert (Hlen : k < List.length storages).
  { apply nth_error_Some. rewrite Hk. discriminate. }
  assert (E : ((Z.of_N (N.of_nat (S k)) <? 1)
               || (Z.of_nat (List.length storages) <? Z.of_N (N.of_nat (S k))))%Z
              = false).
  { apply orb_false_iff. split; apply Z.ltb_ge; lia. }
  rewrite E.
  destruct (@subscript_in_range storages (Z.of_N (N.of_nat (S k)) - 1))
    as [Es En]; [lia|].
  unfold ret at 1. unfold bind at 1. rewrite Es.
  replace (Z.to_nat (Z.of_N (N.of_nat (S k)) - 1)) with k in * by lia.
  rewrite Hk in En. injection En as <-.
  unfold ret, bind, emit. cbn [app]. rewrite app_nil_r. reflexivity.
Qed.

Lemma select_storage_by_number_witness :
  select_storage (fun _ => false) (fun _ => Raised (py "ValueError"))
    [py "local"; py "local-lvm"] [py "2"]
  = ((ask_prompt (py "Seleccione almacenamiento (número)") (py "1")
        :: success (py "Almacenamiento seleccionado: " ++ py "local-lvm"),
      Returned (py "local-lvm")),
     []).
Proof.
  apply (@select_storage_by_number (fun _ => false)
           (fun _ => Raised (py "ValueError"))
           [py "local"; py "local-lvm"] [] 1 (py "local-lvm")); reflexivity.
Defined.

(** ** The defaults of the network configuration *)

Lemma run_command_quiet :
  forall command p,
    run_command command false false p
    = ([Shell command], result (run_command command false false p)).
Proof.
  intros command [c|e]; unfold run_command; [|reflexivity].
  destruct (returncode c =? 0)%Z; reflexivity.
Qed.

Lemma run_command_quiet_result :
  forall command command' p,
    result (run_command command false false p)
    = result (run_command command' false false p).
Proof.
  intros command command' [c|e]; unfold run_command; [|reflexivity].
  destruct (returncode c =? 0)%Z; reflexivity.
Qed.

(** When the host has a default route but the query for the address of its
    interface gives nothing, the block leaves [default_suggested_ip] and
    [default_mask] unbound, and the branch for a local address then stops
    with [UnboundLocalError] before it shows a prompt. *)
Theorem network_defaults_unbound :
  forall (p_interface p_cidr p_gateway : process) (default_interface : str)
         (default_cidr : option str),
    result (run_command interface_command false false p_interface)
    = Returned (Some default_interface) ->
    default_interface <> [] ->
    result (run_command (cidr_command default_interface) false false p_cidr)
    = Returned default_cidr ->
    truthy default_cidr = false ->
    network_defaults p_interface p_cidr p_gateway
    = ([Shell interface_command; Shell (cidr_command default_interface)],
       Returned (Defaults None None (Some [])))
    /\ forall typed,
        local_network (Defaults None None (Some [])) typed
        = ([], Raised (py "UnboundLocalError"), typed).
Proof.
  intros p_i p_c p_g iface cidr Hi Hne Hc Ht. split; [|reflexivity].
  unfold network_defaults.
  rewrite run_command_quiet, Hi. unfold bind at 1.
  destruct iface as [|x iface]; [contradiction|].
  cbn [truthy text_of].
  rewrite run_command_quiet, Hc. unfold bind at 1. rewrite Ht.
  reflexivity.
Qed.

Lemma network_defaults_unbound_witness :
  network_defaults (done "vmbr0
") (failed 1) (done "10.0.0.1")
  = ([Shell interface_command; Shell (cidr_command (py "vmbr0"))],
     Returned (Defaults None None (Some [])))
  /\ forall typed,
      local_network (Defaults None None (Some [])) typed
      = ([], Raised (py "UnboundLocalError"), typed).
Proof.
  apply (@network_defaults_unbound (done "vmbr0
") (failed 1) (done "10.0.0.1") (py "vmbr0") None).
  - reflexivity.
  - discriminate.
  - reflexivity.
  - reflexivity.
Defined.

Lemma numeral_no_char :
  forall s sep,
    numeral s -> (sep < 48 \/ 57 < sep)%N ->
    forallb (fun c => negb (char_eqb c sep)) s = true.
Proof.
  intros s sep [_ H] Hsep. apply forallb_forall. intros c Hc.
  rewrite Forall_forall in H. specialize (H c Hc). unfold digit0 in H.
  apply negb_true_iff. apply N.eqb_neq. lia.
Qed.

Lemma split_dotted_quad :
  forall a b c d,
    numeral a -> numeral b -> numeral c -> numeral d ->
    split 46%N (dotted_quad a b c d) = [a; b; c; d].
Proof.
  intros a b c d Ha Hb Hc Hd. unfold dotted_quad.
  change (py ".") with [46%N]. cbn [app].
  rewrite !split_app_sep.
  rewrite !split_single by (apply numeral_no_char; [assumption | lia]).
  reflexivity.
Qed.

Lemma split_cidr :
  forall a b c d mask,
    numeral a -> numeral b -> numeral c -> numeral d -> numeral mask ->
    split 47%N (dotted_quad a b c d ++ py "/" ++ mask)
    = [dotted_quad a b c d; mask].
Proof.
  intros a b c d mask Ha Hb Hc Hd Hm.
  change (py "/") with [47%N]. cbn [app].
  rewrite split_app_sep.
  rewrite (split_single 47%N mask)
    by (apply numeral_no_char; [assumption | lia]).
  rewrite split_single; [reflexivity|].
  unfold dotted_quad. change (py ".") with [46%N].
  rewrite !forallb_app. cbn [forallb].
  rewrite !numeral_no_char by (assumption || lia). reflexivity.
Qed.

Lemma network_defaults_found :
  forall (p_interface p_cidr p_gateway : process) (default_interface : str)
         (a b c d mask : str) (default_gateway : option str),
    result (run_command interface_command false false p_interface)
    = Returned (Some default_interface) ->
    default_interface <> [] ->
    result (run_command (cidr_command default_interface) false false p_cidr)
    = Returned (Some (dotted_quad a b c d ++ py "/" ++ mask)) ->
    numeral a -> numeral b -> numeral c -> numeral d -> numeral mask ->
    result (run_command gateway_command false false p_gateway)
    = Returned default_gateway ->
    network_defaults p_interface p_cidr p_gateway
    = ([Shell interface_command; Shell (cidr_command default_interface);
        Shell gateway_command],
       Returned (Defaults (Some (dotted_quad a b c (py "100"))) (Some mask)
                          default_gateway)).
Proof.
  intros p_i p_c p_g iface a b c d mask gw Hi Hne Hc Ha Hb Hcc Hd Hm Hg.
  unfold network_defaults.
  rewrite run_command_quiet, Hi. unfold bind at 1.
  destruct iface as [|x iface]; [contradiction|].
  cbn [truthy text_of].
  rewrite run_command_quiet, Hc. unfold bind at 1.
  assert (Et : truthy (Some (dotted_quad a b c d ++ py "/" ++ mask)) = true).
  { unfold dotted_quad. destruct Ha as [Hne' _].
    destruct a; [contradiction | reflexivity]. }
  rewrite Et. cbn [text_of].
  rewrite (split_cidr Ha Hb Hcc Hd Hm). cbn [item_at nth_error].
  unfold ret at 1. unfold bind at 1.
  rewrite (split_dotted_quad Ha Hb Hcc Hd). cbn [item_at nth_error].
  unfold ret at 1. unfold bind at 1.
  unfold ret at 1. unfold bind at 1.
  unfold ret at 1. unfold bind at 1.
  unfold ret at 1. unfold bind at 1.
  rewrite run_command_quiet, Hg. unfold bind, ret, try_except.
  reflexivity.
Qed.

(** When the address of the interface is found, the address suggested is
    made of its first three numbers and 100, the mask is the one found, and
    the gateway is whatever the third query returned, [None] included. *)
Theorem network_defaults_detected :
  forall (p_interface p_cidr p_gateway : process) (default_interface : str)
         (a b c d mask : str) (default_gateway : option str),
    result (run_command interface_command false false p_interface)
    = Returned (Some default_interface) ->
    default_interface <> [] ->
    result (run_command (cidr_command default_interface) false false p_cidr)
    = Returned (Some (dotted_quad a b c d ++ py "/" ++ mask)) ->
    numeral a -> numeral b -> numeral c -> numeral d -> numeral mask ->
    result (run_command gateway_command false false p_gateway)
    = Returned default_gateway ->
    network_defaults p_interface p_cidr p_gateway
    = ([Shell interface_command; Shell (cidr_command default_interface);
        Shell gateway_command],
       Returned (Defaults (Some (dotted_quad a b c (py "100"))) (Some mask)
                          default_gateway)).
Proof. exact network_defaults_found. Qed.

Lemma is_digit_numeral :
  forall s, negb (is_nil s) && forallb is_digit s = true -> numeral s.
Proof.
  intros s H. apply andb_true_iff in H. destruct H as [Hn Hd]. split.
  - intros ->. discriminate.
  - apply Forall_forall. intros c Hc.
    rewrite forallb_forall in Hd. specialize (Hd c Hc).
    unfold is_digit in Hd. apply andb_true_iff in Hd.
    destruct Hd as [H1 H2]. apply N.leb_le in H1, H2. split; assumption.
Qed.

Lemma numeral_100 : numeral (py "100").
Proof. apply is_digit_numeral. reflexivity. Qed.

Lemma network_defaults_detected_witness :
  network_defaults (done "vmbr0") (done "10.20.30.5/16") (done "10.20.0.1")
  = ([Shell interface_command; Shell (cidr_command (py "vmbr0"));
      Shell gateway_command],
     Returned (Defaults (Some (py "10.20.30.100")) (Some (py "16"))
                        (Some (py "10.20.0.1")))).
Proof.
  apply (@network_defaults_detected (done "vmbr0") (done "10.20.30.5/16")
           (done "10.20.0.1") (py "vmbr0") (py "10") (py "20") (py "30")
           (py "5") (py "16") (Some (py "10.20.0.1")));
    try reflexivity; try discriminate;
    (apply is_digit_numeral; reflexivity).
Defined.

Lemma then_silent_ret :
  forall (A B : Type) (a : A) (k : A -> console B) typed,
    then_ (silent (ret a)) k typed = k a typed.
Proof.
  intros A B a k typed. unfold then_, silent, ret. cbn [fst snd].
  destruct (k a typed) as [[t r] rest]. reflexivity.
Qed.

Lemma then_ask_accepts :
  forall (B : Type) prompt default validation error_msg
         (k : str -> console B) line typed,
    valid validation (or_ (strip line) default) = true ->
    then_ (ask prompt default validation error_msg) k (line :: typed)
    = (let '(t, r, rest) := k (or_ (strip line) default) typed in
       (ask_prompt prompt default :: t, r, rest)).
Proof.
  intros B prompt default validation error_msg k line typed H.
  unfold then_. rewrite (ask_accepts _ _ _ _ _ _ H). reflexivity.
Qed.

(** When the address is found and the query for the gateway fails, the
    default of the gateway prompt is [None]: an operator who accepts the
    three defaults of the local branch with the enter key stops the script
    with [TypeError] at the gateway prompt. *)
Theorem gateway_default_None :
  forall (p_interface p_cidr p_gateway : process) (default_interface : str)
         (a b c d mask : str) (typed : list str),
    result (run_command interface_command false false p_interface)
    = Returned (Some default_interface) ->
    default_interface <> [] ->
    result (run_command (cidr_command default_interface) false false p_cidr)
    = Returned (Some (dotted_quad a b c d ++ py "/" ++ mask)) ->
    numeral a -> numeral b -> numeral c -> numeral d -> numeral mask ->
    result (run_command gateway_command false false p_gateway)
    = Returned None ->
    exists defaults,
      result (network_defaults p_interface p_cidr p_gateway)
      = Returned defaults
      /\ local_network defaults ([] :: [] :: [] :: typed)
         = ([ask_prompt (py "Dirección IP local")
               (dotted_quad a b c (py "100"));
             ask_prompt (py "Máscara de red (CIDR)") mask;
             ask_prompt (py "Puerta de enlace") (py "None")],
            Raised (py "TypeError"), typed).
Proof.
  intros p_i p_c p_g iface a b c d mask typed Hi Hne Hc Ha Hb Hcc Hd Hm Hg.
  eexists. split.
  - rewrite (@network_defaults_found p_i p_c p_g iface a b c d mask None
               Hi Hne Hc Ha Hb Hcc Hd Hm Hg).
    reflexivity.
  - assert (E1 : or_ (strip []) (dotted_quad a b c (py "100"))
                 = dotted_quad a b c (py "100")).
    { unfold dotted_quad. destruct Ha as [Hne' _].
      destruct a; [contradiction | reflexivity]. }
    assert (E2 : or_ (strip []) mask = mask).
    { destruct Hm as [Hne' _]. destruct mask; [contradiction | reflexivity]. }
    unfold local_network. cbn [bound default_suggested_ip default_mask].
    rewrite then_silent_ret, then_ask_accepts.
    2:{ rewrite E1. apply ip_pattern_matches.
        exists a, b, c, (py "100"). repeat split; try apply Ha; try apply Hb;
          try apply Hcc; try apply numeral_100. left; reflexivity. }
    rewrite then_silent_ret, then_ask_accepts.
    2:{ rewrite E2. exact (numeral_valid Hm). }
    unfold ask_gateway. cbn [default_gateway].
    unfold then_ at 1. cbn [ask_None].
    change (strip []) with (@nil char). reflexivity.
Qed.

Lemma gateway_default_None_witness :
  exists defaults,
    result (network_defaults (done "vmbr0") (done "10.20.30.5/16") (failed 1))
    = Returned defaults
    /\ local_network defaults ([] :: [] :: [] :: [py "10.20.0.1"])
       = ([ask_prompt (py "Dirección IP local")
             (dotted_quad (py "10") (py "20") (py "30") (py "100"));
           ask_prompt (py "Máscara de red (CIDR)") (py "16");
           ask_prompt (py "Puerta de enlace") (py "None")],
          Raised (py "TypeError"), [py "10.20.0.1"]).
Proof.
  apply (@gateway_default_None (done "vmbr0") (done "10.20.30.5/16")
           (failed 1) (py "vmbr0") (py "10") (py "20") (py "30") (py "5")
           (py "16") [py "10.20.0.1"]);
    try reflexivity; try discriminate;
    (apply is_digit_numeral; reflexivity).
Defined.

(** ** Copying the custom modules *)

Lemma run_command_strict :
  forall command p,
    trace (run_command command true false p)
    = Shell command :: (if succeeds p then [] else
                          match p with
                          | Ran c => error (py "Error: " ++ command ++ nl
                                              :: py "Salida: " ++ stderr c)
                          | Not_run _ => []
                          end)
    /\ (if succeeds p
        then exists r, result (run_command command true false p) = Returned r
        else forall r, result (run_command command true false p) <> Returned r).
Proof.
  intros command [c|e]; unfold run_command, succeeds.
  - destruct (returncode c =? 0)%Z.
    + split; [reflexivity | eexists; reflexivity].
    + split; [reflexivity | intros r; discriminate].
  - split; [reflexivity | intros r; discriminate].
Qed.

Lemma forallb_map_S :
  forall (f : nat -> bool) l, forallb f (map S l) = forallb (fun i => f (S i)) l.
Proof.
  intros f; induction l as [|x l IH]; simpl; [reflexivity|].
  rewrite IH. reflexivity.
Qed.

Lemma all_succeed_S :
  forall n p,
    all_succeed (S n) p = succeeds (p 0) && all_succeed n (fun i => p (S i)).
Proof.
  intros n p. unfold all_succeed. cbn [seq forallb]. f_equal.
  rewrite <- seq_shift. apply forallb_map_S.
Qed.

Lemma all_succeed_add :
  forall n m p,
    all_succeed (n + m) p
    = all_succeed n p && all_succeed m (fun i => p (n + i)).
Proof.
  induction n as [|n IH]; intros m p.
  - reflexivity.
  - cbn [Nat.add]. rewrite !all_succeed_S, IH, andb_assoc. reflexivity.
Qed.

Lemma attempted_app :
  forall a b p,
    attempted (a ++ b) p
    = if all_succeed (List.length a) p
      then a ++ attempted b (fun i => p (List.length a + i))
      else attempted a p.
Proof.
  induction a as [|c a IH]; intros b p.
  - reflexivity.
  - cbn [app attempted List.length]. rewrite all_succeed_S.
    destruct (succeeds (p 0)); [|reflexivity].
    cbn [andb]. rewrite IH.
    destruct (all_succeed (List.length a) (fun i => p (S i))); reflexivity.
Qed.

Lemma shells_error_line :
  forall p command,
    shells (match p with
            | Ran c => error (py "Error: " ++ command ++ nl
                                :: py "Salida: " ++ stderr c)
            | Not_run _ => []
            end) = [].
Proof. intros [c|e] command; reflexivity. Qed.

Lemma shells_if_error :
  forall (b : bool) p command,
    shells (if b then [] else
              match p with
              | Ran c => error (py "Error: " ++ command ++ nl
                                  :: py "Salida: " ++ stderr c)
              | Not_run _ => []
              end) = [].
Proof. intros [|] p command; [reflexivity | apply shells_error_line]. Qed.

Lemma shells_bind :
  forall (A B : Type) (m : comp A) (k : A -> comp B),
    shells (trace (bind m k))
    = shells (trace m) ++ match result m with
                          | Returned a => shells (trace (k a))
                          | _ => []
                          end.
Proof.
  intros A B m k. rewrite trace_bind, shells_app.
  destruct (result m); reflexivity.
Qed.

Lemma run_commands_spec :
  forall commands p,
    shells (trace (run_commands commands p)) = attempted commands p
    /\ (if all_succeed (List.length commands) p
        then result (run_commands commands p) = Returned tt
        else result (run_commands commands p) <> Returned tt).
Proof.
  induction commands as [|c commands IH]; intros p.
  - split; reflexivity.
  - cbn [run_commands attempted List.length]. rewrite all_succeed_S.
    rewrite trace_bind, result_bind, shells_app.
    destruct (run_command_strict c (p 0)) as [Ht Hr]. rewrite Ht.
    destruct (succeeds (p 0)).
    + destruct Hr as (r & ->). cbn [andb shells app].
      destruct (IH (fun i => p (S i))) as [IH1 IH2].
      rewrite IH1. split; [reflexivity | exact IH2].
    + cbn [andb shells]. rewrite shells_error_line.
      destruct (result (run_command c true false (p 0))) as [r| |] eqn:E.
      * exfalso. exact (Hr r eq_refl).
      * split; [reflexivity | discriminate].
      * split; [reflexivity | discriminate].
Qed.

Lemma transfer_loop_spec :
  forall vm_id modules_dir custom_modules p,
    shells (trace (transfer_loop vm_id modules_dir custom_modules p))
    = attempted (flat_map (module_commands vm_id modules_dir) custom_modules) p
    /\ (if all_succeed
             (List.length (flat_map (module_commands vm_id modules_dir)
                             custom_modules)) p
        then result (transfer_loop vm_id modules_dir custom_modules p)
             = Returned tt
        else result (transfer_loop vm_id modules_dir custom_modules p)
             <> Returned tt).
Proof.
  intros vm_id modules_dir.
  induction custom_modules as [|module rest IH]; intros p.
  - split; reflexivity.
  - cbn [transfer_loop flat_map].
    rewrite attempted_app, length_app, all_succeed_add.
    change (List.length (module_commands vm_id modules_dir module)) with 5.
    rewrite trace_bind, result_bind, shells_app.
    destruct (run_commands_spec (module_commands vm_id modules_dir module) p)
      as [H1 H2].
    change (List.length (module_commands vm_id modules_dir module)) with 5
      in H2.
    rewrite H1.
    destruct (all_succeed 5 p).
    + rewrite H2. cbn [andb].
      rewrite trace_bind, result_bind, shells_app.
      cbn [emit result snd trace fst].
      change (shells (success _)) with (@nil str). cbn [app].
      destruct (IH (fun i => p (5 + i))) as [IH1 IH2].
      rewrite IH1.
      replace (attempted (module_commands vm_id modules_dir module) p)
        with (module_commands vm_id modules_dir module).
      * split; [reflexivity | exact IH2].
      * rewrite <- (app_nil_r (module_commands vm_id modules_dir module)) at 2.
        rewrite attempted_app.
        change (List.length (module_commands vm_id modules_dir module)) with 5.
        destruct (all_succeed 5 p) eqn:E; [reflexivity|].
        exfalso.
        destruct (run_commands_spec
                    (module_commands vm_id modules_dir module) p) as [_ H3].
        change (List.length (module_commands vm_id modules_dir module))
          with 5 in H3.
        rewrite E in H3. exact (H3 H2).
    + cbn [andb].
      destruct (result (run_commands (module_commands vm_id modules_dir module) p))
        as [[]| |] eqn:E.
      * contradiction H2. reflexivity.
      * rewrite app_nil_r. split; [reflexivity | discriminate].
      * rewrite app_nil_r. split; [reflexivity | discriminate].
Qed.

(** The commands that copy the custom modules are run in the order of the
    plan (one to make the directory, five for each module) up to the first
    that does not succeed, and none after it: a failure leaves the archives
    made so far where they are.  The section ends normally exactly when
    every command of the plan succeeds. *)
Theorem transfer_modules_stops_at_first_failure :
  forall (vm_id modules_dir : str) (custom_modules : list str)
         (p : nat -> process),
    shells (trace (transfer_modules vm_id modules_dir custom_modules p))
    = attempted (transfer_plan vm_id modules_dir custom_modules) p
    /\ (if all_succeed
             (List.length (transfer_plan vm_id modules_dir custom_modules)) p
        then result (transfer_modules vm_id modules_dir custom_modules p)
             = Returned tt
        else result (transfer_modules vm_id modules_dir custom_modules p)
             <> Returned tt).
Proof.
  intros vm_id modules_dir custom_modules p.
  unfold transfer_modules, transfer_plan.
  destruct (has_custom_modules custom_modules); [|split; reflexivity].
  cbn [attempted List.length]. rewrite all_succeed_S.
  rewrite !shells_bind, !result_bind.
  change (result (emit (section (py "CONFIGURACIÓN DE MÓDULOS PERSONALIZADOS"))))
    with (@Returned unit tt).
  change (result (emit (info (py "Copiando módulos personalizados al contenedor..."))))
    with (@Returned unit tt).
  change (shells (trace (emit (section (py "CONFIGURACIÓN DE MÓDULOS PERSONALIZADOS")))))
    with (@nil str).
  change (shells (trace (emit (info (py "Copiando módulos personalizados al contenedor...")))))
    with (@nil str).
  cbv iota. cbn [app].
  destruct (run_command_strict (mkdir_command vm_id) (p 0)) as [Ht Hr].
  rewrite Ht. cbn [shells]. rewrite shells_if_error.
  destruct (transfer_loop_spec vm_id modules_dir custom_modules
              (fun i => p (S i))) as [H1 H2].
  destruct (succeeds (p 0)).
  - destruct Hr as (r & ->). cbn [andb app]. rewrite H1.
    split; [reflexivity | exact H2].
  - cbn [andb].
    destruct (result (run_command (mkdir_command vm_id) true false (p 0)))
      as [r| |] eqn:E.
    + exfalso. exact (Hr r eq_refl).
    + split; [reflexivity | discriminate].
    + split; [reflexivity | discriminate].
Qed.

(** ** The output of the install script *)

Lemma lstrip_app :
  forall a b, lstrip a <> [] -> lstrip (a ++ b) = lstrip a ++ b.
Proof.
  induction a as [|c a IH]; intros b H; simpl in *; [contradiction|].
  destruct (isspace c); [apply IH; exact H | reflexivity].
Qed.

Lemma rstrip_framed :
  forall pre text,
    rstrip text <> [] -> rstrip (pre ++ text ++ [nl]) = pre ++ rstrip text.
Proof.
  intros pre text H. unfold rstrip in *.
  rewrite !rev_app_distr. cbn [rev app lstrip isspace].
  change (isspace nl) with true. cbv iota.
  rewrite lstrip_app.
  - rewrite rev_app_distr, rev_involutive. reflexivity.
  - intros E. rewrite E in H. contradiction H. reflexivity.
Qed.

Lemma strip_echoed :
  forall t text,
    rstrip text <> [] ->
    strip (echoed t text) = tag_text t ++ py " " ++ rstrip text.
Proof.
  intros t text H. unfold strip, echoed.
  assert (E : lstrip (tag_text t ++ py " " ++ text ++ [nl])
              = tag_text t ++ py " " ++ text ++ [nl])
    by (destruct t; reflexivity).
  rewrite E.
  replace (tag_text t ++ py " " ++ text ++ [nl])
    with ((tag_text t ++ py " ") ++ text ++ [nl])
    by (rewrite <- app_assoc; reflexivity).
  rewrite (@rstrip_framed (tag_text t ++ py " ") text H), <- app_assoc.
  reflexivity.
Qed.

Lemma infixb_no_bracket :
  forall pat s, no_bracket s = true -> infixb (91%N :: pat) s = false.
Proof.
  intros pat; induction s as [|y s IH]; intros H; [reflexivity|].
  unfold no_bracket in H. cbn [forallb] in H.
  apply andb_true_iff in H. destruct H as [Hy Hs].
  apply negb_true_iff in Hy. cbn [infixb prefixb]. rewrite Hy.
  cbn [andb orb]. apply IH. exact Hs.
Qed.

Lemma drop_from_no_bracket :
  forall old s, no_bracket s = true -> drop_from (91%N :: old) 0 s = s.
Proof.
  intros old; induction s as [|y s IH]; intros H; [reflexivity|].
  unfold no_bracket in H. cbn [forallb] in H.
  apply andb_true_iff in H. destruct H as [Hy Hs].
  apply negb_true_iff in Hy. cbn [drop_from prefixb]. rewrite Hy.
  cbn [andb]. f_equal. apply IH. exact Hs.
Qed.

Lemma no_bracket_prefix :
  forall a b, no_bracket (a ++ b) = true -> no_bracket a = true.
Proof.
  intros a b H. unfold no_bracket in *. rewrite forallb_app in H.
  apply andb_true_iff in H. apply H.
Qed.

Ltac literal s :=
  let x := eval vm_compute in (py s) in change (py s) with x.

(** What the functions of the install script write comes back as the
    message of the same kind: a line [[TAG] text] that [info], [success],
    [warning], [error] or [progress] echoes is shown by [main] as that kind
    of message with the text alone, without the white space at its end,
    given a text that holds no opening bracket and is not blank. *)
Theorem show_line_round_trip :
  forall (t : tag) (text : str),
    rstrip text <> [] ->
    no_bracket text = true ->
    show_line (echoed t text) = shown t (rstrip text).
Proof.
  intros t text Hne Hb. unfold show_line.
  rewrite (@strip_echoed t text Hne).
  assert (Hr : no_bracket (rstrip text) = true).
  { destruct (rstrip_prefix text) as [sp E].
    rewrite E in Hb. exact (no_bracket_prefix _ _ Hb). }
  generalize dependent (rstrip text). intros rt _ Hr.
  unfold replace_, tag_text.
  literal "[INFO]"%string; literal "[INFO] "%string; literal "[SUCCESS]"%string;
    literal "[SUCCESS] "%string; literal "[WARNING]"%string; literal "[WARNING] "%string;
    literal "[ERROR]"%string; literal "[ERROR] "%string; literal "[PROGRESS]"%string;
    literal "[PROGRESS] "%string; literal " "%string.
  destruct t;
    cbn [app infixb prefixb char_eqb N.eqb Pos.eqb andb orb drop_from
         List.length Nat.sub];
    rewrite ?(infixb_no_bracket _ _ Hr), ?(drop_from_no_bracket _ _ Hr);
    reflexivity.
Qed.

Lemma show_line_round_trip_witness :
  show_line (echoed PROGRESS (py "Instalando Node.js y npm (4/5)"))
  = shown PROGRESS (rstrip (py "Instalando Node.js y npm (4/5)")).
Proof.
  apply (@show_line_round_trip PROGRESS (py "Instalando Node.js y npm (4/5)")).
  - vm_compute. discriminate.
  - reflexivity.
Defined.

(** ** The end of the run *)

Lemma run_install_spec :
  forall describe vm_id s,
    match s with
    | Not_started e | Cut_off _ e => passes_except_Exception e = false
    | Finished _ _ => True
    end ->
    result (run_install describe vm_id s) = Returned tt
    /\ incl
         match s with
         | Finished _ return_code =>
           if (return_code =? 0)%Z
           then success (py "Instalación de Odoo completada con éxito")
           else warning (py "El proceso de instalación finalizó con código "
                           ++ str_of_Z return_code)
         | Not_started e | Cut_off _ e =>
           error (py "Error durante la instalación: " ++ describe e)
         end
         (trace (run_install describe vm_id s)).
Proof.
  intros describe vm_id s Hs. unfold run_install.
  destruct s as [e|output return_code|output e].
  - unfold emit, bind, lift, try_except_Exception. rewrite Hs.
    split; [reflexivity|]. cbn [trace fst].
    apply incl_appr, incl_refl.
  - unfold emit, bind, try_except_Exception.
    destruct (return_code =? 0)%Z; cbn [negb]; split; try reflexivity;
      cbn [trace fst]; apply incl_appr, incl_appr, incl_refl.
  - unfold emit, bind, lift, try_except_Exception. rewrite Hs.
    split; [reflexivity|]. cbn [trace fst].
    apply incl_appr, incl_refl.
Qed.

Lemma finish_spec :
  forall vm_id ip_address odoo_user db_password password custom_modules p_rm,
    succeeds p_rm = true ->
    result (finish vm_id ip_address odoo_user db_password password
              custom_modules p_rm) = Returned tt
    /\ In (banner "║                 INSTALACIÓN DE ODOO COMPLETADA                  ║")
          (trace (finish vm_id ip_address odoo_user db_password password
                    custom_modules p_rm)).
Proof.
  intros vm_id ip_address odoo_user db_password password custom_modules p_rm
         Hp.
  unfold finish. rewrite result_bind, trace_bind.
  destruct (run_command_cases (py "rm /tmp/odoo_install.sh") false p_rm)
    as [(_ & c & _ & E) | (E & _)]; [|rewrite E in Hp; discriminate].
  rewrite E. cbn [result snd trace fst emit].
  split; [reflexivity|].
  apply in_or_app. right. apply in_or_app. right.
  apply in_or_app. left. right. right. left. reflexivity.
Qed.

(** However the install script ends (with a return code that is not 0, or
    not started at all, or with output that cannot be read) [main] goes on:
    it shows one line about it (a warning with the code, or an error) and,
    when the install script is removed, announces INSTALACIÓN DE ODOO
    COMPLETADA and ends normally. *)
Theorem completion_announced_after_failed_install :
  forall (describe : str -> str)
         (vm_id ip_address odoo_user db_password password : str)
         (custom_modules : list str) (s : streamed) (p_rm : process),
    match s with
    | Not_started e | Cut_off _ e => passes_except_Exception e = false
    | Finished _ _ => True
    end ->
    succeeds p_rm = true ->
    result (install_and_finish describe vm_id ip_address odoo_user
              db_password password custom_modules s p_rm) = Returned tt
    /\ In (banner "║                 INSTALACIÓN DE ODOO COMPLETADA                  ║")
          (trace (install_and_finish describe vm_id ip_address odoo_user
                    db_password password custom_modules s p_rm))
    /\ incl
         match s with
         | Finished _ return_code =>
           if (return_code =? 0)%Z
           then success (py "Instalación de Odoo completada con éxito")
           else warning (py "El proceso de instalación finalizó con código "
                           ++ str_of_Z return_code)
         | Not_started e | Cut_off _ e =>
           error (py "Error durante la instalación: " ++ describe e)
         end
         (trace (install_and_finish describe vm_id ip_address odoo_user
                   db_password password custom_modules s p_rm)).
Proof.
  intros describe vm_id ip_address odoo_user db_password password
         custom_modules s p_rm Hs Hp.
  unfold install_and_finish. rewrite result_bind, trace_bind.
  destruct (run_install_spec describe vm_id s Hs) as [Hr Hi].
  destruct (@finish_spec vm_id ip_address odoo_user db_password password
              custom_modules p_rm Hp) as [Hf Hb].
  rewrite Hr. split; [exact Hf|]. split.
  - apply in_or_app. right. exact Hb.
  - apply incl_appl. exact Hi.
Qed.

Lemma completion_announced_after_failed_install_witness :
  result (install_and_finish (fun e => e) (py "100") (py "10.0.0.7")
            (py "odoo18") (py "admin2025") (py "Cambiame123") []
            (Finished [py "[ERROR] no network"] 1) (done ""))
  = Returned tt
  /\ In (banner "║                 INSTALACIÓN DE ODOO COMPLETADA                  ║")
        (trace (install_and_finish (fun e => e) (py "100") (py "10.0.0.7")
                  (py "odoo18") (py "admin2025") (py "Cambiame123") []
                  (Finished [py "[ERROR] no network"] 1) (done "")))
  /\ incl
       (warning (py "El proceso de instalación finalizó con código "
                   ++ str_of_Z 1))
       (trace (install_and_finish (fun e => e) (py "100") (py "10.0.0.7")
                 (py "odoo18") (py "admin2025") (py "Cambiame123") []
                 (Finished [py "[ERROR] no network"] 1) (done ""))).
Proof.
  apply (@completion_announced_after_failed_install (fun e => e) (py "100")
           (py "10.0.0.7") (py "odoo18") (py "admin2025") (py "Cambiame123")
           [] (Finished [py "[ERROR] no network"] 1) (done "")).
  - exact I.
  - reflexivity.
Defined.

(** ** The wait for the container, when an attempt raises *)

Lemma wait_attempt_unreadable :
  forall (json_loads : str -> outcome value) (hostname_cmd vm_id : str)
         (probe : nat -> process * process) (a : nat) (shown : bool)
         (c : completed) (e : str),
    fst (probe a) = Ran c -> returncode c = 0%Z -> strip (stdout c) <> [] ->
    json_loads (strip (stdout c)) = Raised e ->
    result (wait_attempt json_loads hostname_cmd vm_id probe a shown)
    = Raised e.
Proof.
  intros json_loads hostname_cmd vm_id probe a shown c e Hp Hc Hs Hj.
  unfold wait_attempt. rewrite Hp. unfold run_command. rewrite Hc.
  cbn [Z.eqb]. rewrite !result_bind. cbn [emit result snd].
  destruct (strip (stdout c)) as [|x s] eqn:E; [contradiction|].
  cbn [truthy text_of]. rewrite result_bind. unfold lift. cbn [result snd].
  rewrite Hj. reflexivity.
Qed.

Lemma wait_loop_raises :
  forall (json_loads : str -> outcome value) (hostname_cmd vm_id : str)
         (probe : nat -> process * process) (e : str) (k a n : nat)
         (last : option nat) (shown : bool),
    k < n ->
    (forall j, a <= j < a + k ->
          ready json_loads probe j = false
          /\ raises json_loads hostname_cmd vm_id probe j = false) ->
    (forall shown',
        result (wait_attempt json_loads hostname_cmd vm_id probe (a + k) shown')
        = Raised e) ->
    result (wait_loop json_loads hostname_cmd vm_id probe (seq a n) last shown)
    = Raised e.
Proof.
  intros json_loads hostname_cmd vm_id probe e.
  induction k as [|k IH]; intros a n last shown Hn Hbefore Hraise;
    (destruct n as [|n]; [lia|]); cbn [seq wait_loop]; rewrite result_bind.
  - rewrite Nat.add_0_r in Hraise. rewrite Hraise. reflexivity.
  - destruct (Hbefore a ltac:(lia)) as [Hr Hx].
    destruct (@wait_attempt_not_ready json_loads hostname_cmd vm_id probe
                a shown Hr Hx) as [shown' ->].
    cbn [fst snd]. apply IH; [lia | |].
    + intros j Hj. apply Hbefore. lia.
    + intros s. rewrite Nat.add_succ_comm. apply Hraise.
Qed.

(** A status text that [json.loads] cannot read stops the script: when the
    attempts before were answered without the container being ready, and
    the status query of one attempt succeeds with a text on which
    [json.loads] raises, the wait does not go on to the next attempt, the
    exception leaves [main]. *)
Theorem poller_stops_on_unreadable_status :
  forall (json_loads : str -> outcome value) (hostname_cmd vm_id : str)
         (probe : nat -> process * process) (k : nat) (c : completed)
         (e : str),
    k < 30 ->
    (forall j, j < k ->
          ready json_loads probe j = false
          /\ raises json_loads hostname_cmd vm_id probe j = false) ->
    fst (probe k) = Ran c -> returncode c = 0%Z -> strip (stdout c) <> [] ->
    json_loads (strip (stdout c)) = Raised e ->
    result (wait_for_container json_loads hostname_cmd vm_id probe)
    = Raised e.
Proof.
  intros json_loads hostname_cmd vm_id probe k c e Hk Hbefore Hp Hc Hs Hj.
  rewrite wait_for_container_result.
  rewrite (@wait_loop_raises json_loads hostname_cmd vm_id probe e k 0 30
             None false Hk).
  - reflexivity.
  - intros j Hj'. apply Hbefore. lia.
  - intros shown'. cbn [Nat.add].
    exact (@wait_attempt_unreadable json_loads hostname_cmd vm_id probe k
             shown' c e Hp Hc Hs Hj).
Qed.

Lemma poller_stops_on_unreadable_status_witness :
  result (wait_for_container json_loads_status (py "pve") (py "100")
            (garbled_at 2))
  = Raised (py "JSONDecodeError").
Proof.
  apply (@poller_stops_on_unreadable_status json_loads_status (py "pve")
           (py "100") (garbled_at 2) 2
           (Completed 0 (py "starting up") []) (py "JSONDecodeError")).
  - lia.
  - intros j Hj.
    destruct j as [|[|j]]; [vm_compute; auto | vm_compute; auto | lia].
  - reflexivity.
  - reflexivity.
  - vm_compute. discriminate.
  - reflexivity.
Defined.

Lemma poller_warning_rule_witness :
  warned (trace (wait_for_container json_loads_status (py "pve") (py "100")
                   (network_up_at 3)))
  = forallb (fun j => negb (ready json_loads_status (network_up_at 3) j))
            (seq 0 29).
Proof.
  apply (@poller_warning_rule json_loads_status (py "pve") (py "100")
           (network_up_at 3)).
  intros j Hj.
  do 30 (destruct j as [|j]; [vm_compute; reflexivity|]). lia.
Defined.

(** ** The network of a public address *)

Lemma then_returned :
  forall (A B : Type) (m : console A) (k : A -> console B) typed t b rest,
    then_ m k typed = (t, Returned b, rest) ->
    exists a t1 rest1 t2,
      m typed = (t1, Returned a, rest1)
      /\ k a rest1 = (t2, Returned b, rest).
Proof.
  intros A B m k typed t b rest H. unfold then_ in H.
  destruct (m typed) as [[t1 [a| |]] rest1]; try discriminate H.
  destruct (k a rest1) as [[t2 r2] rest2] eqn:Ek.
  injection H as _ -> ->. exists a, t1, rest1, t2. split; [reflexivity|exact Ek].
Qed.

(** What the branch for a public address hands on, whatever is typed and
    whatever the defaults are: an address of four numerals with dots
    between them, the mask 32, and an address of the network card of six
    pairs of hexadecimal digits. *)
Theorem public_network_shape :
  forall (d : defaults) (typed : list str) (trace : list event)
         (n : network) (rest : list str),
    public_network d typed = (trace, Returned n, rest) ->
    (exists a b c e,
        numeral a /\ numeral b /\ numeral c /\ numeral e
        /\ ip_address n = dotted_quad a b c e)
    /\ netmask n = py "32"
    /\ public_ip n = true
    /\ exists mac, mac_address n = Some mac /\ is_mac_address mac = true.
Proof.
  intros d typed trace n rest H. unfold public_network in H.
  apply then_returned in H. destruct H as (ip & t1 & r1 & t1' & Hip & H).
  apply then_returned in H. destruct H as (gw & t2 & r2 & t2' & Hgw & H).
  apply then_returned in H. destruct H as (dns & t3 & r3 & t3' & Hdns & H).
  apply then_returned in H. destruct H as (mac & t4 & r4 & t4' & Hmac & H).
  unfold unit_ in H. injection H as _ <- _. cbn.
  split; [|split; [reflexivity|split; [reflexivity|]]].
  - apply ask_returned_valid in Hip. destruct Hip as (Hv & line & _ & ->).
    apply address_entry_dotted_quad; [|exact Hv].
    intros x E. destruct x; discriminate E.
  - exists mac. split; [reflexivity|].
    apply ask_mac_entry in Hmac. destruct Hmac as (line & _ & -> & Hv).
    exact (mac_entry line Hv).
Qed.

Lemma public_network_shape_witness :
  (exists a b c e,
      numeral a /\ numeral b /\ numeral c /\ numeral e
      /\ py "203.0.113.7" = dotted_quad a b c e)
  /\ py "32" = py "32"
  /\ true = true
  /\ exists mac,
      Some (py "BC:24:11:aa:0f:3e") = Some mac /\ is_mac_address mac = true.
Proof.
  apply (@public_network_shape fallback
           [[]; py "203.0.113.7"; py "203.0.113.1"; [];
            py "BC:24:11:aa:0f:3e"]
           (fst (fst (public_network fallback
                        [[]; py "203.0.113.7"; py "203.0.113.1"; [];
                         py "BC:24:11:aa:0f:3e"])))
           (Network (py "203.0.113.7") (py "32") (py "203.0.113.1")
                    (py "9.9.9.9,1.1.1.1") true
                    (Some (py "BC:24:11:aa:0f:3e")))
           []).
  reflexivity.
Defined.

(** ** The routes of a public address *)

(** For a public address the network configuration is written to
    /tmp/01-netcfg.yaml on the host before any command is run; the five
    commands that install it (push, chmod, removal of the old files, netplan
    apply, removal of the file on the host) run in this order up to the
    first that does not succeed and none after it, so a failure leaves the
    file on the host; the section ends normally exactly when all five
    succeed.  For a local address nothing is written or run. *)
Theorem public_route_setup :
  forall (vm_id ip_address gateway dns_servers : str) (p : nat -> process),
    (exists rest,
        trace (configure_public_ip vm_id true ip_address gateway dns_servers p)
        = info (py "Configurando rutas para IP pública...")
            ++ File_write netcfg_path
                 (netplan_config ip_address gateway dns_servers)
            :: rest
        /\ shells rest = attempted (route_commands vm_id) p)
    /\ (if all_succeed 5 p
        then result (configure_public_ip vm_id true ip_address gateway
                       dns_servers p) = Returned tt
        else result (configure_public_ip vm_id true ip_address gateway
                       dns_servers p) <> Returned tt)
    /\ configure_public_ip vm_id false ip_address gateway dns_servers p
       = ret tt.
Proof.
  intros vm_id ip_address gateway dns_servers p.
  unfold configure_public_ip.
  destruct (run_commands_spec (route_commands vm_id) p) as [H1 H2].
  change (List.length (route_commands vm_id)) with 5 in H2.
  rewrite !trace_bind, !result_bind.
  change (result (emit (info (py "Configurando rutas para IP pública..."))))
    with (@Returned unit tt).
  change (result (emit [File_write netcfg_path
                          (netplan_config ip_address gateway dns_servers)]))
    with (@Returned unit tt).
  cbv iota. split; [|split; [exact H2 | reflexivity]].
  exists (trace (run_commands (route_commands vm_id) p)).
  split; [reflexivity | exact H1].
Qed.
